(** * KnowledgeCatalyst: progressive-disclosure graph visualisation

    A shallow embedding of the two frontend functions that decide what
    part of the knowledge graph is drawn, and how:

    - [get_visible_nodes] of [frontend/app.py], the visibility
      computation over the expansion set;
    - [_convert_to_cytoscape_format], [_build_html_template] and
      [render_cytoscape_graph] of [frontend/cytoscape_graph.py], the
      mapping of graph records to Cytoscape.js elements and the emission
      of the HTML document.

    Python dictionaries that the code only reads through [get] are
    records whose fields are [option]s ([None] for an absent key);
    Python sets are [gset]s; the property bag of a node is an association
    list, because the tooltip follows its iteration order.  Strings are
    sequences of code points below 256.  Floating point property values
    and list-valued properties are outside the model. *)

From Stdlib Require Import ZArith DecimalString Ascii.
From stdpp Require Import gmap strings list.

Set Warnings "-clear-no-such-hyp".

(** ** The Python layer: values, truthiness, [str], [html.escape] *)

Module Py.

(** A property value as the graph driver hands it over: [None], a
    [bool], an [int], a [str], or an object of some other class (a
    temporal or spatial value, say), of which the code only ever takes
    the truth value (objects are truthy by default), the [str()] and the
    JSON encoding (which [json.dumps] refuses). *)
Inductive value :=
| VNone
| VBool (b : bool)
| VInt (z : Z)
| VStr (s : string)
| VObj (class_name repr : string).

#[global] Instance value_eq_dec : EqDecision value.
Proof. solve_decision. Defined.

(** Truth value testing, as [bool(v)]. *)
Definition truthy (v : value) : bool :=
  match v with
  | VNone => false
  | VBool b => b
  | VInt z => negb (Z.eqb z 0)
  | VStr s => negb (bool_decide (s = ""))
  | VObj _ _ => true
  end.

(** [a or b]: the first operand when it is truthy, else the second. *)
Definition py_or (a b : value) : value := if truthy a then a else b.

(** [str(z)], in decimal.  CPython from 3.11 refuses the conversion, in
    [str] as in [json.dumps], for an integer of more than 4300 digits
    (the default of [sys.set_int_max_str_digits]) and raises
    [ValueError]: the definition is that of the conversion within the
    limit. *)
Definition str_of_int (z : Z) : string := NilZero.string_of_int (Z.to_int z).

(** [str(v)]. *)
Definition py_str (v : value) : string :=
  match v with
  | VNone => "None"
  | VBool true => "True"
  | VBool false => "False"
  | VInt z => str_of_int z
  | VStr s => s
  | VObj _ repr => repr
  end.

(** [s[:n]]. *)
Definition prefix (n : nat) (s : string) : string := String.substring 0 n s.

(** [sep.join(parts)]. *)
Definition join (sep : string) (parts : list string) : string :=
  String.concat sep parts.

(** [dict.get(key)] on a property bag: [None] for an absent key. *)
Fixpoint dict_get {V} (key : string) (d : list (string * V)) : option V :=
  match d with
  | [] => None
  | (k, v) :: d' => if decide (k = key) then Some v else dict_get key d'
  end.

Definition get_value (key : string) (d : list (string * value)) : value :=
  default VNone (dict_get key d).

(** The double quote, which a string literal cannot hold bare. *)
Definition dquote : ascii := ascii_of_nat 34.

(** [s.replace(c, by)] for a one-character pattern. *)
Fixpoint replace_char (c : ascii) (by_ : string) (s : string) : string :=
  match s with
  | EmptyString => EmptyString
  | String a s' =>
      if decide (a = c) then by_ +:+ replace_char c by_ s'
      else String a (replace_char c by_ s')
  end.

(** [html.escape(s)] with its default [quote=True]: five replacements in
    this order, the ampersand first. *)
Definition html_escape (s : string) : string :=
  let s := replace_char "&"%char "&amp;" s in
  let s := replace_char "<"%char "&lt;" s in
  let s := replace_char ">"%char "&gt;" s in
  let s := replace_char dquote "&quot;" s in
  replace_char "'"%char "&#x27;" s.

(** [s.replace('</', '<\\/')], which puts a backslash between the two
    characters: occurrences of a two-character pattern
    cannot overlap, so one left-to-right pass finds them all. *)
Fixpoint neutralize_close (s : string) : string :=
  match s with
  | EmptyString => EmptyString
  | String a s' =>
      match s' with
      | String b s'' =>
          if decide (a = "<"%char ∧ b = "/"%char)
          then "<\/" +:+ neutralize_close s''
          else String a (neutralize_close s')
      | EmptyString => String a EmptyString
      end
  end.

End Py.

(** ** Graph records

    A node is a dict with keys [element_id], [labels] and [properties];
    a relationship one with [element_id], [start_node_element_id],
    [end_node_element_id] and [type].  A key is absent ([None]) or bound
    to a string.  The code reads [labels] and [properties] only through
    [get] with the defaults [[]] and [{}], so an absent key and an empty
    value are one there. *)

(** What [d.get(key)] returns for an id: a string, or Python's [None]. *)
Abbreviation pyid := (option string).

Record node := Node {
  n_element_id : pyid;
  n_labels : list string;
  n_properties : list (string * Py.value)
}.

Record rel := Rel {
  r_element_id : pyid;
  r_start : pyid;
  r_end : pyid;
  r_type : pyid
}.

#[global] Instance node_eq_dec : EqDecision node.
Proof. solve_decision. Defined.
#[global] Instance rel_eq_dec : EqDecision rel.
Proof. solve_decision. Defined.

(** [d.get(key, '')]. *)
Definition or_empty (i : pyid) : string := default "" i.

(** ** [frontend/app.py]: the visibility computation *)

Module Visibility.

(** [labels and labels[0] == 'Document'] *)
Definition is_document (n : node) : bool :=
  match n_labels n with
  | [] => false
  | l :: _ => bool_decide (l = "Document")
  end.

(** Step 1, one turn of the loop over [all_nodes]: a Document's id goes
    into [visible_node_ids] and into [document_ids]. *)
Definition add_document (acc : gset pyid * gset pyid) (n : node)
  : gset pyid * gset pyid :=
  if is_document n
  then ({[ n_element_id n ]} ∪ acc.1, {[ n_element_id n ]} ∪ acc.2)
  else acc.

(** Steps 2 and 3 run the same loop body over [all_relationships], once
    against [document_ids] and once against [expanded_node_ids]: [hit]
    is the membership test of that set. *)
Definition add_neighbours (hit : string → bool) (visible : gset pyid) (r : rel)
  : gset pyid :=
  let start_id := or_empty (r_start r) in
  let end_id := or_empty (r_end r) in
  let visible := if hit start_id then {[ Some end_id ]} ∪ visible else visible in
  if hit end_id then {[ Some start_id ]} ∪ visible else visible.

(** The set [visible_node_ids] as it stands before the final filtering.
    (The dict [node_id_to_node] that the source also builds is never
    read.) *)
Definition visible_node_ids (all_nodes : list node) (all_relationships : list rel)
    (expanded_node_ids : gset string) : gset pyid :=
  let '(visible, document_ids) := foldl add_document (∅, ∅) all_nodes in
  let visible :=
    foldl (add_neighbours (λ i, bool_decide (Some i ∈ document_ids)))
          visible all_relationships in
  (* [if expanded_node_ids:] an empty set is falsy *)
  if decide (expanded_node_ids = ∅) then visible
  else foldl (add_neighbours (λ i, bool_decide (i ∈ expanded_node_ids)))
             visible all_relationships.

Definition get_visible_nodes (all_nodes : list node) (all_relationships : list rel)
    (expanded_node_ids : gset string) (view_type : string)
  : list node * list rel :=
  if decide (view_type = "schema") then (all_nodes, all_relationships)
  else
    let visible := visible_node_ids all_nodes all_relationships expanded_node_ids in
    (filter (λ n, n_element_id n ∈ visible) all_nodes,
     filter (λ r, r_start r ∈ visible ∧ r_end r ∈ visible) all_relationships).

End Visibility.

(** ** Failure and logging

    [render_cytoscape_graph] logs through [logging] and wraps its whole
    body in [try ... except Exception]: a computation takes the log so far
    and gives back a value or a raised exception, of which only the
    message [str(e)] is ever used, and the log after it. *)

Inductive level := INFO | WARNING | ERROR.

Inductive result (A : Type) :=
| Ok (a : A)
| Raise (msg : string).
Arguments Ok {A} a.
Arguments Raise {A} msg.

Definition M (A : Type) : Type := list (level * string) → result A * list (level * string).

#[global] Instance M_ret : MRet M := λ A a log, (Ok a, log).
#[global] Instance M_bind : MBind M := λ A B f m log,
  match m log with
  | (Ok a, log') => f a log'
  | (Raise e, log') => (Raise e, log')
  end.

Definition emit (lv : level) (msg : string) : M unit :=
  λ log, (Ok tt, log ++ [(lv, msg)]).

Definition lift {A} (r : result A) : M A := λ log, (r, log).

(** [try: body except Exception as e: handler(str(e))] *)
Definition try_except {A} (body : M A) (handler : string → M A) : M A :=
  λ log,
    match body log with
    | (Ok a, log') => (Ok a, log')
    | (Raise e, log') => handler e log'
    end.

(** ** [json.dumps] with its defaults

    [ensure_ascii=True] and the separators [', '] and [': '].  A key of
    a dict is written in insertion order. *)

Module Json.
Import Py.

Definition hex_digit (n : nat) : ascii :=
  ascii_of_nat (if decide (n < 10) then 48 + n else 87 + n).

(** One character of a string: the quote and the backslash take a
    backslash, five control characters have a short form, printable
    ASCII stands for itself, anything else is written [\u00xx]. *)
Definition escape_char (c : ascii) : string :=
  let n := nat_of_ascii c in
  if decide (n = 34) then String "\"%char (String dquote EmptyString)
  else if decide (n = 92) then "\\"
  else if decide (n = 10) then "\n"
  else if decide (n = 13) then "\r"
  else if decide (n = 9) then "\t"
  else if decide (n = 8) then "\b"
  else if decide (n = 12) then "\f"
  else if decide (32 ≤ n ≤ 126) then String c EmptyString
  else "\u00" +:+ String (hex_digit (n / 16)) (String (hex_digit (n mod 16)) EmptyString).

Fixpoint escape_chars (s : string) : string :=
  match s with
  | EmptyString => EmptyString
  | String c s' => escape_char c +:+ escape_chars s'
  end.

Definition quoted (body : string) : string :=
  String dquote (body +:+ String dquote EmptyString).

Definition dumps_str (s : string) : string := quoted (escape_chars s).

Definition dumps_bool (b : bool) : string := if b then "true" else "false".

Definition dumps_list (items : list string) : string :=
  "[" +:+ join ", " items +:+ "]".

(** A dict from its already encoded values, keys in order. *)
Definition dumps_dict (items : list (string * string)) : string :=
  "{" +:+ join ", " (map (λ kv, dumps_str kv.1 +:+ ": " +:+ kv.2) items) +:+ "}".

(** A property value: the encoder has no case for an object of another
    class and raises [TypeError]. *)
Definition dumps_value (v : value) : result string :=
  match v with
  | VNone => Ok "null"
  | VBool b => Ok (dumps_bool b)
  | VInt z => Ok (str_of_int z)
  | VStr s => Ok (dumps_str s)
  | VObj cls _ => Raise ("Object of type " +:+ cls +:+ " is not JSON serializable")
  end.

(** The values of a property bag in order; the first failure ends the
    encoding. *)
Fixpoint dumps_items (d : list (string * value)) : result (list (string * string)) :=
  match d with
  | [] => Ok []
  | (k, v) :: d' =>
      match dumps_value v with
      | Raise e => Raise e
      | Ok j =>
          match dumps_items d' with
          | Raise e => Raise e
          | Ok js => Ok ((k, j) :: js)
          end
      end
  end.

Definition dumps_properties (d : list (string * value)) : result string :=
  match dumps_items d with
  | Raise e => Raise e
  | Ok js => Ok (dumps_dict js)
  end.

End Json.

(** ** [frontend/cytoscape_graph.py] *)

Module Cytoscape.
Import Py.

Definition COLOR_SCHEME : list (string * string) :=
  [ ("Document", "#3b82f6"); ("Chunk", "#8b5cf6"); ("Person", "#10b981");
    ("Organization", "#f59e0b"); ("Location", "#ef4444"); ("Event", "#ec4899");
    ("Concept", "#06b6d4"); ("Technology", "#8b5cf6");
    ("__Community__", "#64748b"); ("__Entity__", "#94a3b8") ].

(** A parameter of a layout preset.  A float is kept as the decimal
    literal of the source, which is also its [repr] and so its JSON
    text. *)
Inductive param :=
| PBool (b : bool)
| PInt (z : Z)
| PStr (s : string)
| PFloat (literal : string).

Definition LAYOUT_CONFIGS : list (string * list (string * param)) :=
  [ ("cola",
     [ ("name", PStr "cola"); ("animate", PBool true);
       ("animationDuration", PInt 1000); ("maxSimulationTime", PInt 4000);
       ("ungrabifyWhileSimulating", PBool true); ("fit", PBool true);
       ("avoidOverlap", PBool true); ("handleDisconnected", PBool true);
       ("convergenceThreshold", PFloat "0.01"); ("nodeSpacing", PInt 50) ]);
    ("cose",
     [ ("name", PStr "cose"); ("animate", PBool true);
       ("animationDuration", PInt 1000); ("animationEasing", PStr "ease-out");
       ("nodeRepulsion", PInt 400000); ("idealEdgeLength", PInt 100);
       ("edgeElasticity", PInt 100); ("gravity", PInt 80);
       ("numIter", PInt 1000); ("initialTemp", PInt 200);
       ("coolingFactor", PFloat "0.95"); ("minTemp", PFloat "1.0") ]);
    ("dagre",
     [ ("name", PStr "dagre"); ("animate", PBool true);
       ("animationDuration", PInt 800); ("rankDir", PStr "TB");
       ("ranker", PStr "tight-tree"); ("nodeSep", PInt 50);
       ("edgeSep", PInt 10); ("rankSep", PInt 75); ("fit", PBool true);
       ("padding", PInt 30) ]);
    ("circle",
     [ ("name", PStr "circle"); ("animate", PBool true);
       ("animationDuration", PInt 800);
       ("animationEasing", PStr "ease-in-out-cubic");
       ("avoidOverlap", PBool true); ("startAngle", PFloat "4.71238898");
       ("clockwise", PBool true) ]);
    ("random",
     [ ("name", PStr "random"); ("animate", PBool false); ("fit", PBool true) ]) ].

Definition _escape_property_value (v : value) : value :=
  match v with
  | VStr s => VStr (html_escape s)
  | _ => v
  end.

(** The element built for a node.  The fields [cn_id] to [cn_expanded]
    are the entries of its ['data'] dict, in the order of the source. *)
Record cy_node := CyNode {
  cn_id : string;
  cn_label : string;
  cn_labels : list string;
  cn_color : string;
  cn_size : Z;
  cn_tooltip : string;
  cn_properties : list (string * value);
  cn_expanded : bool;
  cn_classes : string
}.

Record cy_edge := CyEdge {
  ce_id : string;
  ce_source : string;
  ce_target : string;
  ce_label : string
}.

Record elements := Elements {
  el_nodes : list cy_node;
  el_edges : list cy_edge
}.

(** [properties.get('id') or properties.get('name') or
    properties.get('fileName') or (labels[0] if labels else 'Node')];
    [or] associates to the left. *)
Definition node_caption (n : node) : value :=
  let properties := n_properties n in
  py_or (py_or (py_or (get_value "id" properties) (get_value "name" properties))
               (get_value "fileName" properties))
        (match n_labels n with l :: _ => VStr l | [] => VStr "Node" end).

Definition node_color (color_scheme : list (string * string)) (n : node) : string :=
  match n_labels n with
  | l :: _ => default "#94a3b8" (dict_get l color_scheme)
  | [] => "#94a3b8"
  end.

(** [key not in ['embedding', 'text', 'summary']] *)
Definition displayed_key (key : string) : bool :=
  negb (bool_decide (key ∈ ["embedding"; "text"; "summary"])).

(** One turn of the loop over [properties.items()]. *)
Definition add_property_line (tooltip_parts : list string) (item : string * value)
  : list string :=
  let '(key, v) := item in
  if displayed_key key && truthy v
  then tooltip_parts ++ [key +:+ ": " +:+ prefix 100 (py_str (_escape_property_value v))]
  else tooltip_parts.

Definition node_tooltip_parts (n : node) (expanded_nodes : gset string) : list string :=
  let node_id := or_empty (n_element_id n) in
  let tooltip_parts :=
    ["<strong>" +:+ py_str (_escape_property_value (node_caption n)) +:+ "</strong>"] in
  let tooltip_parts := tooltip_parts ++ ["Type: " +:+ join ", " (n_labels n)] in
  let tooltip_parts :=
    if decide (node_id ∈ expanded_nodes)
    then tooltip_parts ++ ["<em>Expanded</em>"] else tooltip_parts in
  foldl add_property_line tooltip_parts (n_properties n).

Definition convert_node (color_scheme : list (string * string))
    (expanded_nodes : gset string) (n : node) : cy_node :=
  let node_id := or_empty (n_element_id n) in
  {| cn_id := node_id;
     cn_label := prefix 30 (py_str (node_caption n));
     cn_labels := n_labels n;
     cn_color := node_color color_scheme n;
     cn_size := if decide (node_id ∈ expanded_nodes) then 25 else 20;
     cn_tooltip := join "<br>" (node_tooltip_parts n expanded_nodes);
     cn_properties := n_properties n;
     cn_expanded := bool_decide (node_id ∈ expanded_nodes);
     cn_classes := if decide (node_id ∈ expanded_nodes) then "expanded" else "" |}.

(** [{node.get('element_id') for node in nodes}] *)
Definition node_id_set (nodes : list node) : gset pyid :=
  list_to_set (map n_element_id nodes).

(** One turn of the loop over [relationships]: the edge is appended
    only when both ends are non-empty and in [node_ids]. *)
Definition add_edge (node_ids : gset pyid) (cy_edges : list cy_edge) (r : rel)
  : list cy_edge :=
  let start_id := or_empty (r_start r) in
  let end_id := or_empty (r_end r) in
  let rel_type := or_empty (r_type r) in
  if negb (bool_decide (start_id = "")) && negb (bool_decide (end_id = ""))
     && bool_decide (Some start_id ∈ node_ids) && bool_decide (Some end_id ∈ node_ids)
  then cy_edges ++
         [ {| ce_id := default (start_id +:+ "-" +:+ end_id) (r_element_id r);
              ce_source := start_id;
              ce_target := end_id;
              ce_label := rel_type |} ]
  else cy_edges.

Definition _convert_to_cytoscape_format (nodes : list node) (relationships : list rel)
    (expanded_nodes : gset string) (color_scheme : list (string * string)) : elements :=
  let cy_nodes :=
    foldl (λ acc n, acc ++ [convert_node color_scheme expanded_nodes n]) [] nodes in
  let node_ids := node_id_set nodes in
  let cy_edges := foldl (add_edge node_ids) [] relationships in
  {| el_nodes := cy_nodes; el_edges := cy_edges |}.

(** *** Serialisation of the elements, as [json.dumps(elements)] *)

Definition dumps_node (c : cy_node) : result string :=
  match Json.dumps_properties (cn_properties c) with
  | Raise e => Raise e
  | Ok properties_json =>
      Ok (Json.dumps_dict
            [ ("data", Json.dumps_dict
                 [ ("id", Json.dumps_str (cn_id c));
                   ("label", Json.dumps_str (cn_label c));
                   ("labels", Json.dumps_list (map Json.dumps_str (cn_labels c)));
                   ("color", Json.dumps_str (cn_color c));
                   ("size", str_of_int (cn_size c));
                   ("tooltip", Json.dumps_str (cn_tooltip c));
                   ("properties", properties_json);
                   ("expanded", Json.dumps_bool (cn_expanded c)) ]);
              ("classes", Json.dumps_str (cn_classes c)) ])
  end.

Fixpoint dumps_nodes (cs : list cy_node) : result (list string) :=
  match cs with
  | [] => Ok []
  | c :: cs' =>
      match dumps_node c with
      | Raise e => Raise e
      | Ok j =>
          match dumps_nodes cs' with
          | Raise e => Raise e
          | Ok js => Ok (j :: js)
          end
      end
  end.

Definition dumps_edge (e : cy_edge) : string :=
  Json.dumps_dict
    [ ("data", Json.dumps_dict
         [ ("id", Json.dumps_str (ce_id e));
           ("source", Json.dumps_str (ce_source e));
           ("target", Json.dumps_str (ce_target e));
           ("label", Json.dumps_str (ce_label e)) ]) ].

Definition dumps_elements (els : elements) : result string :=
  match dumps_nodes (el_nodes els) with
  | Raise e => Raise e
  | Ok js =>
      Ok (Json.dumps_dict
            [ ("nodes", Json.dumps_list js);
              ("edges", Json.dumps_list (map dumps_edge (el_edges els))) ])
  end.

Definition dumps_param (p : param) : string :=
  match p with
  | PBool b => Json.dumps_bool b
  | PInt z => str_of_int z
  | PStr s => Json.dumps_str s
  | PFloat literal => literal
  end.

Definition dumps_layout (config : list (string * param)) : string :=
  Json.dumps_dict (map (λ kp, (kp.1, dumps_param kp.2)) config).

(** *** The three documents

    Each builder is one f-string: fixed markup around the interpolated
    values.  A document is kept as its template and the text put into
    each hole; the fixed markup is not spelled out. *)
Inductive document :=
| GraphDocument (height : Z) (elements_json layout_json : string)
| EmptyGraphDocument (message_html : string)
| ErrorDocument (error_message_html : string).

(** [LAYOUT_CONFIGS['cola']] *)
Definition cola_config : list (string * param) :=
  default [] (dict_get "cola" LAYOUT_CONFIGS).

Definition _build_html_template (els : elements) (layout view_type : string)
    (height : Z) : result document :=
  let layout_config := default cola_config (dict_get layout LAYOUT_CONFIGS) in
  match dumps_elements els with
  | Raise e => Raise e
  | Ok j =>
      let elements_json := neutralize_close j in
      let layout_json := neutralize_close (dumps_layout layout_config) in
      Ok (GraphDocument height elements_json layout_json)
  end.

Definition _build_empty_graph_template (message : string) : document :=
  EmptyGraphDocument (html_escape message).

Definition _build_error_template (error_message : string) : document :=
  ErrorDocument (html_escape error_message).

(** *** [render_cytoscape_graph] *)

Definition len_str {A} (l : list A) : string := str_of_int (Z.of_nat (length l)).

(** The safety limit of the schema view: beyond 100 nodes, the first
    100 are kept, and the relationships between them. *)
Definition limit_schema (view_type : string) (nodes : list node)
    (relationships : list rel) : M (list node * list rel) :=
  if decide (view_type = "schema" ∧ 100 < length nodes) then
    _ ← emit WARNING ("Schema has " +:+ len_str nodes +:+
                       " nodes, limiting to 100 to prevent browser crash");
    let nodes := take 100 nodes in
    let node_ids := node_id_set nodes in
    mret (nodes,
          filter (λ r, r_start r ∈ node_ids ∧ r_end r ∈ node_ids) relationships)
  else mret (nodes, relationships).

(** [if layout not in LAYOUT_CONFIGS] *)
Definition check_layout (layout : string) : M string :=
  if decide (dict_get layout LAYOUT_CONFIGS = None) then
    _ ← emit WARNING ("Unknown layout: " +:+ layout +:+ ", falling back to 'cola'");
    mret "cola"
  else mret layout.

(** A schema of more than 50 nodes is not laid out by dagre. *)
Definition simplify_layout (view_type : string) (nodes : list node) (layout : string)
  : M string :=
  if decide (view_type = "schema" ∧ 50 < length nodes ∧ layout = "dagre") then
    _ ← emit INFO ("Schema has " +:+ len_str nodes +:+
                    " nodes, using circular layout instead of dagre");
    mret "circle"
  else mret layout.

(** The body of the [try]. *)
Definition render_body (nodes : list node) (relationships : list rel)
    (layout : string) (expanded_nodes : option (gset string))
    (view_type : string) (height : Z) : M document :=
  match nodes with
  | [] => mret (_build_empty_graph_template
                  "No nodes to display. Upload and extract documents first.")
  | _ :: _ =>
      '(nodes, relationships) ← limit_schema view_type nodes relationships;
      layout ← check_layout layout;
      layout ← simplify_layout view_type nodes layout;
      (* [expanded_nodes or set()] *)
      let expanded_nodes := default ∅ expanded_nodes in
      let els :=
        _convert_to_cytoscape_format nodes relationships expanded_nodes COLOR_SCHEME in
      lift (_build_html_template els layout view_type height)
  end.

(** The [except Exception as e] clause. *)
Definition render_except (e : string) : M document :=
  _ ← emit ERROR ("Error rendering Cytoscape graph: " +:+ e);
  mret (_build_error_template e).

Definition render_cytoscape_graph (nodes : list node) (relationships : list rel)
    (layout : string) (expanded_nodes : option (gset string))
    (view_type : string) (height : Z) : M document :=
  try_except
    (render_body nodes relationships layout expanded_nodes view_type height)
    render_except.

End Cytoscape.

(** ** The properties, as the specification words them *)

Module Spec.
Import Py Visibility Cytoscape.

(** [i] is the id of an anchor: of a node whose first label is
    [Document]. *)
Definition anchor_id (nodes : list node) (i : pyid) : Prop :=
  ∃ n, n ∈ nodes ∧ is_document n ∧ n_element_id n = i.

(** [i] is the other end of a relationship that touches an id picked
    out by [touched]. *)
Definition other_end (touched : string → Prop) (rels : list rel) (i : pyid) : Prop :=
  ∃ r, r ∈ rels ∧
    ((touched (or_empty (r_start r)) ∧ i = Some (or_empty (r_end r))) ∨
     (touched (or_empty (r_end r)) ∧ i = Some (or_empty (r_start r)))).

(** The three ways of being disclosed in the data view: an anchor, one
    hop from an anchor, one hop from an expanded id. *)
Definition disclosed (nodes : list node) (rels : list rel) (expanded : gset string)
    (i : pyid) : Prop :=
  anchor_id nodes i ∨
  other_end (λ j, anchor_id nodes (Some j)) rels i ∨
  other_end (λ j, j ∈ expanded) rels i.

(** Every relationship of [rels] starts and ends at the id of a node of
    [nodes]. *)
Definition referentially_closed (nodes : list node) (rels : list rel) : Prop :=
  ∀ r, r ∈ rels → r_start r ∈ node_id_set nodes ∧ r_end r ∈ node_id_set nodes.

(** Referential closure of the visibility computation, for all inputs
    and both view modes. *)
Definition visibility_always_closed : Prop :=
  ∀ nodes rels expanded view_type,
    referentially_closed (get_visible_nodes nodes rels expanded view_type).1
                         (get_visible_nodes nodes rels expanded view_type).2.

(** The caption in the words of the specification: the first truthy
    one of the three properties, else the first label, else the
    literal. *)
Definition caption_spec (n : node) : value :=
  match List.find truthy [ get_value "id" (n_properties n);
                           get_value "name" (n_properties n);
                           get_value "fileName" (n_properties n) ] with
  | Some v => v
  | None => match n_labels n with l :: _ => VStr l | [] => VStr "Node" end
  end.

(** No character of [s] opens or closes a tag or an attribute value. *)
Definition markup_free (s : string) : Prop :=
  ∀ c, c ∈ String.list_ascii_of_string s →
       c ≠ "<"%char ∧ c ≠ ">"%char ∧ c ≠ dquote ∧ c ≠ "'"%char.

Definition is_object (v : value) : bool :=
  match v with VObj _ _ => true | _ => false end.

(** The property values of the node are scalars or null, as the data
    model has them: none is an object of another class. *)
Definition scalar_properties (n : node) : Prop :=
  Forall (λ item : string * value, is_object item.2 = false) (n_properties n).

(** The caption field holds the escaped caption. *)
Definition caption_field_escaped : Prop :=
  ∀ color_scheme expanded n,
    cn_label (convert_node color_scheme expanded n)
    = prefix 30 (py_str (_escape_property_value (node_caption n))).

(** The property line of the tooltip for an item of the property bag. *)
Definition property_line (item : string * value) : string :=
  item.1 +:+ ": " +:+ prefix 100 (py_str (_escape_property_value item.2)).

Definition displayed (item : string * value) : bool :=
  displayed_key item.1 && truthy item.2.

(** [pat] occurs in [s]. *)
Definition occurs (pat s : string) : Prop :=
  ∃ before after, s = before +:+ pat +:+ after.

(** A ['<'] immediately followed by a ['/'] somewhere in [s]. *)
Fixpoint has_close (s : string) : bool :=
  match s with
  | EmptyString => false
  | String a s' =>
      match s' with
      | String b _ => bool_decide (a = "<"%char ∧ b = "/"%char) || has_close s'
      | EmptyString => false
      end
  end.

(** What [render_cytoscape_graph] hands to the element mapping. *)
Definition over_limit (view_type : string) (nodes : list node) : Prop :=
  view_type = "schema" ∧ 100 < length nodes.

Definition shown_nodes (view_type : string) (nodes : list node) : list node :=
  if decide (over_limit view_type nodes) then take 100 nodes else nodes.

Definition shown_relationships (view_type : string) (nodes : list node)
    (rels : list rel) : list rel :=
  if decide (over_limit view_type nodes)
  then filter (λ r, r_start r ∈ node_id_set (take 100 nodes)
                    ∧ r_end r ∈ node_id_set (take 100 nodes)) rels
  else rels.

Definition shown_elements (view_type : string) (nodes : list node) (rels : list rel)
    (expanded : option (gset string)) : elements :=
  _convert_to_cytoscape_format (shown_nodes view_type nodes)
    (shown_relationships view_type nodes rels) (default ∅ expanded) COLOR_SCHEME.

(** The names of the preset table. *)
Definition preset_names : list string := ["cola"; "cose"; "dagre"; "circle"; "random"].

(** The layout the document is built with. *)
Definition resolved_layout (view_type : string) (nodes : list node) (layout : string)
  : string :=
  let layout := if decide (dict_get layout LAYOUT_CONFIGS = None) then "cola" else layout in
  if decide (view_type = "schema" ∧ 50 < length (shown_nodes view_type nodes)
             ∧ layout = "dagre")
  then "circle" else layout.

Definition limit_warning (nodes : list node) : level * string :=
  (WARNING, "Schema has " +:+ len_str nodes +:+
            " nodes, limiting to 100 to prevent browser crash").

Definition unknown_layout_warning (layout : string) : level * string :=
  (WARNING, "Unknown layout: " +:+ layout +:+ ", falling back to 'cola'").

(** What a rendering of a non-empty node list logs before it builds the
    document. *)
Definition diagnostics (view_type : string) (nodes : list node) (layout : string)
  : list (level * string) :=
  (if decide (over_limit view_type nodes) then [limit_warning nodes] else [])
  ++ (if decide (dict_get layout LAYOUT_CONFIGS = None)
      then [unknown_layout_warning layout] else [])
  ++ (if decide (view_type = "schema" ∧ 50 < length (shown_nodes view_type nodes)
                 ∧ (if decide (dict_get layout LAYOUT_CONFIGS = None)
                    then "cola" else layout) = "dagre")
      then [(INFO, "Schema has " +:+ len_str (shown_nodes view_type nodes) +:+
                   " nodes, using circular layout instead of dagre")]
      else []).

(** An unknown layout name always gives a document, the warning, and
    the parameters of the cola preset in the graph document. *)
Definition unknown_layout_always_falls_back : Prop :=
  ∀ nodes rels layout expanded view_type height log,
    layout ∉ preset_names →
    ∃ doc log',
      render_cytoscape_graph nodes rels layout expanded view_type height log
      = (Ok doc, log')
      ∧ unknown_layout_warning layout ∈ log'
      ∧ ∀ h elements_json layout_json,
          doc = GraphDocument h elements_json layout_json →
          layout_json = neutralize_close (dumps_layout cola_config).

(** The node without the properties that the tooltip leaves out. *)
Definition without_reserved (n : node) : node :=
  {| n_element_id := n_element_id n;
     n_labels := n_labels n;
     n_properties := filter (λ item, displayed_key item.1) (n_properties n) |}.

(** [pat in s], for the examples. *)
Fixpoint starts_with (pat s : string) : bool :=
  match pat, s with
  | EmptyString, _ => true
  | String a pat', String b s' => bool_decide (a = b) && starts_with pat' s'
  | String _ _, EmptyString => false
  end.

Fixpoint occursb (pat s : string) : bool :=
  starts_with pat s
  || match s with EmptyString => false | String _ s' => occursb pat s' end.

(** A schema of [n] node types in a chain, for the examples. *)
Definition type_node (i : nat) : node :=
  Node (Some ("t" +:+ str_of_int (Z.of_nat i))) ["Table"] [].

Definition schema_nodes (n : nat) : list node := map type_node (seq 0 n).

Definition schema_chain (n : nat) : list rel :=
  map (λ i, Rel (Some ("r" +:+ str_of_int (Z.of_nat i)))
                (Some ("t" +:+ str_of_int (Z.of_nat i)))
                (Some ("t" +:+ str_of_int (Z.of_nat (S i))))
                (Some "REFERS_TO"))
      (seq 0 (n - 1)).

End Spec.

(** ** What the page reads back from a string literal

    The elements are interpolated into the script of the page as an
    object literal, so a string of the JSON text is read as a string
    literal: a backslash introduces an escape, and [\/] stands for the
    solidus.  The reader is partial: it knows the escapes of JSON, and
    code points up to 255, which is what the strings of this development
    hold. *)

Module Reader.
Import Py.

Definition hex_value (c : ascii) : option nat :=
  let n := nat_of_ascii c in
  if decide (48 ≤ n ≤ 57) then Some (n - 48)
  else if decide (97 ≤ n ≤ 102) then Some (n - 87)
  else if decide (65 ≤ n ≤ 70) then Some (n - 55)
  else None.

(** The character that a backslash, [u] and four hexadecimal digits
    stand for. *)
Definition code_point (a b c d : ascii) : option ascii :=
  match hex_value a, hex_value b, hex_value c, hex_value d with
  | Some h3, Some h2, Some h1, Some h0 =>
      let n := ((h3 * 16 + h2) * 16 + h1) * 16 + h0 in
      if decide (n < 256) then Some (ascii_of_nat n) else None
  | _, _, _, _ => None
  end.

(** The character that a one-letter escape stands for. *)
Definition short_escape (e : ascii) : option ascii :=
  if decide (e = dquote) then Some dquote
  else if decide (e = "\"%char) then Some "\"%char
  else if decide (e = "/"%char) then Some "/"%char
  else if decide (e = "n"%char) then Some (ascii_of_nat 10)
  else if decide (e = "r"%char) then Some (ascii_of_nat 13)
  else if decide (e = "t"%char) then Some (ascii_of_nat 9)
  else if decide (e = "b"%char) then Some (ascii_of_nat 8)
  else if decide (e = "f"%char) then Some (ascii_of_nat 12)
  else None.

(** The characters of a literal after its opening quote, up to the
    closing quote, which must end the text. *)
Fixpoint read_body (s : string) : option string :=
  match s with
  | EmptyString => None
  | String c rest =>
      if decide (c = dquote) then
        match rest with EmptyString => Some EmptyString | String _ _ => None end
      else if decide (c = "\"%char) then
        match rest with
        | EmptyString => None
        | String e rest' =>
            if decide (e = "u"%char) then
              match rest' with
              | String h3 (String h2 (String h1 (String h0 rest''))) =>
                  match code_point h3 h2 h1 h0 with
                  | Some x => String x <$> read_body rest''
                  | None => None
                  end
              | _ => None
              end
            else
              match short_escape e with
              | Some x => String x <$> read_body rest'
              | None => None
              end
        end
      else String c <$> read_body rest
  end.

(** The value of a string literal. *)
Definition read_str (literal : string) : option string :=
  match literal with
  | EmptyString => None
  | String q body => if decide (q = dquote) then read_body body else None
  end.

End Reader.

(** ** Further properties: what they speak of *)

Module Props.
Import Py Visibility Cytoscape Spec.

(** The relationship has two non-empty ends, each the id of a node of
    [nodes]: the condition under which the mapping emits its edge. *)
Definition mappable (nodes : list node) (r : rel) : Prop :=
  or_empty (r_start r) ≠ "" ∧ or_empty (r_end r) ≠ ""
  ∧ Some (or_empty (r_start r)) ∈ node_id_set nodes
  ∧ Some (or_empty (r_end r)) ∈ node_id_set nodes.

#[global] Instance mappable_dec nodes r : Decision (mappable nodes r).
Proof. unfold mappable. apply _. Defined.

(** The edge of a relationship; its id falls back on [start-end]. *)
Definition edge_of (r : rel) : cy_edge :=
  {| ce_id := default (or_empty (r_start r) +:+ "-" +:+ or_empty (r_end r))
                      (r_element_id r);
     ce_source := or_empty (r_start r);
     ce_target := or_empty (r_end r);
     ce_label := or_empty (r_type r) |}.

(** The node without the properties whose value is falsy. *)
Definition without_falsy (n : node) : node :=
  {| n_element_id := n_element_id n;
     n_labels := n_labels n;
     n_properties := filter (λ item : string * value, truthy item.2) (n_properties n) |}.

(** Two values that differ only where both are falsy. *)
Definition same_when_truthy (v w : value) : Prop :=
  truthy v = truthy w ∧ (truthy v = true → v = w).

(** Every character of [s] is printable ASCII. *)
Definition printable (s : string) : Prop :=
  ∀ c, c ∈ String.list_ascii_of_string s → 32 ≤ nat_of_ascii c ≤ 126.

(** One of the five characters that [html.escape] replaces. *)
Definition html_special (c : ascii) : Prop :=
  c = "&"%char ∨ c = "<"%char ∨ c = ">"%char ∨ c = dquote ∨ c = "'"%char.

(** The largest number of digits of an integer that [str] and
    [json.dumps] convert, by default, in CPython from 3.11
    ([sys.get_int_max_str_digits()]); beyond it they raise
    [ValueError]. *)
Definition int_max_str_digits : Z := 4300.

(** The value is not an integer that [str] refuses. *)
Definition within_int_limit (v : value) : Prop :=
  match v with
  | VInt z => (Z.abs z < 10 ^ int_max_str_digits)%Z
  | _ => True
  end.

(** No property of the node is an integer that [str] refuses. *)
Definition ints_within_limit (n : node) : Prop :=
  Forall (λ item : string * value, within_int_limit item.2) (n_properties n).

(** The first property value, in node order and then in property order,
    that [json.dumps] refuses. *)
Definition first_object_class (nodes : list node) : option string :=
  head (omap (λ item : string * value,
                match item.2 with VObj cls _ => Some cls | _ => None end)
             (concat (map n_properties nodes))).

(** The message of the [TypeError] for a value of class [cls]. *)
Definition not_serializable (cls : string) : string :=
  "Object of type " +:+ cls +:+ " is not JSON serializable".

(** The document is a graph document. *)
Definition is_graph_document (doc : document) : Prop :=
  match doc with GraphDocument _ _ _ => True | _ => False end.

(** The layout parameters carried by a graph document. *)
Definition layout_of (doc : document) : option string :=
  match doc with GraphDocument _ _ layout_json => Some layout_json | _ => None end.

(** The JSON text of a preset, as the document carries it. *)
Definition preset_json (name : string) : string :=
  neutralize_close (dumps_layout (default [] (dict_get name LAYOUT_CONFIGS))).

End Props.

(** ** [frontend/app.py]: the calls to the backend

    A call is a run over a trace of what the app has done so far, the
    requests posted and the messages shown by [st.error], in order.  The
    backend answers a request by a status code and a body, which may not
    be JSON, or the transport raises; what it answers may depend on all
    the requests posted so far. *)

Module App.
Import Py.

(** A request of [requests.post(url, data=data, files=files)]; the one
    file of [files] is [(name, content, content type)]. *)
Record request := Request {
  rq_url : string;
  rq_data : list (string * string);
  rq_file : option (string * list Byte.byte * string)
}.

Inductive event :=
| Posted (r : request)
| StError (msg : string).

Definition Act (A : Type) : Type := list event → result A * list event.

#[global] Instance Act_ret : MRet Act := λ A a t, (Ok a, t).
#[global] Instance Act_bind : MBind Act := λ A B f m t,
  match m t with
  | (Ok a, t') => f a t'
  | (Raise e, t') => (Raise e, t')
  end.

Definition act_lift {A} (r : result A) : Act A := λ t, (r, t).

Definition st_error (msg : string) : Act unit := λ t, (Ok tt, t ++ [StError msg]).

(** [try: body except Exception as e: handler(str(e))] *)
Definition act_try {A} (body : Act A) (handler : string → Act A) : Act A :=
  λ t,
    match body t with
    | (Ok a, t') => (Ok a, t')
    | (Raise e, t') => handler e t'
    end.

(** The requests of a trace, in order. *)
Definition posts (t : list event) : list request :=
  omap (λ e, match e with Posted r => Some r | StError _ => None end) t.

(** What a call returns: the decoded body of the response, or the dict
    [{"status": "Failed", "error": error}]. *)
Inductive outcome (J : Type) :=
| Body (j : J)
| Failed (error : string).
Arguments Body {J} j.
Arguments Failed {J} error.

(** A response, or the exception of the transport. *)
Inductive answer (J : Type) :=
| Response (status_code : Z) (json : result J)
| TransportError (msg : string).
Arguments Response {J} status_code json.
Arguments TransportError {J} msg.

(** An uploaded file: [file.name] and [file.getvalue()]. *)
Record uploaded := Uploaded {
  up_name : string;
  up_value : list Byte.byte
}.

(** [seq[a:b]] for [0 <= a]. *)
Definition slice {A} (l : list A) (a b : Z) : list A :=
  take (Z.to_nat (b - a)) (drop (Z.to_nat a) l).

(** [range(n)] *)
Definition range (n : Z) : list Z := map Z.of_nat (seq 0 (Z.to_nat n)).

(** [c in s] for a character. *)
Fixpoint has_char (c : ascii) (s : string) : bool :=
  match s with
  | EmptyString => false
  | String a s' => bool_decide (a = c) || has_char c s'
  end.

(** [uri.replace(" ", "+") if " " in uri else uri] *)
Definition plus_for_space (uri : string) : string :=
  if has_char " "%char uri then replace_char " "%char "+" uri else uri.

Definition DEFAULT_BACKEND_URL : string := "http://backend:8000".

(** The request that turn [i] of the loop of [upload_file] posts. *)
Definition turn_request (url uri username password database : string) (file : uploaded)
    (model : string) (chunk_size file_size total_chunks : Z) (i : Z) : request :=
  {| rq_url := url +:+ "/upload";
     rq_data :=
       [ ("uri", uri); ("userName", username); ("password", password);
         ("database", database); ("chunkNumber", str_of_int (i + 1));
         ("totalChunks", str_of_int total_chunks);
         ("originalname", up_name file); ("model", model); ("email", "") ];
     rq_file := Some (up_name file,
                      slice (up_value file) (i * chunk_size)
                            (Z.min ((i + 1) * chunk_size) file_size),
                      "application/octet-stream") |}.

Section calls.

(** The decoded JSON bodies. *)
Context {J : Type}.

(** The environment variable [BACKEND_URL], if set. *)
Variable BACKEND_URL : option string.

(** [urlparse(url).netloc], which raises on a malformed bracketed host. *)
Variable netloc : string → result string.

(** The answer to the last request of a list, given those before it. *)
Variable backend : list request → answer J.

Definition get_valid_backend_url : Act string :=
  let backend_url := default DEFAULT_BACKEND_URL BACKEND_URL in
  parsed_netloc ← act_lift (netloc backend_url);
  if decide (parsed_netloc ≠ "") then mret backend_url
  else
    _ ← st_error ("Invalid BACKEND_URL: '" +:+ backend_url +:+
                  "'. Using default: " +:+ DEFAULT_BACKEND_URL);
    mret DEFAULT_BACKEND_URL.

(** [requests.post]: the request joins the trace, the backend answers. *)
Definition requests_post (r : request) : Act (Z * result J) :=
  λ t,
    match backend (posts t ++ [r]) with
    | Response status_code json => (Ok (status_code, json), t ++ [Posted r])
    | TransportError msg => (Raise msg, t ++ [Posted r])
    end.

(** One turn of the loop of [upload_file], and the turns after it;
    [indices] is what is left of [range(total_chunks)]. *)
Fixpoint upload_chunks (uri username password database : string) (file : uploaded)
    (model : string) (chunk_size file_size total_chunks : Z) (indices : list Z)
  : Act (outcome J) :=
  match indices with
  | [] => mret (Failed "Upload incomplete")
  | i :: indices' =>
      let chunk_start := (i * chunk_size)%Z in
      let chunk_end := Z.min ((i + 1) * chunk_size) file_size in
      let chunk_data := slice (up_value file) chunk_start chunk_end in
      let form_data :=
        [ ("uri", uri); ("userName", username); ("password", password);
          ("database", database); ("chunkNumber", str_of_int (i + 1));
          ("totalChunks", str_of_int total_chunks);
          ("originalname", up_name file); ("model", model); ("email", "") ] in
      let files := (up_name file, chunk_data, "application/octet-stream") in
      fixed_backend_url ← get_valid_backend_url;
      response ← requests_post
                   {| rq_url := fixed_backend_url +:+ "/upload";
                      rq_data := form_data;
                      rq_file := Some files |};
      if decide (response.1 ≠ 200%Z) then
        _ ← st_error ("Error uploading chunk " +:+ str_of_int (i + 1) +:+ "/" +:+
                      str_of_int total_chunks);
        mret (Failed "Upload failed")
      else if decide ((i + 1)%Z = total_chunks) then
        j ← act_lift response.2;
        mret (Body j)
      else
        upload_chunks uri username password database file model
          chunk_size file_size total_chunks indices'
  end.

(** [upload_file] for a chunk size; the source fixes it at 5 MiB. *)
Definition upload_file_chunked (chunk_size : Z) (uri username password database : string)
    (file : uploaded) (model : string) : Act (outcome J) :=
  let uri := plus_for_space uri in
  act_try
    (let file_size := Z.of_nat (length (up_value file)) in
     let total_chunks := ((file_size + chunk_size - 1) `div` chunk_size)%Z in
     upload_chunks uri username password database file model
       chunk_size file_size total_chunks (range total_chunks))
    (λ e, _ ← st_error ("Error uploading file: " +:+ e);
          mret (Failed e)).

Definition upload_file : string → string → string → string → uploaded → string
                         → Act (outcome J) :=
  upload_file_chunked (5 * 1024 * 1024).

(** The form of the calls that only carry the connection. *)
Definition connection_data (uri username password database : string)
  : list (string * string) :=
  [ ("uri", uri); ("userName", username); ("password", password);
    ("database", database); ("email", "") ].

(** [connect_to_neo4j]: no [try] around the request. *)
Definition connect_to_neo4j (uri username password database : string) : Act J :=
  let data := connection_data (plus_for_space uri) username password database in
  fixed_backend_url ← get_valid_backend_url;
  response ← requests_post {| rq_url := fixed_backend_url +:+ "/connect";
                              rq_data := data; rq_file := None |};
  act_lift response.2.

Definition get_source_list (uri username password database : string)
  : Act (outcome J) :=
  let uri := plus_for_space uri in
  let data := connection_data uri username password database in
  act_try
    (fixed_backend_url ← get_valid_backend_url;
     response ← requests_post {| rq_url := fixed_backend_url +:+ "/sources_list";
                                 rq_data := data; rq_file := None |};
     j ← act_lift response.2;
     mret (Body j))
    (λ e, _ ← st_error ("Error fetching sources: " +:+ e);
          mret (Failed e)).

(** [delete_documents]; the two lists go as JSON text. *)
Definition delete_documents (uri username password database : string)
    (filenames source_types : list string) (delete_entities : bool)
  : Act (outcome J) :=
  let data :=
    [ ("uri", plus_for_space uri); ("userName", username); ("password", password);
      ("database", database);
      ("filenames", Json.dumps_list (map Json.dumps_str filenames));
      ("source_types", Json.dumps_list (map Json.dumps_str source_types));
      ("deleteEntities", if delete_entities then "true" else "false");
      ("email", "") ] in
  act_try
    (fixed_backend_url ← get_valid_backend_url;
     response ← requests_post
                  {| rq_url := fixed_backend_url +:+ "/delete_document_and_entities";
                     rq_data := data; rq_file := None |};
     j ← act_lift response.2;
     mret (Body j))
    (λ e, _ ← st_error ("Error: " +:+ e);
          mret (Failed e)).

(** *** What the upload is expected to post *)

(** The URL that [get_valid_backend_url] settles on. *)
Definition backend_url : string :=
  match netloc (default DEFAULT_BACKEND_URL BACKEND_URL) with
  | Ok parsed_netloc =>
      if decide (parsed_netloc ≠ "") then default DEFAULT_BACKEND_URL BACKEND_URL
      else DEFAULT_BACKEND_URL
  | Raise _ => DEFAULT_BACKEND_URL
  end.

(** The number of chunks of a content. *)
Definition total_chunks_of (chunk_size : Z) (content : list Byte.byte) : Z :=
  ((Z.of_nat (length content) + chunk_size - 1) `div` chunk_size)%Z.

(** The bytes of chunk [i], counted from 0. *)
Definition chunk_of (chunk_size : Z) (content : list Byte.byte) (i : Z)
  : list Byte.byte :=
  slice content (i * chunk_size)
        (Z.min ((i + 1) * chunk_size) (Z.of_nat (length content))).

(** The request for chunk [i]. *)
Definition chunk_request (chunk_size : Z) (uri username password database : string)
    (file : uploaded) (model : string) (i : Z) : request :=
  {| rq_url := backend_url +:+ "/upload";
     rq_data :=
       [ ("uri", plus_for_space uri); ("userName", username); ("password", password);
         ("database", database); ("chunkNumber", str_of_int (i + 1));
         ("totalChunks", str_of_int (total_chunks_of chunk_size (up_value file)));
         ("originalname", up_name file); ("model", model); ("email", "") ];
     rq_file := Some (up_name file, chunk_of chunk_size (up_value file) i,
                      "application/octet-stream") |}.

(** All the requests of an upload, in order. *)
Definition chunk_requests (chunk_size : Z) (uri username password database : string)
    (file : uploaded) (model : string) : list request :=
  map (chunk_request chunk_size uri username password database file model)
      (range (total_chunks_of chunk_size (up_value file))).

(** The backend accepted the request that ends [history]. *)
Definition accepted (history : list request) : Prop :=
  ∃ json, backend history = Response 200 json.

End calls.

(** *** A backend and a file for the examples *)

Definition accepting : list request → answer unit := λ _, Response 200 (Ok tt).

(** Accepts the first [n] requests, then answers 500. *)
Definition refusing_after (n : nat) : list request → answer unit :=
  λ history, if decide (length history ≤ n) then Response 200 (Ok tt)
             else Response 500 (Raise "Expecting value").

Definition unreachable : list request → answer unit :=
  λ _, TransportError "Connection refused".

Definition netloc_of_default : string → result string := λ _, Ok "backend:8000".

Definition seven_bytes : uploaded :=
  Uploaded "notes.txt"
    [Byte.x61; Byte.x62; Byte.x63; Byte.x64; Byte.x65; Byte.x66; Byte.x67].

(** The bytes that a request carries. *)
Definition file_bytes (r : request) : list Byte.byte :=
  match rq_file r with
  | Some (_, content, _) => content
  | None => []
  end.

End App.

(** ** [frontend/app.py]: the PyVis rendering and the document selector *)

Module Pyvis.
Import Py Cytoscape.

(** The networkx graph that [render_graph_visualization] builds for the
    layout: its nodes and its edges, each kept once, in the order in
    which they came. *)
Record digraph := DiGraph {
  g_nodes : list string;
  g_edges : list (string * string)
}.

(** [G.add_node(n)] *)
Definition add_node (g : digraph) (n : string) : digraph :=
  if decide (n ∈ g_nodes g) then g
  else {| g_nodes := g_nodes g ++ [n]; g_edges := g_edges g |}.

(** [G.add_edge(u, v)], which adds the two ends as nodes. *)
Definition add_edge (g : digraph) (u v : string) : digraph :=
  let g := add_node (add_node g u) v in
  if decide ((u, v) ∈ g_edges g) then g
  else {| g_nodes := g_nodes g; g_edges := g_edges g ++ [(u, v)] |}.

(** The graph after the two loops over the nodes and the
    relationships. *)
Definition layout_graph (nodes : list node) (relationships : list rel) : digraph :=
  let g := foldl (λ g n, add_node g (or_empty (n_element_id n)))
                 {| g_nodes := []; g_edges := [] |} nodes in
  foldl (λ g r,
           let start_node := or_empty (r_start r) in
           let end_node := or_empty (r_end r) in
           if negb (bool_decide (start_node = "")) && negb (bool_decide (end_node = ""))
           then add_edge g start_node end_node else g)
        g relationships.

(** [properties.get('id') or properties.get('name') or
    properties.get('fileName') or (labels[0] if labels else 'Node')], as
    [render_graph_visualization] has it. *)
Definition pyvis_caption (n : node) : value :=
  let properties := n_properties n in
  py_or (py_or (py_or (get_value "id" properties) (get_value "name" properties))
               (get_value "fileName" properties))
        (match n_labels n with l :: _ => VStr l | [] => VStr "Node" end).

Definition pyvis_color_scheme : list (string * string) :=
  [ ("Document", "#3b82f6"); ("Chunk", "#8b5cf6"); ("Person", "#10b981");
    ("Organization", "#f59e0b"); ("Location", "#ef4444"); ("Event", "#ec4899");
    ("Concept", "#06b6d4"); ("Technology", "#8b5cf6");
    ("__Community__", "#64748b"); ("__Entity__", "#94a3b8") ].

(** One turn of the loop that builds the hover title. *)
Definition add_title_line (title : string) (item : string * value) : string :=
  let '(key, v) := item in
  if negb (bool_decide (key ∈ ["embedding"; "text"; "summary"])) && truthy v
  then title +:+ (key +:+ ": " +:+ prefix 100 (py_str v) +:+ "<br>")
  else title.

Definition node_title (n : node) (expanded_nodes : gset string) : string :=
  let node_id := or_empty (n_element_id n) in
  let title := "<b>" +:+ py_str (pyvis_caption n) +:+ "</b><br>" in
  let title := title +:+ ("Type: " +:+ join ", " (n_labels n) +:+ "<br>") in
  let title := if decide (node_id ∈ expanded_nodes)
               then title +:+ "<i>Expanded</i><br>" else title in
  foldl add_title_line title (n_properties n).

(** [node_id in pos]: [pos] has the nodes of [G] for keys, in both
    branches of the test on their number. *)
Definition in_pos (G : digraph) (i : string) : Prop := i ∈ g_nodes G.

#[global] Instance in_pos_dec (G : digraph) (i : string) : Decision (in_pos G i) :=
  decide (i ∈ g_nodes G).

Section render.

(** A coordinate of the layout, a float. *)
Context {C : Type}.

(** [nx.kamada_kawai_layout(G, scale=1000)]: a position for every node of
    [G]. *)
Variable kamada_kawai_layout : digraph → string → C * C.

(** A call [net.add_node(node_id, label=..., title=..., color=...,
    size=..., x=..., y=..., physics=False)]. *)
Record node_call := NodeCall {
  nc_id : string;
  nc_label : string;
  nc_title : string;
  nc_color : string;
  nc_size : Z;
  nc_x : C;
  nc_y : C;
  nc_physics : bool
}.

(** A call [net.add_edge(start_node, end_node, title=rel_type)]. *)
Record edge_call := EdgeCall {
  ec_source : string;
  ec_to : string;
  ec_title : string
}.

(** One turn of the loop that adds the nodes to the PyVis network. *)
Definition add_node_call (G : digraph) (view_type : string)
    (expanded_nodes : gset string) (calls : list node_call) (n : node)
  : list node_call :=
  let node_id := or_empty (n_element_id n) in
  if decide (in_pos G node_id) then
    let labels := n_labels n in
    let node_color :=
      match labels with
      | l :: _ => default "#94a3b8" (dict_get l pyvis_color_scheme)
      | [] => "#94a3b8"
      end in
    let size :=
      if decide (node_id ∈ expanded_nodes) then 25%Z
      else if decide (view_type = "data") then 20%Z else 30%Z in
    let xy := kamada_kawai_layout G node_id in
    calls ++ [ {| nc_id := node_id;
                  nc_label := prefix 30 (py_str (pyvis_caption n));
                  nc_title := node_title n expanded_nodes;
                  nc_color := node_color;
                  nc_size := size;
                  nc_x := xy.1; nc_y := xy.2;
                  nc_physics := false |} ]
  else calls.

(** [net.add_edge(source, to, title=title)] on a network whose nodes
    are [node_ids]: PyVis asserts, first of [source] and then of [to],
    that it is a node of the network. *)
Definition net_add_edge (node_ids : list string) (calls : list edge_call)
    (source to title : string) : result (list edge_call) :=
  if decide (source ∈ node_ids) then
    if decide (to ∈ node_ids)
    then Ok (calls ++ [ {| ec_source := source; ec_to := to; ec_title := title |} ])
    else Raise ("non existent node '" +:+ to +:+ "'")
  else Raise ("non existent node '" +:+ source +:+ "'").

(** One turn of the loop that adds the edges to the PyVis network; the
    loop ends with the first call that raises. *)
Definition add_edge_call (G : digraph) (node_ids : list string)
    (calls : result (list edge_call)) (r : rel) : result (list edge_call) :=
  match calls with
  | Raise e => Raise e
  | Ok calls =>
      let start_node := or_empty (r_start r) in
      let end_node := or_empty (r_end r) in
      let rel_type := or_empty (r_type r) in
      if decide (in_pos G start_node ∧ in_pos G end_node)
      then net_add_edge node_ids calls start_node end_node rel_type
      else Ok calls
  end.

(** [render_graph_visualization] up to the calls it makes on the PyVis
    network, in order: the calls of [net.add_node], which return, then
    those of [net.add_edge] that returned, or the [AssertionError] of the
    one that did not.  The nodes of the network are the ids of the calls
    of [net.add_node]. *)
Definition render_graph_visualization (nodes : list node) (relationships : list rel)
    (view_type : string) (expanded_nodes : option (gset string))
  : list node_call * result (list edge_call) :=
  let expanded_nodes := default ∅ expanded_nodes in
  let G := layout_graph nodes relationships in
  let node_calls := foldl (add_node_call G view_type expanded_nodes) [] nodes in
  (node_calls,
   foldl (add_edge_call G (map nc_id node_calls)) (Ok []) relationships).

(** The call of [net.add_edge] for a relationship. *)
Definition edge_call_of (r : rel) : edge_call :=
  {| ec_source := or_empty (r_start r); ec_to := or_empty (r_end r);
     ec_title := or_empty (r_type r) |}.

End render.

(** *** The document selector of the graph tab *)

(** [j] is the id under which the selector knows a Document node. *)
Definition document_node_id (nodes : list node) (j : string) : Prop :=
  ∃ n, n ∈ nodes ∧ Visibility.is_document n ∧ or_empty (n_element_id n) = j.

Section selector.

(** Equality of dict keys, as Python's [==] and [hash] decide it. *)
Variable key_eq : value → value → bool.

(** [d[key] = v]: the entry of an equal key is replaced, a new key goes
    last. *)
Fixpoint dict_set (d : list (value * string)) (key : value) (v : string)
  : list (value * string) :=
  match d with
  | [] => [(key, v)]
  | (k, w) :: d' => if key_eq k key then (k, v) :: d' else (k, w) :: dict_set d' key v
  end.

Fixpoint dict_lookup (d : list (value * string)) (key : value) : option string :=
  match d with
  | [] => None
  | (k, w) :: d' => if key_eq k key then Some w else dict_lookup d' key
  end.

(** The loop over [all_nodes] that fills [expandable_nodes] and
    [node_id_to_label]. *)
Definition add_expandable (acc : list value * list (value * string)) (n : node)
  : list value * list (value * string) :=
  match n_labels n with
  | l :: _ =>
      if bool_decide (l = "Document") then
        let node_id := or_empty (n_element_id n) in
        let properties := n_properties n in
        let node_label :=
          py_or (py_or (get_value "fileName" properties) (get_value "id" properties))
                (VStr node_id) in
        (acc.1 ++ [node_label], dict_set acc.2 node_label node_id)
      else acc
  | [] => acc
  end.

Definition expandable (all_nodes : list node) : list value * list (value * string) :=
  foldl add_expandable ([], []) all_nodes.

(** [{node_id_to_label[label] for label in selected_labels
      if label in node_id_to_label}] *)
Definition expanded_nodes_of (all_nodes : list node) (selected_labels : list value)
  : gset string :=
  list_to_set (omap (dict_lookup (expandable all_nodes).2) selected_labels).

End selector.

End Pyvis.

(** ** [backend/src/api_response.py] *)

Module ApiResponse.

Section response.

(** A Python object that is not [None]; an argument or an entry of the
    response is an [option V], [None] for Python's [None]. *)
Context {V : Type}.

Definition create_api_response (status success_count failed_count data error message
    file_source file_name : option V) : gmap string (option V) :=
  let response : gmap string (option V) := {[ "status" := status ]} in
  let response := if data is Some _ then <["data" := data]> response else response in
  let response := if error is Some _ then <["error" := error]> response else response in
  let response :=
    if success_count is Some _
    then <["failed_count" := failed_count]> (<["success_count" := success_count]> response)
    else response in
  let response :=
    if message is Some _ then <["message" := message]> response else response in
  let response :=
    if file_source is Some _ then <["file_source" := file_source]> response
    else response in
  let response :=
    if file_name is Some _ then <["file_name" := file_name]> response else response in
  response.

(** The entry of an argument that is set only when it is not [None]. *)
Definition when_given (a : option V) : option (option V) :=
  if a is Some _ then Some a else None.

End response.

End ApiResponse.

(** ** [backend/src/neighbours.py]

    A call is a run over a trace of what has been logged and which calls
    have been made on the database driver, in order.  What a driver call
    answers may depend on the whole trace, the call itself being its last
    event. *)

Module Neighbours.
Import Py.

Inductive call :=
| GetDriver (uri username password database : string)
| VerifyConnectivity
| ExecuteQuery (query element_id : string)
| Close.

Inductive event :=
| Logged (lv : level) (msg : string)
| Called (c : call).

#[global] Instance call_eq_dec : EqDecision call.
Proof. solve_decision. Defined.

Definition Run (A : Type) : Type := list event → result A * list event.

#[global] Instance Run_ret : MRet Run := λ A a t, (Ok a, t).
#[global] Instance Run_bind : MBind Run := λ A B f m t,
  match m t with
  | (Ok a, t') => f a t'
  | (Raise e, t') => (Raise e, t')
  end.

Definition run_lift {A} (r : result A) : Run A := λ t, (r, t).

Definition logging (lv : level) (msg : string) : Run unit :=
  λ t, (Ok tt, t ++ [Logged lv msg]).

(** A call on the driver, answered by [answer]. *)
Definition driver_call {A} (c : call) (answer : list event → result A) : Run A :=
  λ t, (answer (t ++ [Called c]), t ++ [Called c]).

(** [try: body except Exception as e: handler(str(e))] *)
Definition run_try {A} (body : Run A) (handler : string → Run A) : Run A :=
  λ t,
    match body t with
    | (Ok a, t') => (Ok a, t')
    | (Raise e, t') => handler e t'
    end.

(** [try: body finally: final]: what [body] returns or raises is kept
    unless [final] raises. *)
Definition run_finally {A} (body : Run A) (final : Run unit) : Run A :=
  λ t,
    let '(r, t') := body t in
    match final t' with
    | (Ok _, t'') => (r, t'')
    | (Raise e, t'') => (Raise e, t'')
    end.

(** The calls of a trace, in order. *)
Definition calls (t : list event) : list call :=
  omap (λ e, match e with Called c => Some c | Logged _ _ => None end) t.

(** The number of calls of [Close] in a trace. *)
Definition closes (t : list event) : nat :=
  length (filter (λ c, c = Close) (calls t)).

(** The driver that [get_graphDB_driver] returns, when it is not
    [None]. *)
Inductive driver := Driver.

Section neighbours.

(** The lists under [nodes] and [relationships] in a record. *)
Context {N R : Type}.

(** A record of the answer: a mapping read with
    [.get("nodes", [])] and [.get("relationships", [])]. *)
Record record := Record_ {
  rec_nodes : option (list N);
  rec_relationships : option (list R)
}.

(** The dict [{"nodes": nodes, "relationships": relationships}]. *)
Record neighbours := Neighbours_ {
  nb_nodes : list N;
  nb_relationships : list R
}.

(** The driver of [src.graph_query] and its methods. *)
Variable get_graphDB_driver : list event → result (option driver).
Variable verify_connectivity : list event → result unit.
Variable execute_query : list event → result (list record).
Variable close : list event → result unit.

(** [driver.method(...)], an [AttributeError] when [driver] is [None]. *)
Definition method {A} (d : option driver) (name : string) (c : call)
    (answer : list event → result A) : Run A :=
  match d with
  | Some _ => driver_call c answer
  | None => run_lift (Raise ("'NoneType' object has no attribute '" +:+ name +:+ "'"))
  end.

(** [records[0]] *)
Definition first_record (records : list record) : result record :=
  match records with
  | r :: _ => Ok r
  | [] => Raise "list index out of range"
  end.

(** The [except] clause. *)
Definition on_error (element_id e : string) : Run neighbours :=
  _ ← logging ERROR ("Error retrieving neighbours for element_id: " +:+ element_id
                     +:+ ": " +:+ e);
  mret {| nb_nodes := []; nb_relationships := [] |}.

(** The [finally] clause. *)
Definition on_exit (d : option driver) : Run unit :=
  match d with
  | Some _ =>
      _ ← driver_call Close close;
      logging INFO "Database driver closed."
  | None => mret tt
  end.

(** The [try] block after [driver] has been assigned. *)
Definition query_driver (d : option driver) (element_id query : string)
  : Run neighbours :=
  _ ← method d "verify_connectivity" VerifyConnectivity verify_connectivity;
  _ ← logging INFO "Database connectivity verified.";
  records ← method d "execute_query" (ExecuteQuery query element_id) execute_query;
  r0 ← run_lift (first_record records);
  let nodes := default [] (rec_nodes r0) in
  let relationships := default [] (rec_relationships r0) in
  let result := {| nb_nodes := nodes; nb_relationships := relationships |} in
  _ ← logging INFO ("Successfully retrieved neighbours for element_id: " +:+ element_id);
  mret result.

(** [driver] is [None] in the two clauses when [get_graphDB_driver]
    raises, and what it returned afterwards. *)
Definition get_neighbour_nodes (uri username password database element_id query : string)
  : Run neighbours :=
  λ t,
    let opening :=
      _ ← logging INFO ("Querying neighbours for element_id: " +:+ element_id);
      driver_call (GetDriver uri username password database) get_graphDB_driver in
    match opening t with
    | (Raise e, t') => run_finally (on_error element_id e) (on_exit None) t'
    | (Ok d, t') =>
        run_finally (run_try (query_driver d element_id query) (on_error element_id))
                    (on_exit d) t'
    end.

(** The trace at which [get_graphDB_driver] is asked. *)
Definition at_opening (t : list event) (uri username password database element_id : string)
  : list event :=
  t ++ [Logged INFO ("Querying neighbours for element_id: " +:+ element_id);
        Called (GetDriver uri username password database)].

End neighbours.

End Neighbours.

(** ** [backend/src/document_sources/wikipedia.py] *)

Module Wikipedia.
Import Py.

(** What [get_documents_from_Wikipedia] raises. *)
Inductive exn :=
| UnboundLocalError (name : string)
| LLMGraphBuilderException (msg : string).

Inductive outcome (A : Type) :=
| Returned (a : A)
| Raised (e : exn).
Arguments Returned {A} a.
Arguments Raised {A} e.

Section wikipedia.

(** A page that the loader returns. *)
Context {P : Type}.

(** [str.strip()] *)
Variable strip : string → string.

(** [WikipediaLoader(query=..., lang=..., ...).load()], a list of pages
    or an exception, kept as its [str]. *)
Variable load : string → string → result (list P).

(** The [try] block: what it returns or raises, the binding of the local
    [file_name] when it is left, and the log. *)
Definition body (wiki_query language : string) (log : list (level * string))
  : result (string * list P) * option string * list (level * string) :=
  match load (strip wiki_query) language with
  | Raise e => (Raise e, None, log)
  | Ok pages =>
      let file_name := strip wiki_query in
      let log := log ++ [(INFO, "Total Pages from Wikipedia = "
                                +:+ str_of_int (Z.of_nat (length pages)))] in
      (Ok (file_name, pages), Some file_name, log)
  end.

(** The [except] clause: the message of [logging.exception] reads
    [file_name] before anything is logged. *)
Definition handler (file_name : option string) (e : string) (log : list (level * string))
  : outcome (string * list P) * list (level * string) :=
  let message := "Failed To Process Wikipedia Query" in
  let error_message := e in
  match file_name with
  | None => (Raised (UnboundLocalError "file_name"), log)
  | Some file_name =>
      let log := log ++ [(ERROR, "Failed To Process Wikipedia Query: " +:+ file_name
                                 +:+ ", Exception Stack trace: " +:+ error_message)] in
      (Raised (LLMGraphBuilderException (error_message +:+ " " +:+ message)), log)
  end.

Definition get_documents_from_Wikipedia (wiki_query language : string)
    (log : list (level * string))
  : outcome (string * list P) * list (level * string) :=
  match body wiki_query language log with
  | (Ok r, _, log') => (Returned r, log')
  | (Raise e, file_name, log') => handler file_name e log'
  end.

End wikipedia.

End Wikipedia.

(** ** Proofs: the visibility computation *)

Section visibility.
Import Visibility Spec.

Lemma fold_add_document (nodes : list node) (acc : gset pyid * gset pyid) :
  let ids : gset pyid := list_to_set (map n_element_id (filter is_document nodes)) in
  foldl add_document acc nodes = (ids ∪ acc.1, ids ∪ acc.2).
Proof.
  revert acc. induction nodes as [|n nodes IH]; intros [V D]; simpl.
  - f_equal; set_solver.
  - rewrite IH. unfold add_document at 1 2. rewrite filter_cons.
    destruct (is_document n) eqn:Hn.
    + rewrite decide_True; [|done]. simpl. f_equal; set_solver.
    + rewrite decide_False; [|by intros []]. simpl. done.
Qed.

Lemma elem_of_anchor_ids (nodes : list node) (i : pyid) :
  i ∈ (list_to_set (map n_element_id (filter is_document nodes)) : gset pyid)
  ↔ anchor_id nodes i.
Proof.
  rewrite elem_of_list_to_set, list_elem_of_fmap. unfold anchor_id. split.
  - intros (n & -> & Hn). apply list_elem_of_filter in Hn as [? ?]. eauto.
  - intros (n & ? & ? & <-). exists n. split; [done|].
    by apply list_elem_of_filter.
Qed.

Lemma elem_of_fold_add_neighbours (hit : string → bool) (rels : list rel)
    (visible : gset pyid) (i : pyid) :
  i ∈ foldl (add_neighbours hit) visible rels
  ↔ i ∈ visible ∨ other_end (λ j, hit j) rels i.
Proof.
  revert visible. induction rels as [|r rels IH]; intros visible; simpl.
  - split; [by left|]. intros [?|(r & Hr & _)]; [done|]. by apply elem_of_nil in Hr.
  - rewrite IH. unfold other_end, add_neighbours.
    split.
    + intros [Hi|(r' & Hr' & Hcase)].
      * destruct (hit (or_empty (r_start r))) eqn:Hs,
                 (hit (or_empty (r_end r))) eqn:He;
          set_unfold; destruct_or?; subst; eauto;
          right; exists r; (split; [by left|]);
          rewrite ?Hs, ?He; simpl; auto.
      * right. exists r'. split; [by right|done].
    + intros [Hi|(r' & Hr' & Hcase)].
      * left. destruct (hit (or_empty (r_start r))), (hit (or_empty (r_end r)));
          set_solver.
      * apply elem_of_cons in Hr' as [->|Hr'].
        -- left. destruct Hcase as [[Hh ->]|[Hh ->]];
             destruct (hit (or_empty (r_start r))), (hit (or_empty (r_end r)));
             simpl in Hh; try done; set_solver.
        -- right. eauto.
Qed.

Lemma other_end_mono (P Q : string → Prop) (rels : list rel) (i : pyid) :
  (∀ j, P j → Q j) → other_end P rels i → other_end Q rels i.
Proof.
  intros HPQ (r & Hr & [[? ?]|[? ?]]); exists r; (split; [done|]); [left|right]; auto.
Qed.

Lemma elem_of_visible_node_ids nodes rels (expanded : gset string) (i : pyid) :
  i ∈ visible_node_ids nodes rels expanded ↔ disclosed nodes rels expanded i.
Proof.
  unfold visible_node_ids, disclosed.
  rewrite fold_add_document. simpl. rewrite !union_empty_r_L.
  set (D := list_to_set (map n_element_id (filter _ nodes)) : gset pyid).
  assert (Hstep2 : ∀ k,
    k ∈ foldl (add_neighbours (λ j, bool_decide (Some j ∈ D))) D rels
    ↔ anchor_id nodes k ∨ other_end (λ j, anchor_id nodes (Some j)) rels k).
  { intros k. rewrite elem_of_fold_add_neighbours. unfold D.
    rewrite elem_of_anchor_ids.
    split; (intros [?|H]; [by left|right]);
      (eapply other_end_mono; [|exact H]); simpl; intros j;
      rewrite bool_decide_spec, elem_of_anchor_ids; done. }
  destruct (decide (expanded = ∅)) as [->|Hne].
  - rewrite Hstep2. split; [tauto|].
    intros [?|[?|(r & _ & [[H _]|[H _]])]]; try tauto; set_solver.
  - rewrite elem_of_fold_add_neighbours, Hstep2.
    split.
    + intros [[?|?]|H]; [tauto|tauto|]. right; right.
      eapply other_end_mono; [|exact H]. simpl. intros j.
      by rewrite bool_decide_spec.
    + intros [?|[?|H]]; [tauto|tauto|]. right.
      eapply other_end_mono; [|exact H]. simpl. intros j.
      by rewrite bool_decide_spec.
Qed.

Lemma elem_of_node_id_set (nodes : list node) (i : pyid) :
  i ∈ Cytoscape.node_id_set nodes ↔ ∃ n, n ∈ nodes ∧ n_element_id n = i.
Proof.
  unfold Cytoscape.node_id_set. rewrite elem_of_list_to_set, list_elem_of_fmap.
  split; intros (n & ? & ?); exists n; auto.
Qed.

Lemma filter_sublist_mono {A} (P Q : A → Prop) `{!∀ x, Decision (P x)}
    `{!∀ x, Decision (Q x)} (l : list A) :
  (∀ x, x ∈ l → P x → Q x) → filter P l `sublist_of` filter Q l.
Proof.
  induction l as [|x l IH]; intros HPQ; [constructor|].
  rewrite !filter_cons.
  assert (Hl : ∀ y, y ∈ l → P y → Q y) by (intros y ?; apply HPQ; by right).
  destruct (decide (P x)) as [HP|HP].
  - rewrite decide_True by (apply HPQ; [by left|done]).
    constructor. by apply IH.
  - destruct (decide (Q x)); [constructor|]; by apply IH.
Qed.

(** C4.  In the schema view the visibility computation is the identity:
    it returns the node list and the relationship list it was given,
    whatever the expansion set. *)
Theorem schema_view_identity (nodes : list node) (rels : list rel)
    (expanded : gset string) :
  get_visible_nodes nodes rels expanded "schema" = (nodes, rels).
Proof. unfold get_visible_nodes. by rewrite decide_True. Qed.

Lemma get_visible_nodes_data (nodes : list node) (rels : list rel)
    (expanded : gset string) (view_type : string) :
  view_type ≠ "schema" →
  get_visible_nodes nodes rels expanded view_type
  = (filter (λ n, n_element_id n ∈ visible_node_ids nodes rels expanded) nodes,
     filter (λ r, r_start r ∈ visible_node_ids nodes rels expanded
                  ∧ r_end r ∈ visible_node_ids nodes rels expanded) rels).
Proof. intros Hv. unfold get_visible_nodes. by rewrite decide_False. Qed.

(** C3.  In the data view the nodes returned are exactly the input
    nodes, in input order, whose [element_id] is that of a Document node,
    or the other end of a relationship touching a Document node, or the
    other end of a relationship touching an id of the expansion set.
    The third case asks for the touched id to be in the expansion set
    itself, not merely visible: one step, no closure. *)
Theorem data_view_one_hop_disclosure (nodes : list node) (rels : list rel)
    (expanded : gset string) :
  (get_visible_nodes nodes rels expanded "data").1
    = filter (λ n, n_element_id n ∈ visible_node_ids nodes rels expanded) nodes
  ∧ (∀ i, i ∈ visible_node_ids nodes rels expanded
          ↔ disclosed nodes rels expanded i)
  ∧ (∀ n, n ∈ (get_visible_nodes nodes rels expanded "data").1
          ↔ n ∈ nodes ∧ disclosed nodes rels expanded (n_element_id n)).
Proof.
  rewrite get_visible_nodes_data by done. simpl.
  split; [done|]. split; [apply elem_of_visible_node_ids|].
  intros n. rewrite list_elem_of_filter, elem_of_visible_node_ids. tauto.
Qed.

(** C10.  In the data view the result grows with the expansion set:
    what is returned for [E] is returned for every [E'] that contains
    [E], nodes and relationships alike, and in the same order. *)
Theorem expansion_monotone (nodes : list node) (rels : list rel)
    (E E' : gset string) :
  E ⊆ E' →
  ((get_visible_nodes nodes rels E "data").1
     `sublist_of` (get_visible_nodes nodes rels E' "data").1
   ∧ (get_visible_nodes nodes rels E "data").2
     `sublist_of` (get_visible_nodes nodes rels E' "data").2)
  ∧ (∀ n, n ∈ (get_visible_nodes nodes rels E "data").1
          → n ∈ (get_visible_nodes nodes rels E' "data").1)
  ∧ (∀ r, r ∈ (get_visible_nodes nodes rels E "data").2
          → r ∈ (get_visible_nodes nodes rels E' "data").2).
Proof.
  intros HE.
  assert (Hids : ∀ i, i ∈ visible_node_ids nodes rels E
                      → i ∈ visible_node_ids nodes rels E').
  { intros i. rewrite !elem_of_visible_node_ids. unfold disclosed.
    intros [?|[?|H]]; [tauto|tauto|]. right; right.
    eapply other_end_mono; [|exact H]. simpl. intros j Hj. by apply HE. }
  rewrite !get_visible_nodes_data by done. simpl.
  assert (Hsub :
    filter (λ n, n_element_id n ∈ visible_node_ids nodes rels E) nodes
      `sublist_of` filter (λ n, n_element_id n ∈ visible_node_ids nodes rels E') nodes
    ∧ filter (λ r, r_start r ∈ visible_node_ids nodes rels E
                   ∧ r_end r ∈ visible_node_ids nodes rels E) rels
      `sublist_of` filter (λ r, r_start r ∈ visible_node_ids nodes rels E'
                                ∧ r_end r ∈ visible_node_ids nodes rels E') rels).
  { split; apply filter_sublist_mono; intros x _; [apply Hids|].
    intros [? ?]; split; by apply Hids. }
  split; [exact Hsub|].
  destruct Hsub as [Hn Hr].
  split; intros x Hx; eapply elem_of_sublist; eauto.
Qed.

Lemma expansion_monotone_witness :
  let d := Node (Some "d1") ["Document"] [] in
  let c := Node (Some "c1") ["Chunk"] [] in
  let e := Node (Some "e2") ["Person"] [] in
  let f := Node (Some "f3") ["Person"] [] in
  let nodes := [d; c; e; f] in
  let rels := [Rel (Some "r1") (Some "d1") (Some "c1") (Some "HAS_CHUNK");
               Rel (Some "r2") (Some "c1") (Some "e2") (Some "MENTIONS");
               Rel (Some "r3") (Some "e2") (Some "f3") (Some "KNOWS")] in
  ({["c1"]} : gset string) ⊆ {["c1"; "e2"]}
  ∧ (get_visible_nodes nodes rels {["c1"]} "data").1 = [d; c; e]
  ∧ (get_visible_nodes nodes rels {["c1"; "e2"]} "data").1 = [d; c; e; f]
  ∧ ∀ n, n ∈ (get_visible_nodes nodes rels {["c1"]} "data").1
         → n ∈ (get_visible_nodes nodes rels {["c1"; "e2"]} "data").1.
Proof.
  intros d c e f nodes rels.
  assert (H : ({["c1"]} : gset string) ⊆ {["c1"; "e2"]})
    by (apply (bool_decide_unpack _); vm_compute; exact I).
  split; [exact H|]. split; [vm_compute; reflexivity|].
  split; [vm_compute; reflexivity|].
  exact (proj1 (proj2 (expansion_monotone nodes rels {["c1"]} {["c1"; "e2"]} H))).
Defined.

End visibility.

(** ** Proofs: the element mapping *)

Section mapping.
Import Py Visibility Cytoscape Spec.

Lemma foldl_snoc_map {A B} (f : A → B) (l : list A) (acc : list B) :
  foldl (λ acc x, acc ++ [f x]) acc l = acc ++ map f l.
Proof.
  revert acc. induction l as [|x l IH]; intros acc; simpl.
  - by rewrite app_nil_r.
  - by rewrite IH, <- app_assoc.
Qed.

Lemma el_nodes_convert nodes rels expanded color_scheme :
  el_nodes (_convert_to_cytoscape_format nodes rels expanded color_scheme)
  = map (convert_node color_scheme expanded) nodes.
Proof. unfold _convert_to_cytoscape_format. simpl. by rewrite foldl_snoc_map. Qed.

(** What the loop over the relationships keeps: every edge it appends
    comes from a relationship whose two ends are in [node_ids]. *)
Lemma fold_add_edge_Forall (P : cy_edge → Prop) (node_ids : gset pyid)
    (rels : list rel) (acc : list cy_edge) :
  (∀ e, Some (ce_source e) ∈ node_ids → Some (ce_target e) ∈ node_ids → P e) →
  Forall P acc → Forall P (foldl (add_edge node_ids) acc rels).
Proof.
  intros HP. revert acc. induction rels as [|r rels IH]; intros acc Hacc; [done|].
  simpl. apply IH. unfold add_edge.
  destruct (_ && _) eqn:Hguard; [|done].
  apply Forall_app. split; [done|]. constructor; [|constructor].
  repeat (apply andb_prop in Hguard as [Hguard ?]).
  apply bool_decide_eq_true_1 in H, H0. by apply HP.
Qed.

Lemma mapped_edge_endpoints nodes rels expanded color_scheme e :
  e ∈ el_edges (_convert_to_cytoscape_format nodes rels expanded color_scheme) →
  Some (ce_source e) ∈ node_id_set nodes ∧ Some (ce_target e) ∈ node_id_set nodes.
Proof.
  revert e. apply Forall_forall. unfold _convert_to_cytoscape_format. simpl.
  apply fold_add_edge_Forall; [auto|constructor].
Qed.

Lemma mapped_node_of_id nodes rels expanded color_scheme (i : string) :
  Some i ∈ node_id_set nodes →
  ∃ c, c ∈ el_nodes (_convert_to_cytoscape_format nodes rels expanded color_scheme)
       ∧ cn_id c = i.
Proof.
  rewrite elem_of_node_id_set. intros (n & Hn & Hid).
  exists (convert_node color_scheme expanded n). split.
  - rewrite el_nodes_convert. apply list_elem_of_fmap. eauto.
  - simpl. by rewrite Hid.
Qed.

(** C1, as the code has it.  When every relationship of the input
    starts and ends at the id of an input node, every relationship that
    the visibility computation returns starts and ends at the id of a
    node that it returns, in both view modes (in the data view it filters
    the relationships by the visible ids, in the schema view it returns its
    input); every relationship it keeps in the data view has both ends
    disclosed; and the element mapping emits an edge only between ids of
    the nodes it maps, whatever it is given. *)
Theorem referential_closure (nodes : list node) (rels : list rel)
    (expanded : gset string) (view_type : string) :
  (referentially_closed nodes rels →
   referentially_closed (get_visible_nodes nodes rels expanded view_type).1
                        (get_visible_nodes nodes rels expanded view_type).2)
  ∧ (∀ r, r ∈ (get_visible_nodes nodes rels expanded "data").2 →
          disclosed nodes rels expanded (r_start r)
          ∧ disclosed nodes rels expanded (r_end r))
  ∧ (∀ color_scheme e,
       e ∈ el_edges (_convert_to_cytoscape_format nodes rels expanded color_scheme) →
       (Some (ce_source e) ∈ node_id_set nodes
        ∧ Some (ce_target e) ∈ node_id_set nodes)
       ∧ (∃ c, c ∈ el_nodes (_convert_to_cytoscape_format nodes rels expanded
                               color_scheme) ∧ cn_id c = ce_source e)
       ∧ (∃ c, c ∈ el_nodes (_convert_to_cytoscape_format nodes rels expanded
                               color_scheme) ∧ cn_id c = ce_target e)).
Proof.
  split; [|split].
  - intros Hclosed. destruct (decide (view_type = "schema")) as [->|Hv].
    + unfold get_visible_nodes. by rewrite decide_True.
    + rewrite get_visible_nodes_data by done. simpl.
      intros r [[Hs He] Hr]%list_elem_of_filter.
      destruct (Hclosed r Hr) as [Hs' He'].
      apply elem_of_node_id_set in Hs' as (ns & ? & Hns).
      apply elem_of_node_id_set in He' as (ne & ? & Hne).
      split; apply elem_of_node_id_set; [exists ns|exists ne];
        (split; [|done]); apply list_elem_of_filter; split; try done;
        by rewrite ?Hns, ?Hne.
  - rewrite get_visible_nodes_data by done. simpl.
    intros r [[Hs He] Hr]%list_elem_of_filter.
    by rewrite <- !elem_of_visible_node_ids.
  - intros color_scheme e He.
    destruct (mapped_edge_endpoints _ _ _ _ _ He) as [Hs Ht].
    split; [done|]. split; by apply mapped_node_of_id.
Qed.

Lemma referential_closure_witness :
  let nodes := [Node (Some "d1") ["Document"] []; Node (Some "c1") ["Chunk"] [];
                Node (Some "e2") ["Person"] []] in
  let rels := [Rel (Some "r1") (Some "d1") (Some "c1") (Some "HAS_CHUNK");
               Rel (Some "r2") (Some "c1") (Some "e2") (Some "MENTIONS")] in
  referentially_closed nodes rels
  ∧ referentially_closed (get_visible_nodes nodes rels ∅ "data").1
                         (get_visible_nodes nodes rels ∅ "data").2.
Proof.
  intros nodes rels.
  assert (H : referentially_closed nodes rels).
  { intros r Hr.
    repeat (apply elem_of_cons in Hr as [->|Hr];
            [apply (bool_decide_unpack _); vm_compute; exact I|]).
    by apply elem_of_nil in Hr. }
  split; [exact H|].
  exact (proj1 (referential_closure nodes rels ∅ "data") H).
Defined.

(** C1, as worded: the visibility computation does not close its output
    for every input.  In the schema view a relationship to a node that
    is not in the list comes back as it went in. *)
Lemma visibility_not_always_closed : ¬ visibility_always_closed.
Proof.
  intros Hclosed.
  destruct (Hclosed [Node (Some "a") ["Person"] []]
              [Rel (Some "r") (Some "a") (Some "b") (Some "KNOWS")] ∅ "schema"
              (Rel (Some "r") (Some "a") (Some "b") (Some "KNOWS"))) as [_ Hb].
  - simpl. left.
  - revert Hb. apply (bool_decide_eq_false_1 _). vm_compute. reflexivity.
Qed.

(** The same in the data view, when the relationship touches a
    Document: the missing end enters [visible_node_ids] all the same. *)
Example data_view_dangling_edge :
  get_visible_nodes [Node (Some "d1") ["Document"] []]
    [Rel (Some "r") (Some "d1") (Some "ghost") (Some "HAS_CHUNK")] ∅ "data"
  = ([Node (Some "d1") ["Document"] []],
     [Rel (Some "r") (Some "d1") (Some "ghost") (Some "HAS_CHUNK")]).
Proof. vm_compute. reflexivity. Qed.

(** The input of the unit test of the mapping: the node is mapped, the
    relationship to [node2], which is not among the nodes, is dropped. *)
Example convert_basic :
  _convert_to_cytoscape_format
    [Node (Some "node1") ["Person"] [("name", VStr "Alice"); ("age", VInt 30)]]
    [Rel (Some "rel1") (Some "node1") (Some "node2") (Some "KNOWS")]
    ∅ COLOR_SCHEME
  = {| el_nodes :=
         [ {| cn_id := "node1"; cn_label := "Alice"; cn_labels := ["Person"];
              cn_color := "#10b981"; cn_size := 20;
              cn_tooltip := "<strong>Alice</strong><br>Type: Person<br>name: Alice<br>age: 30";
              cn_properties := [("name", VStr "Alice"); ("age", VInt 30)];
              cn_expanded := false; cn_classes := "" |} ];
       el_edges := [] |}.
Proof. vm_compute. reflexivity. Qed.

Example convert_with_expanded_nodes :
  map (λ c, (cn_expanded c, cn_size c, cn_classes c))
    (el_nodes (_convert_to_cytoscape_format
                 [Node (Some "node1") ["Document"] [("fileName", VStr "test.pdf")]]
                 [] {["node1"]} COLOR_SCHEME))
  = [(true, 25%Z, "expanded")].
Proof. vm_compute. reflexivity. Qed.

(** Expansion is one step: with [c1] expanded its neighbour [e2] shows,
    the neighbour [f3] of [e2] does not. *)
Example expansion_is_not_recursive :
  map n_element_id
    (get_visible_nodes
       [Node (Some "d1") ["Document"] []; Node (Some "c1") ["Chunk"] [];
        Node (Some "e2") ["Person"] []; Node (Some "f3") ["Person"] []]
       [Rel (Some "r1") (Some "d1") (Some "c1") (Some "HAS_CHUNK");
        Rel (Some "r2") (Some "c1") (Some "e2") (Some "MENTIONS");
        Rel (Some "r3") (Some "e2") (Some "f3") (Some "KNOWS")]
       {["c1"]} "data").1
  = [Some "d1"; Some "c1"; Some "e2"].
Proof. vm_compute. reflexivity. Qed.

End mapping.

(** ** Proofs: strings *)

Section strings.
Import Py Spec.

Lemma chars_app (s t : string) :
  String.list_ascii_of_string (s +:+ t)
  = String.list_ascii_of_string s ++ String.list_ascii_of_string t.
Proof. induction s as [|a s IH]; simpl; [done|]. by rewrite IH. Qed.

Lemma prefix_length (n : nat) (s : string) : String.length (prefix n s) ≤ n.
Proof.
  unfold prefix. revert s. induction n as [|n IH]; intros [|a s]; simpl; try lia.
  specialize (IH s). lia.
Qed.

Lemma prefix_short (n : nat) (s : string) :
  String.length s ≤ n → prefix n s = s.
Proof.
  unfold prefix. revert s. induction n as [|n IH]; intros [|a s]; simpl; try done.
  - lia.
  - intros H. f_equal. apply IH. lia.
Qed.

Lemma prefix_chars (n : nat) (s : string) :
  String.list_ascii_of_string (prefix n s) = take n (String.list_ascii_of_string s).
Proof.
  unfold prefix. revert s. induction n as [|n IH]; intros [|a s]; simpl; try done.
  by rewrite IH.
Qed.

Lemma markup_free_prefix (n : nat) (s : string) :
  markup_free s → markup_free (prefix n s).
Proof.
  unfold markup_free. intros H c Hc. apply H.
  rewrite prefix_chars in Hc.
  eapply elem_of_sublist; [exact Hc|apply sublist_take].
Qed.

Lemma replace_char_chars (Q : ascii → Prop) (c : ascii) (by_ s : string) :
  (∀ a, a ∈ String.list_ascii_of_string s → a ≠ c → Q a) →
  (∀ a, a ∈ String.list_ascii_of_string by_ → Q a) →
  ∀ a, a ∈ String.list_ascii_of_string (replace_char c by_ s) → Q a.
Proof.
  intros Hs Hby. induction s as [|b s IH]; simpl; intros a Ha.
  - by apply elem_of_nil in Ha.
  - assert (IH' : ∀ a, a ∈ String.list_ascii_of_string (replace_char c by_ s) → Q a).
    { apply IH. intros a' Ha'. apply Hs. simpl. by right. }
    destruct (decide (b = c)) as [->|Hne].
    + rewrite chars_app in Ha. apply elem_of_app in Ha as [Ha|Ha]; auto.
    + simpl in Ha. apply elem_of_cons in Ha as [->|Ha]; auto.
      apply Hs; [simpl; by left|done].
Qed.

Ltac chars_of_literal H :=
  simpl in H; repeat (apply elem_of_cons in H as [->|H]; [by compute|]);
  by apply elem_of_nil in H.

Lemma html_escape_markup_free (s : string) : markup_free (html_escape s).
Proof.
  unfold markup_free, html_escape.
  set (s1 := replace_char "&" "&amp;" s).
  assert (H2 : ∀ a, a ∈ String.list_ascii_of_string (replace_char "<" "&lt;" s1)
                    → a ≠ "<"%char).
  { apply replace_char_chars; [done|]. intros a Ha. chars_of_literal Ha. }
  set (s2 := replace_char "<" "&lt;" s1) in *.
  assert (H3 : ∀ a, a ∈ String.list_ascii_of_string (replace_char ">" "&gt;" s2)
                    → a ≠ "<"%char ∧ a ≠ ">"%char).
  { apply replace_char_chars; [by auto|]. intros a Ha. split; chars_of_literal Ha. }
  set (s3 := replace_char ">" "&gt;" s2) in *.
  assert (H4 : ∀ a, a ∈ String.list_ascii_of_string (replace_char dquote "&quot;" s3)
                    → a ≠ "<"%char ∧ a ≠ ">"%char ∧ a ≠ dquote).
  { apply replace_char_chars.
    - intros a Ha ?. destruct (H3 a Ha). done.
    - intros a Ha. repeat split; chars_of_literal Ha. }
  set (s4 := replace_char dquote "&quot;" s3) in *.
  apply replace_char_chars.
  - intros a Ha ?. destruct (H4 a Ha) as (? & ? & ?). done.
  - intros a Ha. repeat split; chars_of_literal Ha.
Qed.

(** The cases of the unit test of [_escape_property_value]. *)
Example escape_property_value_cases :
  Cytoscape._escape_property_value (VStr "<script>alert('xss')</script>")
    = VStr "&lt;script&gt;alert(&#x27;xss&#x27;)&lt;/script&gt;"
  ∧ Cytoscape._escape_property_value (VStr "Normal text") = VStr "Normal text"
  ∧ Cytoscape._escape_property_value (VInt 123) = VInt 123.
Proof. vm_compute. done. Qed.

Lemma string_of_uint_digits (d : Decimal.uint) (c : ascii) :
  c ∈ String.list_ascii_of_string (NilEmpty.string_of_uint d) →
  c ≠ "<"%char ∧ c ≠ ">"%char ∧ c ≠ dquote ∧ c ≠ "'"%char.
Proof.
  induction d; simpl; intros H;
    try (by apply elem_of_nil in H);
    (apply elem_of_cons in H as [->|H]; [done|auto]).
Qed.

Lemma str_of_int_markup_free (z : Z) : markup_free (str_of_int z).
Proof.
  unfold markup_free, str_of_int, NilZero.string_of_int. intros c.
  destruct (Z.to_int z) as [d|d]; unfold NilZero.string_of_uint.
  - destruct d; try apply string_of_uint_digits.
    intros H. chars_of_literal H.
  - simpl. intros [->|H]%elem_of_cons; [done|]. revert H.
    destruct d; try apply string_of_uint_digits.
    intros H. chars_of_literal H.
Qed.

Lemma escaped_value_markup_free (v : value) :
  is_object v = false → markup_free (py_str (Cytoscape._escape_property_value v)).
Proof.
  destruct v as [|[]|z|s|cls repr]; simpl; intros Hobj; try done.
  - intros c H. chars_of_literal H.
  - intros c H. chars_of_literal H.
  - intros c H. chars_of_literal H.
  - apply str_of_int_markup_free.
  - apply html_escape_markup_free.
Qed.

End strings.

(** ** Proofs: captions and tooltips *)

Section captions.
Import Py Cytoscape Spec.

Lemma node_caption_spec (n : node) : node_caption n = caption_spec n.
Proof.
  unfold node_caption, caption_spec, py_or. simpl.
  destruct (truthy (get_value "id" (n_properties n))) eqn:H1;
    simpl; rewrite ?H1; simpl; rewrite ?H1; [done|].
  destruct (truthy (get_value "name" (n_properties n))) eqn:H2;
    simpl; rewrite ?H2; [done|].
  by destruct (truthy (get_value "fileName" (n_properties n))) eqn:H3.
Qed.

Lemma map_convert_label color_scheme expanded (nodes : list node) :
  map cn_label (map (convert_node color_scheme expanded) nodes)
  = map (λ n, prefix 30 (py_str (caption_spec n))) nodes.
Proof.
  rewrite map_map. apply map_ext. intros n. simpl. by rewrite node_caption_spec.
Qed.

(** C8.  The caption of a mapped node is the first truthy one of
    [properties.id], [properties.name] and [properties.fileName], else
    [labels[0]], else the literal [Node]; the element carries its first 30
    characters. *)
Theorem caption_resolution_order (nodes : list node) (rels : list rel)
    (expanded : gset string) (color_scheme : list (string * string)) :
  let els := _convert_to_cytoscape_format nodes rels expanded color_scheme in
  (∀ n, node_caption n = caption_spec n)
  ∧ map cn_label (el_nodes els)
    = map (λ n, prefix 30 (py_str (caption_spec n))) nodes
  ∧ Forall (λ c, String.length (cn_label c) ≤ 30) (el_nodes els)
  ∧ Forall2 (λ n c, String.length (py_str (caption_spec n)) ≤ 30
                    → cn_label c = py_str (caption_spec n)) nodes (el_nodes els).
Proof.
  cbv zeta. rewrite el_nodes_convert.
  split; [apply node_caption_spec|]. split; [apply map_convert_label|]. split.
  - apply Forall_fmap, Forall_forall. intros n _. simpl. apply prefix_length.
  - apply Forall2_fmap_r, Forall_Forall2_diag, Forall_forall. intros n _ Hlen.
    simpl. rewrite node_caption_spec. by apply prefix_short.
Qed.

(** The caption falls through the three properties and the label. *)
Example caption_examples :
  map (λ n, cn_label (convert_node COLOR_SCHEME ∅ n))
    [ Node (Some "n1") ["Person"] [("name", VStr "Alice"); ("id", VStr "p-1")];
      Node (Some "n2") ["Person"] [("id", VStr ""); ("name", VStr "Bob")];
      Node (Some "n3") ["Document"] [("fileName", VStr "report.pdf")];
      Node (Some "n4") ["Chunk"] [("id", VInt 0)];
      Node (Some "n5") [] [];
      Node (Some "n6") ["Person"]
        [("name", VStr "A name of more than thirty characters")] ]
  = ["p-1"; "Bob"; "report.pdf"; "Chunk"; "Node"; "A name of more than thirty cha"].
Proof. vm_compute. reflexivity. Qed.

Lemma fold_add_property_line (props : list (string * value)) (acc : list string) :
  foldl add_property_line acc props
  = acc ++ map property_line (filter (λ item, displayed item) props).
Proof.
  revert acc. induction props as [|[k v] props IH]; intros acc; simpl.
  - by rewrite app_nil_r.
  - rewrite IH, filter_cons.
    destruct (displayed_key k && truthy v) eqn:Hd; simpl.
    + rewrite decide_True by (unfold displayed; simpl; by rewrite Hd).
      simpl. by rewrite <- app_assoc.
    + rewrite decide_False by (unfold displayed; simpl; rewrite Hd; by intros []).
      done.
Qed.

Lemma node_tooltip_parts_spec (n : node) (expanded : gset string) :
  node_tooltip_parts n expanded
  = [ "<strong>" +:+ py_str (_escape_property_value (node_caption n)) +:+ "</strong>";
      "Type: " +:+ join ", " (n_labels n) ]
    ++ (if decide (or_empty (n_element_id n) ∈ expanded)
        then ["<em>Expanded</em>"] else [])
    ++ map property_line (filter (λ item, displayed item) (n_properties n)).
Proof.
  unfold node_tooltip_parts. rewrite fold_add_property_line.
  destruct (decide (or_empty (n_element_id n) ∈ expanded)); simpl; [|done].
  done.
Qed.

(** C2, as the code has it.  Of the strings that reach the tooltip, the
    caption and the property values go through [_escape_property_value]:
    the tooltip is the escaped caption in a [strong] tag, the type line,
    the expansion marker, and a line [key: value] for each displayed
    property, whose value is the first 100 characters of the [str] of the
    escaped value.  The escaped text of a value that is [None], a [bool],
    an [int] or a [str] holds no angle bracket and no quote, so neither
    does what the caption or such a property value contributes to the
    tooltip; the value [<b>x</b>] is written there as
    [&lt;b&gt;x&lt;/b&gt;].  The caption field of the element is the first
    30 characters of the [str] of the caption, as it is. *)
Theorem tooltip_escaping (n : node) (expanded : gset string)
    (color_scheme : list (string * string)) :
  cn_tooltip (convert_node color_scheme expanded n)
    = join "<br>"
        ([ "<strong>" +:+ py_str (_escape_property_value (node_caption n))
             +:+ "</strong>";
           "Type: " +:+ join ", " (n_labels n) ]
         ++ (if decide (or_empty (n_element_id n) ∈ expanded)
             then ["<em>Expanded</em>"] else [])
         ++ map (λ item, item.1 +:+ ": "
                         +:+ prefix 100 (py_str (_escape_property_value item.2)))
                (filter (λ item, displayed item) (n_properties n)))
  ∧ (∀ v, is_object v = false →
          markup_free (py_str (_escape_property_value v))
          ∧ markup_free (prefix 100 (py_str (_escape_property_value v))))
  ∧ _escape_property_value (VStr "<b>x</b>") = VStr "&lt;b&gt;x&lt;/b&gt;"
  ∧ cn_label (convert_node color_scheme expanded n)
    = prefix 30 (py_str (node_caption n)).
Proof.
  split; [|split; [|split]].
  - simpl. by rewrite node_tooltip_parts_spec.
  - intros v Hv. split; [|apply markup_free_prefix]; by apply escaped_value_markup_free.
  - vm_compute. reflexivity.
  - done.
Qed.

Lemma tooltip_escaping_witness :
  let n := Node (Some "n1") ["Person"] [("name", VStr "<b>x</b>"); ("text", VStr "<i>")] in
  is_object (VStr "<b>x</b>") = false
  ∧ markup_free (prefix 100 (py_str (_escape_property_value (VStr "<b>x</b>"))))
  ∧ cn_tooltip (convert_node COLOR_SCHEME ∅ n)
    = "<strong>&lt;b&gt;x&lt;/b&gt;</strong><br>Type: Person<br>name: &lt;b&gt;x&lt;/b&gt;".
Proof.
  intros n. split; [reflexivity|]. split.
  - exact (proj2 (proj1 (proj2 (tooltip_escaping n ∅ COLOR_SCHEME))
                    (VStr "<b>x</b>") eq_refl)).
  - vm_compute. reflexivity.
Defined.

(** C2, as worded: the caption field does not hold the escaped caption,
    and a property value can reach the element as raw markup. *)
Lemma caption_field_not_escaped : ¬ caption_field_escaped.
Proof.
  intros H.
  specialize (H COLOR_SCHEME ∅ (Node (Some "n1") ["Person"] [("name", VStr "<b>x</b>")])).
  vm_compute in H. discriminate H.
Qed.

(** Labels and property keys reach the tooltip as they are. *)
Example tooltip_raw_label_and_key :
  cn_tooltip (convert_node COLOR_SCHEME ∅
                (Node (Some "n1") ["<i>"] [("<u>", VInt 1)]))
  = "<strong>&lt;i&gt;</strong><br>Type: <i><br><u>: 1".
Proof. vm_compute. reflexivity. Qed.

End captions.

(** ** Proofs: serialisation *)

Section serialisation.
Import Py Cytoscape Spec.

Lemma append_cons (a : ascii) (s t : string) :
  String a s +:+ t = String a (s +:+ t).
Proof. reflexivity. Qed.

Lemma append_assoc (s t u : string) : (s +:+ t) +:+ u = s +:+ (t +:+ u).
Proof. induction s as [|a s IH]; [done|]. by rewrite !append_cons, IH. Qed.

Lemma append_empty_r (s : string) : s +:+ "" = s.
Proof. induction s as [|a s IH]; [done|]. by rewrite append_cons, IH. Qed.

Lemma occurs_refl (s : string) : occurs s s.
Proof. exists "", "". simpl. by rewrite append_empty_r. Qed.

Lemma occurs_app_l (pat s t : string) : occurs pat s → occurs pat (s +:+ t).
Proof.
  intros (b & a & ->). exists b, (a +:+ t). by rewrite !append_assoc.
Qed.

Lemma occurs_app_r (pat s t : string) : occurs pat t → occurs pat (s +:+ t).
Proof.
  intros (b & a & ->). exists (s +:+ b), a. by rewrite !append_assoc.
Qed.

Lemma occurs_trans (p q s : string) : occurs p q → occurs q s → occurs p s.
Proof.
  intros (b1 & a1 & ->) (b2 & a2 & ->).
  exists (b2 +:+ b1), (a1 +:+ a2). by rewrite !append_assoc.
Qed.

Lemma occurs_join (sep x : string) (l : list string) :
  x ∈ l → occurs x (join sep l).
Proof.
  unfold join. induction l as [|y l IH]; intros Hx; [by apply elem_of_nil in Hx|].
  apply elem_of_cons in Hx as [->|Hx].
  - destruct l as [|z l]; simpl; [apply occurs_refl|].
    apply occurs_app_l, occurs_refl.
  - destruct l as [|z l]; [by apply elem_of_nil in Hx|].
    change (occurs x (y +:+ sep +:+ String.concat sep (z :: l))).
    apply occurs_app_r, occurs_app_r. by apply IH.
Qed.

Lemma occurs_dumps_list (x : string) (l : list string) :
  x ∈ l → occurs x (Json.dumps_list l).
Proof.
  intros Hx. unfold Json.dumps_list.
  apply occurs_app_r, occurs_app_l. by apply occurs_join.
Qed.

Lemma occurs_dumps_dict (k v : string) (items : list (string * string)) :
  (k, v) ∈ items → occurs v (Json.dumps_dict items).
Proof.
  intros Hkv. unfold Json.dumps_dict. apply occurs_app_r, occurs_app_l.
  eapply occurs_trans; [|apply occurs_join, list_elem_of_fmap; eauto].
  simpl. apply occurs_app_r, occurs_app_r, occurs_refl.
Qed.

(** The encoding of a node holds the encoding of its whole property
    bag. *)
Lemma dumps_node_properties (c : cy_node) (j : string) :
  dumps_node c = Ok j →
  ∃ pj, Json.dumps_properties (cn_properties c) = Ok pj ∧ occurs pj j.
Proof.
  unfold dumps_node. destruct (Json.dumps_properties _) as [pj|e]; [|done].
  intros [= <-]. exists pj. split; [done|].
  eapply occurs_trans; [|eapply occurs_dumps_dict; by left].
  eapply occurs_dumps_dict. do 6 right. by left.
Qed.

Lemma dumps_nodes_each (cs : list cy_node) (js : list string) :
  dumps_nodes cs = Ok js →
  ∀ c, c ∈ cs → ∃ j, dumps_node c = Ok j ∧ j ∈ js.
Proof.
  revert js. induction cs as [|c0 cs IH]; intros js; simpl.
  - intros _ c Hc. by apply elem_of_nil in Hc.
  - destruct (dumps_node c0) as [j0|e] eqn:H0; [|done].
    destruct (dumps_nodes cs) as [js'|e]; [|done].
    intros [= <-] c [->|Hc]%elem_of_cons.
    + exists j0. split; [done|by left].
    + destruct (IH js' eq_refl c Hc) as (j & ? & ?). exists j. split; [done|by right].
Qed.

Lemma dumps_elements_properties (els : elements) (j : string) :
  dumps_elements els = Ok j →
  ∀ c, c ∈ el_nodes els →
       ∃ pj, Json.dumps_properties (cn_properties c) = Ok pj ∧ occurs pj j.
Proof.
  unfold dumps_elements. destruct (dumps_nodes _) as [js|e] eqn:Hjs; [|done].
  intros [= <-] c Hc.
  destruct (dumps_nodes_each _ _ Hjs c Hc) as (cj & Hcj & Hin).
  destruct (dumps_node_properties _ _ Hcj) as (pj & Hpj & Hocc).
  exists pj. split; [done|].
  eapply occurs_trans; [exact Hocc|].
  eapply occurs_trans; [|eapply occurs_dumps_dict; by left].
  by apply occurs_dumps_list.
Qed.

(** Every key of the bag is encoded, with the JSON text of its value. *)
Lemma dumps_items_all (d : list (string * value)) (js : list (string * string)) :
  Json.dumps_items d = Ok js →
  Forall2 (λ item enc, enc.1 = item.1 ∧ Json.dumps_value item.2 = Ok enc.2) d js.
Proof.
  revert js. induction d as [|[k v] d IH]; intros js; simpl.
  - intros [= <-]. constructor.
  - destruct (Json.dumps_value v) as [j|e] eqn:Hv; [|done].
    destruct (Json.dumps_items d) as [js'|e]; [|done].
    intros [= <-]. constructor; [done|]. by apply IH.
Qed.

Lemma neutralize_close_head (a : ascii) (s : string) :
  ∃ t, neutralize_close (String a s) = String a t.
Proof.
  destruct s as [|b s]; simpl; [by eauto|].
  destruct (decide (a = "<"%char ∧ b = "/"%char)) as [[-> ->]|]; simpl; by eauto.
Qed.

Lemma has_close_cons (a : ascii) (s : string) :
  has_close (String a s)
  = match s with
    | String b _ => bool_decide (a = "<"%char ∧ b = "/"%char) || has_close s
    | EmptyString => false
    end.
Proof. done. Qed.

(** After the replacement no ['<'] stands before a ['/']. *)
Lemma neutralize_close_no_close (s : string) : has_close (neutralize_close s) = false.
Proof.
  remember (String.length s) as n eqn:Hn. revert s Hn.
  induction n as [n IH] using lt_wf_ind. intros s Hn.
  destruct s as [|a [|b s]]; [done|done|].
  change (neutralize_close (String a (String b s)))
    with (if decide (a = "<"%char ∧ b = "/"%char)
          then "<\/" +:+ neutralize_close s
          else String a (neutralize_close (String b s))).
  destruct (decide (a = "<"%char ∧ b = "/"%char)) as [[-> ->]|Hne].
  - change ("<\/" +:+ neutralize_close s)
      with (String "<" (String "\" (String "/" (neutralize_close s)))).
    rewrite !has_close_cons.
    assert (IHs : has_close (neutralize_close s) = false).
    { apply (IH (String.length s)); [simpl in Hn; lia|done]. }
    destruct (neutralize_close s) as [|c t] eqn:Hs; [done|].
    rewrite IHs. done.
  - destruct (neutralize_close_head b s) as (t & Ht).
    rewrite Ht, has_close_cons, <- Ht.
    rewrite (IH (String.length (String b s))); [|simpl in *; lia|done].
    rewrite bool_decide_eq_false_2 by done. done.
Qed.

Lemma dumps_items_scalars (d : list (string * value)) :
  Forall (λ item : string * value, is_object item.2 = false) d →
  ∃ js, Json.dumps_items d = Ok js.
Proof.
  induction 1 as [|[k v] d Hv _ [js IH]]; simpl; [by eauto|].
  rewrite IH. destruct v; simpl in *; try discriminate; by eauto.
Qed.

Lemma dumps_nodes_scalars color_scheme expanded (nodes : list node) :
  Forall scalar_properties nodes →
  ∃ js, dumps_nodes (map (convert_node color_scheme expanded) nodes) = Ok js.
Proof.
  induction 1 as [|n nodes Hn _ [js IH]]; simpl; [by eauto|].
  rewrite IH. unfold dumps_node, Json.dumps_properties. simpl.
  destruct (dumps_items_scalars _ Hn) as [ps ->]. by eauto.
Qed.

(** Nodes of the data model always serialise. *)
Lemma dumps_elements_scalars nodes rels expanded color_scheme :
  Forall scalar_properties nodes →
  ∃ j, dumps_elements (_convert_to_cytoscape_format nodes rels expanded color_scheme)
       = Ok j.
Proof.
  intros Hn. unfold dumps_elements. rewrite el_nodes_convert.
  destruct (dumps_nodes_scalars color_scheme expanded nodes Hn) as [js ->]. by eauto.
Qed.

Lemma dict_get_without_reserved (key : string) (d : list (string * value)) :
  displayed_key key →
  dict_get key (filter (λ item, displayed_key item.1) d) = dict_get key d.
Proof.
  intros Hkey. induction d as [|[k v] d IH]; [done|].
  rewrite filter_cons. simpl. destruct (decide (k = key)) as [->|Hne].
  - rewrite decide_True by done. simpl. by rewrite decide_True.
  - destruct (decide (displayed_key k)); simpl; [|done]. by rewrite decide_False.
Qed.

Lemma node_caption_without_reserved (n : node) :
  node_caption (without_reserved n) = node_caption n.
Proof.
  unfold node_caption, get_value. simpl.
  by rewrite !dict_get_without_reserved.
Qed.

Lemma tooltip_without_reserved (n : node) (expanded : gset string) :
  node_tooltip_parts (without_reserved n) expanded = node_tooltip_parts n expanded.
Proof.
  rewrite !node_tooltip_parts_spec, node_caption_without_reserved. simpl.
  rewrite list_filter_filter_l; [done|].
  intros [k v]. unfold displayed. simpl. by intros [? _]%andb_prop_elim.
Qed.

Import Reader.

Lemma neutralize_close_cons (a : ascii) (s : string) :
  a ≠ "<"%char → neutralize_close (String a s) = String a (neutralize_close s).
Proof.
  intros Ha. destruct s as [|b s]; [done|].
  change (neutralize_close (String a (String b s)))
    with (if decide (a = "<"%char ∧ b = "/"%char)
          then "<\/" +:+ neutralize_close s
          else String a (neutralize_close (String b s))).
  destruct (decide (a = "<"%char ∧ b = "/"%char)) as [[? _]|]; done.
Qed.

Lemma neutralize_close_lt (s : string) :
  neutralize_close (String "<" s)
  = match s with
    | String b s' =>
        if decide (b = "/"%char) then "<\/" +:+ neutralize_close s'
        else String "<" (neutralize_close s)
    | EmptyString => "<"
    end.
Proof.
  destruct s as [|b s']; [done|].
  change (neutralize_close (String "<" (String b s')))
    with (if decide ("<"%char = "<"%char ∧ b = "/"%char)
          then "<\/" +:+ neutralize_close s'
          else String "<" (neutralize_close (String b s'))).
  destruct (decide (b = "/"%char)) as [->|Hb].
  - by rewrite decide_True.
  - rewrite decide_False; [done|]. by intros [_ ?].
Qed.

(** The replacement works piece by piece: between two pieces it adds
    at most the backslash of a [</] that they form together. *)
Lemma neutralize_close_app (a b : string) :
  ∃ sep, neutralize_close (a +:+ b) = neutralize_close a +:+ sep +:+ neutralize_close b
         ∧ (sep = "" ∨ ∃ b', b = String "/" b').
Proof.
  remember (String.length a) as n eqn:Hn. revert a Hn.
  induction n as [n IH] using lt_wf_ind. intros a Hn.
  destruct a as [|x a].
  - exists "". split; [done|by left].
  - destruct (decide (x = "<"%char)) as [->|Hx].
    + destruct a as [|y a].
      * change ("<" +:+ b) with (String "<" b). rewrite neutralize_close_lt.
        destruct b as [|c b]; [exists ""; split; [done|by left]|].
        destruct (decide (c = "/"%char)) as [->|Hc].
        -- exists "\". split; [|right; by eexists].
           by rewrite (neutralize_close_cons "/").
        -- exists "". split; [done|by left].
      * change (String "<" (String y a) +:+ b) with (String "<" (String y (a +:+ b))).
        rewrite !neutralize_close_lt.
        destruct (decide (y = "/"%char)) as [->|Hy].
        -- destruct (IH (String.length a) ltac:(simpl in Hn; lia) a eq_refl)
             as (sep & -> & Hsep).
           exists sep. split; [|done]. by rewrite !append_assoc.
        -- destruct (IH (String.length (String y a)) ltac:(simpl in *; lia)
                       (String y a) eq_refl) as (sep & Heq & Hsep).
           change (String y a +:+ b) with (String y (a +:+ b)) in Heq.
           rewrite Heq. exists sep. split; [done|done].
    + change (String x a +:+ b) with (String x (a +:+ b)).
      rewrite !neutralize_close_cons by done.
      destruct (IH (String.length a) ltac:(simpl in Hn; lia) a eq_refl)
        as (sep & -> & Hsep).
      exists sep. split; [done|done].
Qed.

Lemma occurs_neutralize_close (pat s : string) :
  occurs pat s → occurs (neutralize_close pat) (neutralize_close s).
Proof.
  intros (before & after & ->).
  destruct (neutralize_close_app before (pat +:+ after)) as (sep1 & -> & _).
  destruct (neutralize_close_app pat after) as (sep2 & -> & _).
  exists (neutralize_close before +:+ sep1), (sep2 +:+ neutralize_close after).
  by rewrite !append_assoc.
Qed.

(** A piece that does not start with a solidus is replaced on its
    own. *)
Lemma neutralize_close_app_plain (a : string) (c : ascii) (b : string) :
  c ≠ "/"%char →
  neutralize_close (a +:+ String c b)
  = neutralize_close a +:+ neutralize_close (String c b).
Proof.
  intros Hc. destruct (neutralize_close_app a (String c b)) as (sep & -> & [->|[b' [=]]]).
  - done.
  - congruence.
Qed.

(** Reading the escape of a character gives the character, whatever
    follows. *)
Lemma read_escape_char (c : ascii) (rest : string) :
  read_body (Json.escape_char c +:+ rest) = String c <$> read_body rest.
Proof.
  destruct c as [[] [] [] [] [] [] [] []]; reflexivity.
Qed.

(** No escape holds a ['<'] but that of ['<'] itself. *)
Lemma neutralize_escape_char (c : ascii) (rest : string) :
  c ≠ "<"%char →
  neutralize_close (Json.escape_char c +:+ rest)
  = Json.escape_char c +:+ neutralize_close rest.
Proof.
  intros Hc.
  destruct c as [[] [] [] [] [] [] [] []]; try done; clear Hc;
    cbv -[neutralize_close]; repeat (rewrite neutralize_close_cons by done);
    reflexivity.
Qed.

Lemma read_neutralized_char (c : ascii) (rest : string) :
  read_body (neutralize_close (Json.escape_char c +:+ rest))
  = String c <$> read_body (neutralize_close rest).
Proof.
  destruct (decide (c = "<"%char)) as [->|Hc].
  - change (Json.escape_char "<" +:+ rest) with (String "<" rest).
    rewrite neutralize_close_lt. destruct rest as [|b rest']; [done|].
    destruct (decide (b = "/"%char)) as [->|Hb].
    + rewrite neutralize_close_cons by done. reflexivity.
    + reflexivity.
  - rewrite neutralize_escape_char by done. apply read_escape_char.
Qed.

Lemma read_neutralized_chars (s rest : string) :
  read_body (neutralize_close (Json.escape_chars s +:+ rest))
  = (λ t, s +:+ t) <$> read_body (neutralize_close rest).
Proof.
  induction s as [|c s IH].
  - change (Json.escape_chars "" +:+ rest) with rest.
    destruct (read_body (neutralize_close rest)) as [t|]; reflexivity.
  - change (Json.escape_chars (String c s))
      with (Json.escape_char c +:+ Json.escape_chars s).
    rewrite append_assoc, read_neutralized_char, IH.
    destruct (read_body (neutralize_close rest)) as [t|]; reflexivity.
Qed.

(** What is read back from a string after the encoding and the
    replacement is the string. *)
Lemma read_neutralized_str (s : string) :
  read_str (neutralize_close (Json.dumps_str s)) = Some s.
Proof.
  unfold Json.dumps_str, Json.quoted.
  rewrite neutralize_close_cons by done.
  change (read_str (String dquote ?x)) with (read_body x).
  rewrite read_neutralized_chars.
  change (read_body (neutralize_close (String dquote ""))) with (Some "").
  simpl. by rewrite append_empty_r.
Qed.


Lemma neutralize_close_markup_free (s : string) :
  markup_free s → neutralize_close s = s.
Proof.
  unfold markup_free. induction s as [|a s IH]; intros Hs; [done|].
  rewrite neutralize_close_cons.
  - rewrite IH; [done|]. intros c Hc. apply Hs. simpl. by right.
  - apply Hs. simpl. by left.
Qed.

(** The encoding of a value that is not a string holds nothing that the
    replacement touches. *)
Lemma neutralize_close_scalar (v : value) (enc : string) :
  Json.dumps_value v = Ok enc → (∀ s, v ≠ VStr s) → neutralize_close enc = enc.
Proof.
  destruct v as [|[]|z|s|cls repr]; simpl; intros [= <-] Hv; try done.
  - apply neutralize_close_markup_free, str_of_int_markup_free.
  - by destruct (Hv s).
Qed.

Lemma occurs_dumps_dict_entry (k v : string) (items : list (string * string)) :
  (k, v) ∈ items → occurs (Json.dumps_str k +:+ ": " +:+ v) (Json.dumps_dict items).
Proof.
  intros Hkv. unfold Json.dumps_dict. apply occurs_app_r, occurs_app_l.
  apply occurs_join, list_elem_of_fmap. by exists (k, v).
Qed.

(** The encoding of the elements holds, for every node, the field
    [properties] with the encoding of the whole property bag. *)
Lemma dumps_elements_properties_field (els : elements) (j : string) :
  dumps_elements els = Ok j →
  ∀ c, c ∈ el_nodes els →
       ∃ pj, Json.dumps_properties (cn_properties c) = Ok pj
             ∧ occurs (Json.dumps_str "properties" +:+ ": " +:+ pj) j.
Proof.
  unfold dumps_elements. destruct (dumps_nodes _) as [js|e] eqn:Hjs; [|done].
  intros [= <-] c Hc.
  destruct (dumps_nodes_each _ _ Hjs c Hc) as (cj & Hcj & Hin).
  unfold dumps_node in Hcj.
  destruct (Json.dumps_properties (cn_properties c)) as [pj|e] eqn:Hpj; [|done].
  injection Hcj as <-. exists pj. split; [done|].
  eapply occurs_trans; [|eapply occurs_dumps_dict; by left].
  eapply occurs_trans; [|by apply occurs_dumps_list].
  eapply occurs_trans; [|eapply occurs_dumps_dict; by left].
  apply occurs_dumps_dict_entry. do 6 right. by left.
Qed.

(** C9.  The element of a node carries the property bag of the node as
    it is, the keys [embedding], [text] and [summary] included.  In the
    graph document that [_build_html_template] returns, the text of the
    elements has no [</], and for every node it holds the field
    [properties] with the JSON encoding of the whole bag after the
    replacement of [</]: every key of the bag followed by the encoding of
    its value.  Nothing else protects them: what is read back from a key
    or from a string value after the encoding and the replacement is that
    key or that string, character for character, and the encoding of a
    value that is not a string is not touched.  The three keys are left
    out of the tooltip only: the tooltip is that of the node without
    them. *)
Theorem properties_embedded_verbatim (nodes : list node) (rels : list rel)
    (expanded : gset string) (color_scheme : list (string * string)) :
  let els := _convert_to_cytoscape_format nodes rels expanded color_scheme in
  map cn_properties (el_nodes els) = map n_properties nodes
  ∧ (∀ layout view_type height doc,
       _build_html_template els layout view_type height = Ok doc →
       ∃ elements_json layout_json,
         doc = GraphDocument height elements_json layout_json
         ∧ has_close elements_json = false
         ∧ ∀ n, n ∈ nodes →
             ∃ js, Json.dumps_items (n_properties n) = Ok js
                   ∧ Forall2 (λ item enc, enc.1 = item.1
                                          ∧ Json.dumps_value item.2 = Ok enc.2)
                             (n_properties n) js
                   ∧ occurs (neutralize_close
                               (Json.dumps_str "properties" +:+ ": "
                                +:+ Json.dumps_dict js))
                            elements_json
                   ∧ ∀ key enc, (key, enc) ∈ js →
                       occurs (neutralize_close (Json.dumps_str key) +:+ ": "
                               +:+ neutralize_close enc)
                              elements_json)
  ∧ (∀ s, read_str (neutralize_close (Json.dumps_str s)) = Some s)
  ∧ (∀ v enc, Json.dumps_value v = Ok enc → (∀ s, v ≠ VStr s) →
              neutralize_close enc = enc)
  ∧ (∀ n, cn_tooltip (convert_node color_scheme expanded n)
          = cn_tooltip (convert_node color_scheme expanded (without_reserved n))).
Proof.
  intros els. split; [|split; [|split; [|split]]].
  - unfold els. rewrite el_nodes_convert, map_map. done.
  - intros layout view_type height doc. unfold _build_html_template.
    destruct (dumps_elements els) as [j|e] eqn:Hj; [|done].
    intros [= <-]. eexists _, _. split; [reflexivity|].
    split; [apply neutralize_close_no_close|].
    intros n Hn.
    destruct (dumps_elements_properties_field els j Hj
                (convert_node color_scheme expanded n)) as (pj & Hpj & Hocc).
    { unfold els. rewrite el_nodes_convert. apply list_elem_of_fmap. eauto. }
    simpl in Hpj. unfold Json.dumps_properties in Hpj.
    destruct (Json.dumps_items (n_properties n)) as [js|e] eqn:Hjs; [|done].
    injection Hpj as <-. exists js. split; [done|].
    split; [by apply dumps_items_all|].
    split; [by apply occurs_neutralize_close|].
    intros key enc Hkey.
    assert (Hsplit : neutralize_close (Json.dumps_str key +:+ ": " +:+ enc)
                     = neutralize_close (Json.dumps_str key) +:+ ": "
                       +:+ neutralize_close enc).
    { change (": " +:+ enc) with (String ":" (String " " enc)).
      rewrite neutralize_close_app_plain by done.
      by rewrite !neutralize_close_cons. }
    rewrite <- Hsplit. apply occurs_neutralize_close.
    eapply occurs_trans; [by apply occurs_dumps_dict_entry|].
    eapply occurs_trans; [|exact Hocc].
    apply occurs_app_r, occurs_app_r, occurs_refl.
  - apply read_neutralized_str.
  - apply neutralize_close_scalar.
  - intros n. simpl. by rewrite tooltip_without_reserved.
Qed.

Lemma properties_embedded_verbatim_witness :
  let n := Node (Some "c1") ["Chunk"]
             [("id", VStr "c1"); ("text", VStr "<img src=x></p>");
              ("embedding", VStr "0.1 0.2")] in
  let els := _convert_to_cytoscape_format [n] [] ∅ COLOR_SCHEME in
  ∃ elements_json layout_json,
    _build_html_template els "cola" "data" 720
    = Ok (GraphDocument 720 elements_json layout_json)
    ∧ n ∈ [n]
    ∧ occurs (String dquote "text" +:+ String dquote ": " +:+
              String dquote "<img src=x><\/p>" +:+ String dquote "")
             elements_json
    ∧ read_str (String dquote "<img src=x><\/p>" +:+ String dquote "")
      = Some "<img src=x></p>".
Proof.
  intros n els.
  destruct (_build_html_template els "cola" "data" 720) as [doc|e] eqn:Hdoc;
    [|vm_compute in Hdoc; discriminate Hdoc].
  assert (Hn : n ∈ [n]) by (by left).
  destruct (proj1 (proj2 (properties_embedded_verbatim [n] [] ∅ COLOR_SCHEME))
              "cola" "data" 720%Z doc Hdoc)
    as (elements_json & layout_json & -> & _ & Hbag).
  destruct (Hbag n Hn) as (js & Hjs & _ & _ & Hentries).
  vm_compute in Hjs. injection Hjs as <-.
  exists elements_json, layout_json. split; [reflexivity|]. split; [exact Hn|].
  split.
  - apply (Hentries "text" (Json.dumps_str "<img src=x></p>")).
    right. left.
  - exact (proj1 (proj2 (proj2 (properties_embedded_verbatim [n] [] ∅ COLOR_SCHEME)))
             "<img src=x></p>").
Defined.

(** The text of a chunk reaches the document as JSON, markup and all,
    with only its [</] broken; the tooltip does not show it. *)
Example reserved_text_in_document :
  let n := Node (Some "c1") ["Chunk"]
             [("id", VStr "c1"); ("text", VStr "<img src=x onerror=alert(1)></p>")] in
  match render_cytoscape_graph [n] [] "cola" None "data" 720 [] with
  | (Ok (GraphDocument _ elements_json _), _) =>
      occursb "<img src=x onerror=alert(1)><\/p>" elements_json
      && negb (occursb "</" elements_json)
      && negb (occursb "img" (cn_tooltip (convert_node COLOR_SCHEME ∅ n)))
  | _ => false
  end = true.
Proof. vm_compute. reflexivity. Qed.

End serialisation.

(** ** Proofs: rendering *)

Section rendering.
Import Py Cytoscape Spec.

Lemma unknown_layout_iff (layout : string) :
  dict_get layout LAYOUT_CONFIGS = None ↔ layout ∉ preset_names.
Proof.
  unfold LAYOUT_CONFIGS, preset_names. simpl.
  repeat (destruct (decide (_ = layout)) as [<-|?];
          [split; [discriminate|intros H; exfalso; apply H; set_solver]|]).
  split; [|done]. intros _ H. set_solver.
Qed.

(** The body of the [try] for a non-empty node list: the diagnostics are
    logged, then the document is built from the elements of the nodes
    shown. *)
Lemma render_body_nonempty nodes rels layout expanded view_type height log :
  nodes ≠ [] →
  render_body nodes rels layout expanded view_type height log
  = (_build_html_template (shown_elements view_type nodes rels expanded)
       (resolved_layout view_type nodes layout) view_type height,
     log ++ diagnostics view_type nodes layout).
Proof.
  destruct nodes as [|n0 nodes']; [done|]. intros _.
  set (nodes := n0 :: nodes').
  unfold render_body, shown_elements, resolved_layout, diagnostics,
    shown_nodes, shown_relationships, over_limit.
  fold nodes. unfold limit_schema, check_layout, simplify_layout, mbind, M_bind,
    mret, M_ret, emit, lift.
  destruct (decide (view_type = "schema" ∧ 100 < length nodes)) as [Hlim|Hlim];
    destruct (decide (dict_get layout LAYOUT_CONFIGS = None)) as [Hun|Hun];
    simpl;
    repeat match goal with
    | |- context [decide (?P)] => destruct (decide P); simpl
    end;
    rewrite <- ?app_assoc, ?app_nil_r; simpl; done.
Qed.

Lemma render_cytoscape_graph_unfold nodes rels layout expanded view_type height log :
  render_cytoscape_graph nodes rels layout expanded view_type height log
  = match nodes with
    | [] => (Ok (EmptyGraphDocument
                   "No nodes to display. Upload and extract documents first."), log)
    | _ :: _ =>
        match _build_html_template (shown_elements view_type nodes rels expanded)
                (resolved_layout view_type nodes layout) view_type height with
        | Ok doc => (Ok doc, log ++ diagnostics view_type nodes layout)
        | Raise e =>
            (Ok (ErrorDocument (html_escape e)),
             (log ++ diagnostics view_type nodes layout)
             ++ [(ERROR, "Error rendering Cytoscape graph: " +:+ e)])
        end
    end.
Proof.
  unfold render_cytoscape_graph, try_except.
  destruct nodes as [|n0 nodes']; [done|].
  rewrite render_body_nonempty by done.
  by destruct (_build_html_template _ _ _ _).
Qed.

Lemma build_html_template_unfold (els : elements) (layout view_type : string)
    (height : Z) :
  _build_html_template els layout view_type height
  = match dumps_elements els with
    | Raise e => Raise e
    | Ok j =>
        Ok (GraphDocument height (neutralize_close j)
              (neutralize_close
                 (dumps_layout (default cola_config (dict_get layout LAYOUT_CONFIGS)))))
    end.
Proof. done. Qed.

(** Whatever the body of a [try] raises, the [except] clause of
    [render_cytoscape_graph] turns it into the error-state document with
    the escaped message, and logs it; what the body returns is returned. *)
Lemma try_render_except (body : M document) (log : list (level * string)) :
  ∃ doc log',
    try_except body render_except log = (Ok doc, log')
    ∧ match body log with
      | (Ok d, log1) => doc = d ∧ log' = log1
      | (Raise e, log1) =>
          doc = ErrorDocument (html_escape e)
          ∧ log' = log1 ++ [(ERROR, "Error rendering Cytoscape graph: " +:+ e)]
      end.
Proof.
  unfold try_except. destruct (body log) as [[d|e] log1]; by eauto.
Qed.

(** C7.  [render_cytoscape_graph] always returns a document and never an
    exception: the empty-state document with the fixed message for an
    empty node list; the error-state document with the escaped message of
    the exception when the serialisation of the elements raises, which is
    also logged; and the graph document otherwise. *)
Theorem render_always_returns_a_document (nodes : list node) (rels : list rel)
    (layout : string) (expanded : option (gset string)) (view_type : string)
    (height : Z) (log : list (level * string)) :
  ∃ doc log',
    render_cytoscape_graph nodes rels layout expanded view_type height log
    = (Ok doc, log')
    ∧ match nodes with
      | [] =>
          doc = EmptyGraphDocument
                  "No nodes to display. Upload and extract documents first."
          ∧ log' = log
      | _ :: _ =>
          match dumps_elements (shown_elements view_type nodes rels expanded) with
          | Raise e =>
              doc = ErrorDocument (html_escape e)
              ∧ (ERROR, "Error rendering Cytoscape graph: " +:+ e) ∈ log'
          | Ok j =>
              doc = GraphDocument height (neutralize_close j)
                      (neutralize_close
                         (dumps_layout
                            (default cola_config
                               (dict_get (resolved_layout view_type nodes layout)
                                         LAYOUT_CONFIGS))))
          end
      end.
Proof.
  rewrite render_cytoscape_graph_unfold.
  destruct nodes as [|n0 nodes']; [by eauto|].
  rewrite build_html_template_unfold.
  destruct (dumps_elements _) as [j|e]; eexists _, _; (split; [done|]); [done|].
  split; [done|]. apply elem_of_app. right. by left.
Qed.

(** A property value that [json.dumps] refuses ends in the error-state
    document, with the message of the [TypeError]. *)
Example render_unserialisable_property :
  render_cytoscape_graph
    [Node (Some "n1") ["Event"] [("name", VStr "Launch");
                                 ("when", VObj "DateTime" "2024-01-01T00:00:00")]]
    [] "cola" None "data" 720 []
  = (Ok (ErrorDocument "Object of type DateTime is not JSON serializable"),
     [(ERROR, "Error rendering Cytoscape graph: Object of type DateTime is not JSON serializable")]).
Proof. vm_compute. reflexivity. Qed.

Example render_empty :
  render_cytoscape_graph [] [] "cola" None "data" 720 []
  = (Ok (EmptyGraphDocument "No nodes to display. Upload and extract documents first."),
     []).
Proof. vm_compute. reflexivity. Qed.

(** C5.  In the schema view, a node list of more than 100 nodes is cut
    to its first 100 before the mapping, and the relationships are cut to
    those between the nodes kept: the elements have exactly 100 nodes,
    those of the first 100 input nodes in order, every edge joins two of
    them, and the document returned is built from these elements (it is
    the error-state document if their serialisation raises, which it
    does not when the property values are scalars or null).  The cut is
    logged as a warning. *)
Theorem schema_truncation (nodes : list node) (rels : list rel) (layout : string)
    (expanded : option (gset string)) (height : Z) (log : list (level * string)) :
  100 < length nodes →
  let kept := take 100 nodes in
  let kept_rels :=
    filter (λ r, r_start r ∈ node_id_set kept ∧ r_end r ∈ node_id_set kept) rels in
  let els :=
    _convert_to_cytoscape_format kept kept_rels (default ∅ expanded) COLOR_SCHEME in
  length (el_nodes els) = 100
  ∧ map cn_id (el_nodes els) = map (λ n, or_empty (n_element_id n)) kept
  ∧ (∀ e, e ∈ el_edges els →
          Some (ce_source e) ∈ node_id_set kept ∧ Some (ce_target e) ∈ node_id_set kept)
  ∧ ∃ doc log',
      render_cytoscape_graph nodes rels layout expanded "schema" height log
      = (Ok doc, log')
      ∧ limit_warning nodes ∈ log'
      ∧ match dumps_elements els with
        | Ok j => ∃ layout_json, doc = GraphDocument height (neutralize_close j) layout_json
        | Raise e => doc = ErrorDocument (html_escape e)
        end
      ∧ (Forall scalar_properties nodes → ∃ j, dumps_elements els = Ok j).
Proof.
  intros Hlen kept kept_rels els.
  assert (Hscalars : Forall scalar_properties nodes → ∃ j, dumps_elements els = Ok j).
  { intros Hn. apply dumps_elements_scalars. by apply Forall_take. }
  split; [|split; [|split]].
  - unfold els. rewrite el_nodes_convert, length_map. unfold kept.
    rewrite length_take. lia.
  - unfold els. rewrite el_nodes_convert, map_map. done.
  - intros e He. by eapply mapped_edge_endpoints.
  - rewrite render_cytoscape_graph_unfold.
    destruct nodes as [|n0 nodes']; [simpl in Hlen; lia|].
    set (nodes := n0 :: nodes') in *.
    assert (Hels : shown_elements "schema" nodes rels expanded = els).
    { unfold shown_elements, shown_nodes, shown_relationships.
      rewrite !decide_True by done. done. }
    assert (Hwarn : limit_warning nodes ∈ diagnostics "schema" nodes layout).
    { unfold diagnostics. rewrite decide_True by done. by left. }
    rewrite build_html_template_unfold, Hels.
    destruct (dumps_elements els) as [j|e]; eexists _, _; (split; [done|]).
    + split; [|by eauto]. apply elem_of_app. by right.
    + split; [|done]. apply elem_of_app. left. apply elem_of_app. by right.
Qed.

Lemma schema_truncation_witness :
  100 < length (schema_nodes 150)
  ∧ length (el_nodes (shown_elements "schema" (schema_nodes 150) (schema_chain 150) None))
    = 100
  ∧ length (el_edges (shown_elements "schema" (schema_nodes 150) (schema_chain 150) None))
    = 99
  ∧ ∃ doc log',
      render_cytoscape_graph (schema_nodes 150) (schema_chain 150) "cola" None
        "schema" 720 [] = (Ok doc, log')
      ∧ limit_warning (schema_nodes 150) ∈ log'.
Proof.
  assert (H : 100 < length (schema_nodes 150)) by (vm_compute; lia).
  split; [exact H|]. split; [vm_compute; reflexivity|].
  split; [vm_compute; reflexivity|].
  destruct (schema_truncation (schema_nodes 150) (schema_chain 150) "cola" None 720 [] H)
    as (_ & _ & _ & doc & log' & Heq & Hwarn & _).
  exists doc, log'. split; [exact Heq|exact Hwarn].
Defined.

(** C6, as the code has it.  For a layout name outside the preset table
    and a node list that is not empty, [render_cytoscape_graph] returns a
    document, logs the warning, and builds the graph document with the
    parameters of the cola preset (the error-state document if the
    serialisation of the elements raises, which it does not when the
    property values are scalars or null): the document is the one that
    asking for [cola] gives. *)
Theorem unknown_layout_fallback (nodes : list node) (rels : list rel)
    (layout : string) (expanded : option (gset string)) (view_type : string)
    (height : Z) (log : list (level * string)) :
  layout ∉ preset_names →
  nodes ≠ [] →
  ∃ doc log',
    render_cytoscape_graph nodes rels layout expanded view_type height log
    = (Ok doc, log')
    ∧ unknown_layout_warning layout ∈ log'
    ∧ match dumps_elements (shown_elements view_type nodes rels expanded) with
      | Ok j =>
          doc = GraphDocument height (neutralize_close j)
                  (neutralize_close (dumps_layout cola_config))
      | Raise e => doc = ErrorDocument (html_escape e)
      end
    ∧ (Forall scalar_properties nodes →
       ∃ j, dumps_elements (shown_elements view_type nodes rels expanded) = Ok j)
    ∧ (render_cytoscape_graph nodes rels "cola" expanded view_type height log).1
      = Ok doc.
Proof.
  intros Hun Hne. apply (proj2 (unknown_layout_iff layout)) in Hun.
  assert (Hscalars : Forall scalar_properties nodes →
            ∃ j, dumps_elements (shown_elements view_type nodes rels expanded) = Ok j).
  { intros Hn. apply dumps_elements_scalars. unfold shown_nodes.
    destruct (decide _); [by apply Forall_take|done]. }
  assert (Hres : resolved_layout view_type nodes layout = "cola").
  { unfold resolved_layout.
    destruct (decide (dict_get layout LAYOUT_CONFIGS = None)); [|done].
    rewrite decide_False; [done|]. by intros (_ & _ & ?). }
  assert (Hcola : resolved_layout view_type nodes "cola" = "cola").
  { unfold resolved_layout.
    destruct (decide (dict_get "cola" LAYOUT_CONFIGS = None)) as [Hc|_];
      [vm_compute in Hc; discriminate Hc|].
    rewrite decide_False; [done|]. by intros (_ & _ & ?). }
  assert (Hwarn : unknown_layout_warning layout ∈ diagnostics view_type nodes layout).
  { unfold diagnostics.
    destruct (decide (dict_get layout LAYOUT_CONFIGS = None)); [|done].
    apply elem_of_app. right. apply elem_of_app. left. by left. }
  rewrite !render_cytoscape_graph_unfold.
  destruct nodes as [|n0 nodes']; [done|].
  rewrite Hres, Hcola, build_html_template_unfold.
  destruct (dumps_elements _) as [j|e]; eexists _, _; (split; [done|]).
  - split; [|done]. apply elem_of_app. by right.
  - split; [|done]. apply elem_of_app. left. apply elem_of_app. by right.
Qed.

Lemma unknown_layout_fallback_witness :
  let nodes := [Node (Some "node1") ["Test"] []] in
  ("foo" ∉ preset_names)
  ∧ nodes ≠ []
  ∧ ∃ doc log',
      render_cytoscape_graph nodes [] "foo" None "data" 720 [] = (Ok doc, log')
      ∧ unknown_layout_warning "foo" ∈ log'.
Proof.
  intros nodes.
  assert (H1 : "foo" ∉ preset_names) by (apply (bool_decide_unpack _); vm_compute; exact I).
  assert (H2 : nodes ≠ []) by discriminate.
  split; [exact H1|]. split; [exact H2|].
  destruct (unknown_layout_fallback nodes [] "foo" None "data" 720 [] H1 H2)
    as (doc & log' & Heq & Hwarn & _).
  exists doc, log'. split; [exact Heq|exact Hwarn].
Defined.

Example render_unknown_layout :
  render_cytoscape_graph [Node (Some "node1") ["Test"] []] [] "foo" None "data" 720 []
  = render_cytoscape_graph [Node (Some "node1") ["Test"] []] [] "cola" None "data" 720
      [unknown_layout_warning "foo"].
Proof. vm_compute. reflexivity. Qed.

(** C6, as worded: with no node to draw, the empty-state document is
    returned before the layout name is looked at; there is no warning and
    no layout in the document. *)
Lemma unknown_layout_not_always_warned : ¬ unknown_layout_always_falls_back.
Proof.
  intros H.
  destruct (H [] [] "foo" None "data" 720%Z []) as (doc & log' & Heq & Hwarn & _).
  - apply (bool_decide_unpack _). vm_compute. exact I.
  - rewrite render_cytoscape_graph_unfold in Heq. injection Heq as _ <-.
    by apply elem_of_nil in Hwarn.
Qed.

End rendering.

(** ** Further properties of the visibility computation *)

Section more_visibility.
Import Py Visibility Cytoscape Spec Props.

Lemma filter_none {A} (P : A → Prop) `{!∀ x, Decision (P x)} (l : list A) :
  (∀ x, x ∈ l → ¬ P x) → filter P l = [].
Proof.
  induction l as [|x l IH]; intros Hl; [done|].
  rewrite filter_cons, decide_False by (apply Hl; by left).
  apply IH. intros y Hy. apply Hl. by right.
Qed.

Lemma filter_equiv {A} (P Q : A → Prop) `{!∀ x, Decision (P x)}
    `{!∀ x, Decision (Q x)} (l : list A) :
  (∀ x, x ∈ l → P x ↔ Q x) → filter P l = filter Q l.
Proof.
  induction l as [|x l IH]; intros HPQ; [done|].
  rewrite !filter_cons.
  assert (Hl : filter P l = filter Q l).
  { apply IH. intros y Hy. apply HPQ. by right. }
  destruct (decide (P x)) as [HP|HP].
  - rewrite decide_True by (apply HPQ; [by left|done]). by rewrite Hl.
  - rewrite decide_False; [done|]. intros HQ. apply HP, HPQ; [by left|done].
Qed.

(** X1.  The visibility computation only selects: in both view modes the
    nodes and relationships it returns are sublists of those it was
    given, so nothing is invented, repeated or reordered. *)
Theorem visible_selects (nodes : list node) (rels : list rel)
    (expanded : gset string) (view_type : string) :
  (get_visible_nodes nodes rels expanded view_type).1 `sublist_of` nodes
  ∧ (get_visible_nodes nodes rels expanded view_type).2 `sublist_of` rels.
Proof.
  unfold get_visible_nodes. destruct (decide (view_type = "schema")); simpl.
  - done.
  - split; apply sublist_filter.
Qed.

(** X2.  In the data view every Document node of the input is returned,
    whatever the relationships and the expansion set: the Document nodes,
    in input order, are a sublist of the result. *)
Theorem documents_always_visible (nodes : list node) (rels : list rel)
    (expanded : gset string) :
  filter (λ n, is_document n) nodes
    `sublist_of` (get_visible_nodes nodes rels expanded "data").1.
Proof.
  rewrite get_visible_nodes_data by done. simpl.
  apply filter_sublist_mono. intros n Hn Hdoc.
  apply elem_of_visible_node_ids. left. by exists n.
Qed.

(** X3.  Without a Document node and with nothing expanded, the data
    view is empty: no node and no relationship is returned. *)
Theorem no_anchor_nothing_visible (nodes : list node) (rels : list rel) :
  Forall (λ n, is_document n = false) nodes →
  get_visible_nodes nodes rels ∅ "data" = ([], []).
Proof.
  intros Hno.
  assert (Hempty : visible_node_ids nodes rels ∅ = ∅).
  { apply set_eq. intros i. rewrite elem_of_visible_node_ids.
    split; [|set_solver].
    assert (Hanch : ∀ j, ¬ anchor_id nodes j).
    { intros j (n & Hn & Hdoc & _).
      rewrite Forall_forall in Hno. rewrite (Hno n Hn) in Hdoc. done. }
    intros [H|[(r & _ & [[H _]|[H _]])|(r & _ & [[H _]|[H _]])]];
      try (by apply Hanch in H); set_solver. }
  rewrite get_visible_nodes_data by done. rewrite Hempty.
  f_equal; apply filter_none; set_solver.
Qed.

Lemma no_anchor_nothing_visible_witness :
  let nodes := [Node (Some "p1") ["Person"] []; Node (Some "c1") ["Chunk"] []] in
  let rels := [Rel (Some "r1") (Some "p1") (Some "c1") (Some "MENTIONED_IN")] in
  Forall (λ n, is_document n = false) nodes
  ∧ get_visible_nodes nodes rels ∅ "data" = ([], []).
Proof.
  intros nodes rels.
  assert (H : Forall (λ n, is_document n = false) nodes)
    by (repeat constructor).
  split; [exact H|]. exact (no_anchor_nothing_visible nodes rels H).
Defined.

Lemma visible_ids_with_documents_expanded (nodes : list node) (rels : list rel)
    (expanded : gset string) :
  (∀ j, j ∈ expanded → anchor_id nodes (Some j)) →
  visible_node_ids nodes rels expanded = visible_node_ids nodes rels ∅.
Proof.
  intros Hdocs. apply set_eq. intros i.
  rewrite !elem_of_visible_node_ids. unfold disclosed. split.
  - intros [?|[?|H]]; [tauto|tauto|]. right; left.
    eapply other_end_mono; [|exact H]. exact Hdocs.
  - intros [?|[?|(r & _ & [[H _]|[H _]])]]; [tauto|tauto|set_solver|set_solver].
Qed.

(** X4.  Expanding Documents shows nothing new: when every id of the
    expansion set is the id of a Document node, the result is the one
    for the empty expansion set, because the neighbours of the Documents
    are disclosed anyway. *)
Theorem expanding_documents_is_noop (nodes : list node) (rels : list rel)
    (expanded : gset string) (view_type : string) :
  (∀ j, j ∈ expanded → anchor_id nodes (Some j)) →
  get_visible_nodes nodes rels expanded view_type
  = get_visible_nodes nodes rels ∅ view_type.
Proof.
  intros Hdocs.
  unfold get_visible_nodes. destruct (decide (view_type = "schema")); [done|].
  by rewrite visible_ids_with_documents_expanded.
Qed.

Lemma expanding_documents_is_noop_witness :
  let nodes := [Node (Some "d1") ["Document"] []; Node (Some "c1") ["Chunk"] [];
                Node (Some "e2") ["Person"] []] in
  let rels := [Rel (Some "r1") (Some "d1") (Some "c1") (Some "HAS_CHUNK");
               Rel (Some "r2") (Some "c1") (Some "e2") (Some "MENTIONS")] in
  (∀ j, j ∈ ({["d1"]} : gset string) → anchor_id nodes (Some j))
  ∧ get_visible_nodes nodes rels {["d1"]} "data"
    = get_visible_nodes nodes rels ∅ "data".
Proof.
  intros nodes rels.
  assert (H : ∀ j, j ∈ ({["d1"]} : gset string) → anchor_id nodes (Some j)).
  { intros j ->%elem_of_singleton. exists (Node (Some "d1") ["Document"] []).
    split; [by left|]. split; [exact I|reflexivity]. }
  split; [exact H|]. exact (expanding_documents_is_noop nodes rels {["d1"]} "data" H).
Defined.

End more_visibility.

(** ** Further properties of the element mapping *)

Section more_mapping.
Import Py Visibility Cytoscape Spec Props.

Lemma fold_add_edge (nodes : list node) (rels : list rel) (acc : list cy_edge) :
  foldl (add_edge (node_id_set nodes)) acc rels
  = acc ++ map edge_of (filter (mappable nodes) rels).
Proof.
  revert acc. induction rels as [|r rels IH]; intros acc; simpl.
  - by rewrite app_nil_r.
  - rewrite IH, filter_cons. unfold add_edge.
    destruct (decide (mappable nodes r)) as [Hm|Hm].
    + destruct Hm as (Hs & He & Hsi & Hei).
      rewrite !bool_decide_eq_false_2, !bool_decide_eq_true_2 by done.
      simpl. by rewrite <- app_assoc.
    + destruct (_ && _) eqn:Hguard; [|done].
      exfalso. apply Hm.
      repeat (apply andb_prop in Hguard as [Hguard ?]).
      apply negb_true_iff, bool_decide_eq_false_1 in Hguard.
      apply negb_true_iff, bool_decide_eq_false_1 in H1.
      apply bool_decide_eq_true_1 in H, H0. done.
Qed.

(** X5.  The mapping emits exactly one edge for each relationship whose
    two ends are non-empty ids of nodes being mapped, in input order, and
    no other edge; the id of the edge is the relationship's [element_id]
    or, without one, [start-end]. *)
Theorem mapped_edges_exact (nodes : list node) (rels : list rel)
    (expanded : gset string) (color_scheme : list (string * string)) :
  el_edges (_convert_to_cytoscape_format nodes rels expanded color_scheme)
  = map edge_of (filter (mappable nodes) rels).
Proof. unfold _convert_to_cytoscape_format. simpl. by rewrite fold_add_edge. Qed.

Lemma py_or_same (a a' b b' : value) :
  same_when_truthy a a' → same_when_truthy b b' →
  same_when_truthy (py_or a b) (py_or a' b').
Proof.
  intros [Ht Ha] Hb. unfold py_or. rewrite <- Ht.
  destruct (truthy a) eqn:Hta; [|done]. split; [by rewrite <- Ha|auto].
Qed.

Lemma py_or_last (a a' b : value) :
  same_when_truthy a a' → py_or a b = py_or a' b.
Proof.
  intros [Ht Ha]. unfold py_or. rewrite <- Ht. destruct (truthy a); auto.
Qed.

Lemma dict_get_absent {V} (P : string * V → Prop) `{!∀ x, Decision (P x)}
    (key : string) (d : list (string * V)) :
  key ∉ map fst d → dict_get key (filter P d) = None.
Proof.
  induction d as [|[k v] d IH]; intros Hk; [done|].
  change (map fst ((k, v) :: d)) with (k :: map fst d) in Hk.
  apply not_elem_of_cons in Hk as [Hk1 Hk2].
  rewrite filter_cons.
  destruct (decide (P (k, v))); [|by apply IH].
  change (dict_get key ((k, v) :: filter P d))
    with (if decide (k = key) then Some v else dict_get key (filter P d)).
  rewrite decide_False by done. by apply IH.
Qed.

Lemma get_value_without_falsy (key : string) (d : list (string * value)) :
  NoDup (map fst d) →
  same_when_truthy (get_value key d)
    (get_value key (filter (λ item : string * value, truthy item.2) d)).
Proof.
  unfold get_value. induction d as [|[k v] d IH]; intros Hnd; [done|].
  change (map fst ((k, v) :: d)) with (k :: map fst d) in Hnd.
  apply NoDup_cons in Hnd as [Hk Hnd]. rewrite filter_cons.
  change (dict_get key ((k, v) :: d))
    with (if decide (k = key) then Some v else dict_get key d).
  destruct (decide (truthy (k, v).2)) as [Hv|Hv]; simpl in Hv.
  - change (dict_get key ((k, v) :: filter (λ item : string * value, truthy item.2) d))
      with (if decide (k = key) then Some v
            else dict_get key (filter (λ item : string * value, truthy item.2) d)).
    destruct (decide (k = key)); [done|]. by apply IH.
  - destruct (decide (k = key)) as [->|Hne]; [|by apply IH].
    rewrite dict_get_absent by done. simpl.
    unfold same_when_truthy. destruct (truthy v); [by destruct Hv|done].
Qed.

Lemma node_caption_without_falsy (n : node) :
  NoDup (map fst (n_properties n)) →
  node_caption (without_falsy n) = node_caption n.
Proof.
  intros Hnd. unfold node_caption. simpl. symmetry.
  apply py_or_last. repeat apply py_or_same; by apply get_value_without_falsy.
Qed.

(** X6.  A property whose value is falsy ([None], [False], [0] or the
    empty string) shows nowhere on the node: the caption and the tooltip
    are those of the node without such properties.  (The keys of a
    property bag are distinct, as those of a dict are.) *)
Theorem falsy_properties_invisible (n : node) (expanded : gset string)
    (color_scheme : list (string * string)) :
  NoDup (map fst (n_properties n)) →
  cn_label (convert_node color_scheme expanded n)
    = cn_label (convert_node color_scheme expanded (without_falsy n))
  ∧ cn_tooltip (convert_node color_scheme expanded n)
    = cn_tooltip (convert_node color_scheme expanded (without_falsy n)).
Proof.
  intros Hnd. simpl.
  rewrite !node_tooltip_parts_spec, node_caption_without_falsy by done.
  split; [done|]. simpl. do 2 f_equal.
  rewrite list_filter_filter_l; [done|].
  intros [k v]. unfold displayed. simpl. by intros [_ ?]%andb_prop_elim.
Qed.

Lemma falsy_properties_invisible_witness :
  let n := Node (Some "n1") ["Person"]
             [("id", VStr ""); ("name", VStr "Alice"); ("age", VInt 0);
              ("active", VBool false); ("nickname", VNone)] in
  NoDup (map fst (n_properties n))
  ∧ cn_label (convert_node COLOR_SCHEME ∅ n) = "Alice"
  ∧ cn_tooltip (convert_node COLOR_SCHEME ∅ n)
    = cn_tooltip (convert_node COLOR_SCHEME ∅
                    (Node (Some "n1") ["Person"] [("name", VStr "Alice")])).
Proof.
  intros n.
  assert (H : NoDup (map fst (n_properties n)))
    by (apply (bool_decide_unpack _); vm_compute; exact I).
  split; [exact H|]. split; [vm_compute; reflexivity|].
  exact (proj2 (falsy_properties_invisible n ∅ COLOR_SCHEME H)).
Defined.

End more_mapping.

(** ** Further properties of the rendering *)

Section more_rendering.
Import Py Visibility Cytoscape Spec Props.

Lemma dumps_items_first_object (d : list (string * value)) :
  match head (omap (λ item : string * value,
                      match item.2 with VObj cls _ => Some cls | _ => None end) d) with
  | Some cls => Json.dumps_items d = Raise (not_serializable cls)
  | None => ∃ js, Json.dumps_items d = Ok js
  end.
Proof.
  induction d as [|[k v] d IH]; simpl; [by eauto|].
  destruct v as [|b|z|s|cls repr]; simpl; try done;
    (destruct (head _) as [cls'|]; [by rewrite IH|destruct IH as [js ->]; by eauto]).
Qed.

Lemma dumps_nodes_first_object color_scheme expanded (nodes : list node) :
  match first_object_class nodes with
  | Some cls =>
      dumps_nodes (map (convert_node color_scheme expanded) nodes)
      = Raise (not_serializable cls)
  | None => ∃ js, dumps_nodes (map (convert_node color_scheme expanded) nodes) = Ok js
  end.
Proof.
  unfold first_object_class.
  induction nodes as [|n nodes IH]; [simpl; by eauto|].
  change (concat (map n_properties (n :: nodes)))
    with (n_properties n ++ concat (map n_properties nodes)).
  rewrite omap_app.
  change (dumps_nodes (map (convert_node color_scheme expanded) (n :: nodes)))
    with (match dumps_node (convert_node color_scheme expanded n) with
          | Raise e => Raise e
          | Ok j =>
              match dumps_nodes (map (convert_node color_scheme expanded) nodes) with
              | Raise e => Raise e
              | Ok js => Ok (j :: js)
              end
          end).
  unfold dumps_node, Json.dumps_properties. simpl cn_properties.
  pose proof (dumps_items_first_object (n_properties n)) as Hn.
  destruct (omap _ (n_properties n)) as [|cls l] eqn:Hhead; simpl in Hn |- *.
  - destruct Hn as [js ->].
    destruct (head _) as [cls|]; [by rewrite IH|destruct IH as [js' ->]; by eauto].
  - by rewrite Hn.
Qed.

Lemma dumps_elements_first_object nodes rels expanded color_scheme :
  match first_object_class nodes with
  | Some cls =>
      dumps_elements (_convert_to_cytoscape_format nodes rels expanded color_scheme)
      = Raise (not_serializable cls)
  | None =>
      ∃ j, dumps_elements (_convert_to_cytoscape_format nodes rels expanded color_scheme)
           = Ok j
  end.
Proof.
  unfold dumps_elements. rewrite el_nodes_convert.
  pose proof (dumps_nodes_first_object color_scheme expanded nodes) as H.
  destruct (first_object_class nodes) as [cls|]; [by rewrite H|].
  destruct H as [js ->]. by eauto.
Qed.

(** X7.  For a node list that is not empty, whose integer properties
    are all within the limit of the conversion to text, the error-state
    document is returned exactly when a property of a node that is drawn
    holds a value that [json.dumps] refuses; it then carries the escaped
    message for the class of the first such value, in node order and then
    in property order.  Otherwise the graph document is returned:
    property bags of strings, such integers, booleans and nulls never end
    in the error state. *)
Theorem render_error_exactly (nodes : list node) (rels : list rel) (layout : string)
    (expanded : option (gset string)) (view_type : string) (height : Z)
    (log : list (level * string)) :
  nodes ≠ [] →
  Forall ints_within_limit (shown_nodes view_type nodes) →
  ∃ doc log',
    render_cytoscape_graph nodes rels layout expanded view_type height log
    = (Ok doc, log')
    ∧ match first_object_class (shown_nodes view_type nodes) with
      | Some cls => doc = ErrorDocument (html_escape (not_serializable cls))
      | None => is_graph_document doc
      end.
Proof.
  intros Hne _. rewrite render_cytoscape_graph_unfold.
  destruct nodes as [|n0 nodes']; [done|].
  rewrite build_html_template_unfold. unfold shown_elements.
  pose proof (dumps_elements_first_object (shown_nodes view_type (n0 :: nodes'))
                (shown_relationships view_type (n0 :: nodes') rels)
                (default ∅ expanded) COLOR_SCHEME) as H.
  destruct (first_object_class _) as [cls|].
  - rewrite H. by eauto.
  - destruct H as [j ->]. eexists _, _. split; [done|]. exact I.
Qed.

Lemma render_error_exactly_witness :
  let nodes := [Node (Some "n1") ["Event"] [("name", VStr "Launch"); ("year", VInt 2024)];
                Node (Some "n2") ["Event"]
                  [("at", VObj "Point" "POINT(1 2)"); ("when", VObj "DateTime" "2024")]] in
  nodes ≠ []
  ∧ Forall ints_within_limit (shown_nodes "data" nodes)
  ∧ first_object_class (shown_nodes "data" nodes) = Some "Point"
  ∧ ∃ doc log',
      render_cytoscape_graph nodes [] "cola" None "data" 720 [] = (Ok doc, log')
      ∧ doc = ErrorDocument "Object of type Point is not JSON serializable".
Proof.
  intros nodes.
  assert (H : nodes ≠ []) by discriminate.
  assert (Hints : Forall ints_within_limit (shown_nodes "data" nodes)).
  { repeat constructor. }
  split; [exact H|]. split; [exact Hints|]. split; [vm_compute; reflexivity|].
  destruct (render_error_exactly nodes [] "cola" None "data" 720 [] H Hints)
    as (doc & log' & Heq & Hdoc).
  exists doc, log'. split; [exact Heq|]. exact Hdoc.
Defined.

(** X8.  Only an oversized schema is cut: in any other view, and for a
    schema of at most 100 nodes, every node given is mapped, however many
    there are, and the relationships are handed to the mapping as they
    are. *)
Theorem only_large_schema_is_cut (nodes : list node) (rels : list rel)
    (layout : string) (expanded : option (gset string)) (view_type : string)
    (height : Z) (log : list (level * string)) :
  nodes ≠ [] →
  view_type ≠ "schema" ∨ length nodes ≤ 100 →
  let els := _convert_to_cytoscape_format nodes rels (default ∅ expanded) COLOR_SCHEME in
  length (el_nodes els) = length nodes
  ∧ ∃ doc log',
      render_cytoscape_graph nodes rels layout expanded view_type height log
      = (Ok doc, log')
      ∧ match dumps_elements els with
        | Ok j => ∃ layout_json, doc = GraphDocument height (neutralize_close j) layout_json
        | Raise e => doc = ErrorDocument (html_escape e)
        end.
Proof.
  intros Hne Hsmall els. split.
  - unfold els. by rewrite el_nodes_convert, length_map.
  - rewrite render_cytoscape_graph_unfold.
    destruct nodes as [|n0 nodes']; [done|].
    assert (Hels : shown_elements view_type (n0 :: nodes') rels expanded = els).
    { unfold shown_elements, shown_nodes, shown_relationships, over_limit.
      rewrite !decide_False; [done| |]; intros [? ?]; destruct Hsmall; done || lia. }
    rewrite build_html_template_unfold, Hels.
    destruct (dumps_elements els) as [j|e]; by eauto.
Qed.

Lemma only_large_schema_is_cut_witness :
  schema_nodes 150 ≠ []
  ∧ ("data" ≠ "schema" ∨ length (schema_nodes 150) ≤ 100)
  ∧ length (el_nodes (_convert_to_cytoscape_format (schema_nodes 150) (schema_chain 150)
                        ∅ COLOR_SCHEME)) = 150
  ∧ length (el_edges (_convert_to_cytoscape_format (schema_nodes 150) (schema_chain 150)
                        ∅ COLOR_SCHEME)) = 149.
Proof.
  assert (H1 : schema_nodes 150 ≠ []) by (vm_compute; discriminate).
  assert (H2 : "data" ≠ "schema" ∨ length (schema_nodes 150) ≤ 100)
    by (left; discriminate).
  split; [exact H1|]. split; [exact H2|]. split.
  - exact (proj1 (only_large_schema_is_cut (schema_nodes 150) (schema_chain 150)
                    "cola" None "data" 720 [] H1 H2)).
  - vm_compute. reflexivity.
Defined.

Lemma schema_shown_length (nodes : list node) :
  50 < length nodes → 50 < length (shown_nodes "schema" nodes).
Proof.
  intros H. unfold shown_nodes. destruct (decide _) as [[_ ?]|_]; [|done].
  rewrite length_take. lia.
Qed.

(** X9.  A schema of more than 50 nodes is never laid out by dagre: when
    dagre is asked for, the graph document carries the parameters of the
    circle preset, and the change is logged. *)
Theorem dagre_downgraded_for_large_schema (nodes : list node) (rels : list rel)
    (expanded : option (gset string)) (height : Z) (log : list (level * string)) :
  50 < length nodes →
  ∃ doc log',
    render_cytoscape_graph nodes rels "dagre" expanded "schema" height log
    = (Ok doc, log')
    ∧ match layout_of doc with
      | Some layout_json => layout_json = preset_json "circle"
      | None => ∃ e, doc = ErrorDocument e
      end
    ∧ (INFO, "Schema has " +:+ len_str (shown_nodes "schema" nodes) +:+
             " nodes, using circular layout instead of dagre") ∈ log'.
Proof.
  intros Hlen. rewrite render_cytoscape_graph_unfold.
  destruct nodes as [|n0 nodes']; [simpl in Hlen; lia|].
  set (nodes := n0 :: nodes') in *.
  pose proof (schema_shown_length nodes Hlen) as Hshown.
  assert (Hres : resolved_layout "schema" nodes "dagre" = "circle").
  { unfold resolved_layout. rewrite decide_True; [done|].
    split; [done|]. split; [done|]. reflexivity. }
  assert (Hinfo : (INFO, "Schema has " +:+ len_str (shown_nodes "schema" nodes) +:+
                         " nodes, using circular layout instead of dagre")
                  ∈ diagnostics "schema" nodes "dagre").
  { unfold diagnostics. apply elem_of_app. right. apply elem_of_app. right.
    rewrite decide_True; [by left|]. split; [done|]. split; [done|]. reflexivity. }
  rewrite Hres, build_html_template_unfold.
  destruct (dumps_elements _) as [j|e]; eexists _, _; (split; [done|]); simpl.
  - split; [done|]. apply elem_of_app. by right.
  - split; [by eauto|]. apply elem_of_app. left. apply elem_of_app. by right.
Qed.

Lemma dagre_downgraded_for_large_schema_witness :
  50 < length (schema_nodes 60)
  ∧ ∃ doc log',
      render_cytoscape_graph (schema_nodes 60) (schema_chain 60) "dagre" None
        "schema" 720 [] = (Ok doc, log')
      ∧ layout_of doc = Some (preset_json "circle").
Proof.
  assert (H : 50 < length (schema_nodes 60)) by (vm_compute; lia).
  split; [exact H|].
  destruct (dagre_downgraded_for_large_schema (schema_nodes 60) (schema_chain 60)
              None 720 [] H) as (doc & log' & Heq & Hlayout & _).
  exists doc, log'. split; [exact Heq|].
  destruct (layout_of doc) as [lj|] eqn:Hl.
  - by rewrite Hlayout.
  - destruct Hlayout as [e ->]. vm_compute in Heq. discriminate Heq.
Defined.

(** X10.  A layout of the preset table is used as asked, except dagre on
    a schema of more than 50 nodes: the graph document carries the
    parameters of that preset, whose [name] is the name asked for. *)
Theorem known_layout_honoured (nodes : list node) (rels : list rel) (layout : string)
    (expanded : option (gset string)) (view_type : string) (height : Z)
    (log : list (level * string)) :
  nodes ≠ [] →
  layout ∈ preset_names →
  ¬ (view_type = "schema" ∧ 50 < length nodes ∧ layout = "dagre") →
  ∃ doc log',
    render_cytoscape_graph nodes rels layout expanded view_type height log
    = (Ok doc, log')
    ∧ match layout_of doc with
      | Some layout_json => layout_json = preset_json layout
      | None => ∃ e, doc = ErrorDocument e
      end
    ∧ dict_get "name" (default [] (dict_get layout LAYOUT_CONFIGS)) = Some (PStr layout).
Proof.
  intros Hne Hknown Hnot.
  assert (Hget : dict_get layout LAYOUT_CONFIGS ≠ None).
  { intros Hnone. by apply unknown_layout_iff in Hnone. }
  assert (Hres : resolved_layout view_type nodes layout = layout).
  { unfold resolved_layout.
    destruct (decide (dict_get layout LAYOUT_CONFIGS = None)); [done|].
    rewrite decide_False; [done|]. intros (Hv & Hlen & Hd). apply Hnot.
    split; [done|]. split; [|done]. subst view_type.
    unfold shown_nodes in Hlen. destruct (decide _) as [[_ ?]|_]; lia. }
  assert (Hname : dict_get "name" (default [] (dict_get layout LAYOUT_CONFIGS))
                  = Some (PStr layout)).
  { unfold preset_names in Hknown.
    repeat (apply elem_of_cons in Hknown as [->|Hknown]; [reflexivity|]).
    by apply elem_of_nil in Hknown. }
  rewrite render_cytoscape_graph_unfold.
  destruct nodes as [|n0 nodes']; [done|].
  rewrite Hres, build_html_template_unfold.
  assert (Hcfg : default cola_config (dict_get layout LAYOUT_CONFIGS)
                 = default [] (dict_get layout LAYOUT_CONFIGS)).
  { by destruct (dict_get layout LAYOUT_CONFIGS). }
  rewrite Hcfg.
  destruct (dumps_elements _) as [j|e]; eexists _, _; (split; [done|]); simpl;
    by eauto.
Qed.

Lemma known_layout_honoured_witness :
  let nodes := schema_nodes 60 in
  nodes ≠ []
  ∧ ("dagre" ∈ preset_names)
  ∧ ¬ ("data" = "schema" ∧ 50 < length nodes ∧ "dagre" = "dagre")
  ∧ ∃ doc log',
      render_cytoscape_graph nodes (schema_chain 60) "dagre" None "data" 720 []
      = (Ok doc, log')
      ∧ layout_of doc = Some (preset_json "dagre").
Proof.
  intros nodes.
  assert (H1 : nodes ≠ []) by (vm_compute; discriminate).
  assert (H2 : "dagre" ∈ preset_names)
    by (apply (bool_decide_unpack _); vm_compute; exact I).
  assert (H3 : ¬ ("data" = "schema" ∧ 50 < length nodes ∧ "dagre" = "dagre"))
    by (intros [? _]; discriminate).
  split; [exact H1|]. split; [exact H2|]. split; [exact H3|].
  destruct (known_layout_honoured nodes (schema_chain 60) "dagre" None "data" 720 []
              H1 H2 H3) as (doc & log' & Heq & Hlayout & _).
  exists doc, log'. split; [exact Heq|].
  destruct (layout_of doc) as [lj|] eqn:Hl.
  - by rewrite Hlayout.
  - destruct Hlayout as [e ->]. vm_compute in Heq. discriminate Heq.
Defined.

End more_rendering.

(** ** Properties of the upload *)

Section upload.
Import Py App.

Lemma take_app_slice {A} (l : list A) (a b : nat) :
  a ≤ b → take a l ++ take (b - a) (drop a l) = take b l.
Proof.
  intros Hab. rewrite <- (take_drop a (take b l)).
  rewrite take_take, Nat.min_l by done. f_equal.
  rewrite take_drop_commute. f_equal. f_equal. lia.
Qed.

Lemma range_S (n : nat) :
  range (Z.of_nat (S n)) = range (Z.of_nat n) ++ [Z.of_nat n].
Proof.
  unfold range. rewrite !Nat2Z.id, seq_S, map_app. done.
Qed.

Lemma concat_chunks (chunk_size : Z) (content : list Byte.byte) (n : nat) :
  (0 < chunk_size)%Z →
  concat (map (chunk_of chunk_size content) (range (Z.of_nat n)))
  = take (Z.to_nat (Z.of_nat n * chunk_size)) content.
Proof.
  intros Hcs. induction n as [|n IH].
  - done.
  - rewrite range_S, map_app, concat_app, IH. simpl. rewrite app_nil_r.
    unfold chunk_of, slice.
    set (len := length content).
    destruct (decide (Z.of_nat n * chunk_size ≤ Z.of_nat len)%Z) as [Hle|Hgt].
    + destruct (decide ((Z.of_nat n + 1) * chunk_size ≤ Z.of_nat len)%Z).
      * rewrite Z.min_l by done.
        replace (Z.to_nat ((Z.of_nat n + 1) * chunk_size - Z.of_nat n * chunk_size))
          with (Z.to_nat (Z.of_nat (S n) * chunk_size)
                - Z.to_nat (Z.of_nat n * chunk_size)) by lia.
        apply take_app_slice. lia.
      * rewrite Z.min_r by lia.
        replace (Z.to_nat (Z.of_nat len - Z.of_nat n * chunk_size))
          with (len - Z.to_nat (Z.of_nat n * chunk_size)) by lia.
        rewrite take_app_slice by lia.
        rewrite !take_ge; [done| |]; unfold len; lia.
    + rewrite (drop_ge content) by (fold len; lia).
      rewrite take_nil, app_nil_r. rewrite !take_ge; [done| |]; fold len; nia.
Qed.

Lemma total_chunks_bounds (chunk_size : Z) (content : list Byte.byte) :
  (0 < chunk_size)%Z →
  let total := total_chunks_of chunk_size content in
  (0 ≤ total
   ∧ (total - 1) * chunk_size < Z.of_nat (length content) ∨ total = 0)%Z
  ∧ (Z.of_nat (length content) ≤ total * chunk_size)%Z.
Proof.
  intros Hcs. unfold total_chunks_of. simpl.
  set (len := Z.of_nat (length content)).
  assert (0 ≤ len)%Z by (unfold len; lia).
  pose proof (Z.div_mod (len + chunk_size - 1) chunk_size ltac:(lia)) as Hdm.
  pose proof (Z.mod_pos_bound (len + chunk_size - 1) chunk_size Hcs) as Hmod.
  assert (0 ≤ (len + chunk_size - 1) `div` chunk_size)%Z
    by (apply Z.div_pos; lia).
  split; [|nia]. left. split; [done|nia].
Qed.

Lemma concat_all_chunks (chunk_size : Z) (content : list Byte.byte) :
  (0 < chunk_size)%Z →
  concat (map (chunk_of chunk_size content)
              (range (total_chunks_of chunk_size content))) = content.
Proof.
  intros Hcs.
  destruct (total_chunks_bounds chunk_size content Hcs) as [Hlow Hhigh].
  set (total := total_chunks_of chunk_size content) in *.
  rewrite <- (Z2Nat.id total) by lia.
  rewrite concat_chunks by done. apply take_ge. lia.
Qed.

(** The chunks partition the content: there are ceil(size / chunk_size)
    of them, each holds at least one byte and at most [chunk_size], and
    one after the other they are the content. *)
Lemma chunks_partition (chunk_size : Z) (content : list Byte.byte) :
  (0 < chunk_size)%Z →
  let chunks := map (chunk_of chunk_size content)
                    (range (total_chunks_of chunk_size content)) in
  concat chunks = content
  ∧ Z.of_nat (length chunks) = total_chunks_of chunk_size content
  ∧ Forall (λ c, (0 < Z.of_nat (length c) ≤ chunk_size)%Z) chunks.
Proof.
  intros Hcs chunks. unfold chunks.
  destruct (total_chunks_bounds chunk_size content Hcs) as [Hlow Hhigh].
  set (total := total_chunks_of chunk_size content) in *.
  assert (Htot : (0 ≤ total)%Z) by lia.
  split; [|split].
  - by apply concat_all_chunks.
  - unfold range. rewrite !length_map, length_seq. lia.
  - apply Forall_fmap, Forall_forall. intros i Hi.
    unfold range in Hi. apply list_elem_of_fmap in Hi as (k & -> & Hk).
    apply elem_of_seq in Hk. simpl.
    unfold chunk_of, slice. rewrite length_take, length_drop. nia.
Qed.

Section upload_runs.
Context {J : Type} (BACKEND_URL : option string) (netloc : string → result string)
        (backend : list request → answer J).

Lemma posts_app (t1 t2 : list event) : posts (t1 ++ t2) = posts t1 ++ posts t2.
Proof. unfold posts. apply omap_app. Qed.

(** [get_valid_backend_url] posts nothing and, when it returns, returns
    [backend_url]. *)
Lemma get_valid_backend_url_run (t : list event) :
  match get_valid_backend_url BACKEND_URL netloc t with
  | (Ok url, t') => url = backend_url BACKEND_URL netloc ∧ posts t' = posts t
  | (Raise _, t') => t' = t
  end.
Proof.
  unfold get_valid_backend_url, backend_url, mbind, Act_bind, act_lift.
  destruct (netloc _) as [n|e]; [|done].
  destruct (decide (n ≠ "")); simpl; [done|].
  split; [done|]. by rewrite posts_app, app_nil_r.
Qed.

Lemma upload_chunks_step (uri username password database : string) (file : uploaded)
    (model : string) (chunk_size file_size total_chunks i : Z) (indices : list Z)
    (t : list event) :
  upload_chunks BACKEND_URL netloc backend uri username password database file model
    chunk_size file_size total_chunks (i :: indices) t
  = match get_valid_backend_url BACKEND_URL netloc t with
    | (Raise e, t1) => (Raise e, t1)
    | (Ok url, t1) =>
        let r := turn_request url uri username password database file model
                   chunk_size file_size total_chunks i in
        match backend (posts t1 ++ [r]) with
        | TransportError msg => (Raise msg, t1 ++ [Posted r])
        | Response status json =>
            if decide (status ≠ 200%Z) then
              (Ok (Failed "Upload failed"),
               (t1 ++ [Posted r])
               ++ [StError ("Error uploading chunk " +:+ str_of_int (i + 1) +:+ "/" +:+
                            str_of_int total_chunks)])
            else if decide ((i + 1)%Z = total_chunks) then
              (match json with Ok j => Ok (Body j) | Raise e => Raise e end,
               t1 ++ [Posted r])
            else
              upload_chunks BACKEND_URL netloc backend uri username password database
                file model chunk_size file_size total_chunks indices (t1 ++ [Posted r])
        end
    end.
Proof.
  cbn [upload_chunks]. unfold mbind at 1, Act_bind at 1.
  destruct (get_valid_backend_url BACKEND_URL netloc t) as [[url|e] t1]; [|done].
  unfold mbind at 1, Act_bind at 1, requests_post at 1, turn_request. cbv zeta.
  destruct (backend _) as [status json|msg]; [|done].
  cbn [fst snd].
  destruct (decide (status ≠ 200%Z)); [done|].
  destruct (decide ((i + 1)%Z = total_chunks)); [|done].
  by destruct json.
Qed.

Lemma upload_chunks_run (uri username password database : string) (file : uploaded)
    (model : string) (chunk_size file_size total_chunks : Z) (indices : list Z)
    (t : list event) :
  let req := turn_request (backend_url BACKEND_URL netloc) uri username password
               database file model chunk_size file_size total_chunks in
  ∃ res t' k,
    upload_chunks BACKEND_URL netloc backend uri username password database file model
      chunk_size file_size total_chunks indices t = (res, t')
    ∧ k ≤ length indices
    ∧ posts t' = posts t ++ map req (take k indices)
    ∧ (∀ j, S j < k → accepted backend (posts t ++ map req (take (S j) indices)))
    ∧ (∀ body, res = Ok (Body body) →
         accepted backend (posts t ++ map req (take k indices))
         ∧ ∃ i, indices !! (k - 1) = Some i ∧ 0 < k ∧ (i + 1)%Z = total_chunks)
    ∧ (indices = [] → res = Ok (Failed "Upload incomplete") ∧ t' = t).
Proof.
  intros req. revert t. induction indices as [|i indices IH]; intros t.
  - exists (Ok (Failed "Upload incomplete")), t, 0. simpl.
    rewrite app_nil_r. repeat split; try done; try (intros; lia); try (by intros ? [=]).
  - rewrite upload_chunks_step.
    pose proof (get_valid_backend_url_run t) as Hurl.
    destruct (get_valid_backend_url BACKEND_URL netloc t) as [[url|e] t1];
      [|subst t1; exists (Raise e), t, 0; simpl; rewrite app_nil_r;
        repeat split; try done; try (intros; lia); try (by intros ? [=])].
    destruct Hurl as [-> Hposts]. cbv zeta. fold (req i). rewrite Hposts.
    destruct (backend (posts t ++ [req i])) as [status json|msg] eqn:Hans;
      [|exists (Raise msg), (t1 ++ [Posted (req i)]), 1; simpl;
        rewrite posts_app, Hposts; repeat split; try done; try (intros; lia);
        try (by intros ? [=])].
    destruct (decide (status ≠ 200%Z)) as [Hbad|Hok].
    + eexists _, _, 1. split; [reflexivity|]. simpl.
      rewrite !posts_app, Hposts. simpl. rewrite app_nil_r.
      repeat split; try done; try (intros; lia); try (by intros ? [=]).
    + assert (status = 200%Z) as -> by lia.
      assert (Hacc : accepted backend (posts t ++ [req i])) by (by exists json).
      destruct (decide ((i + 1)%Z = total_chunks)) as [Hlast|Hmore].
      * destruct json as [body|e]; eexists _, _, 1; (split; [reflexivity|]); simpl;
          rewrite !posts_app, Hposts; simpl; repeat split; try done;
          try (intros; lia); try (by intros ? [=]).
        exists i. split; [done|]. split; [lia|done].
      * destruct (IH (t1 ++ [Posted (req i)]))
          as (res & t' & k & Hrun & Hk & Hp & Hprev & Hbody & _).
        exists res, t', (S k). split; [exact Hrun|].
        rewrite posts_app, Hposts in Hp, Hprev, Hbody. simpl in Hp, Hprev, Hbody.
        rewrite <- !app_assoc in Hp. simpl in Hp.
        split; [simpl; lia|]. split; [exact Hp|]. split; [|split; [|done]].
        -- intros [|j] Hj; [exact Hacc|]. simpl.
           specialize (Hprev j ltac:(lia)). by rewrite <- app_assoc in Hprev.
        -- intros body Hres. destruct (Hbody body Hres) as (Ha & i' & Hi' & Hk0 & Hlast).
           rewrite <- app_assoc in Ha.
           split; [exact Ha|]. exists i'. split; [|split; [lia|done]].
           destruct k; [lia|]. simpl in *. by rewrite Nat.sub_0_r in Hi'.
Qed.

Lemma range_lookup (n : Z) (k : nat) (i : Z) :
  range n !! k = Some i → i = Z.of_nat k ∧ k < Z.to_nat n.
Proof.
  unfold range. rewrite list_lookup_fmap. intros Hk.
  apply fmap_Some in Hk as (m & Hm & ->).
  apply lookup_seq in Hm as [-> ?]. split; [done|lia].
Qed.

Lemma upload_file_chunked_run (chunk_size : Z) (uri username password database : string)
    (file : uploaded) (model : string) (t : list event) :
  let requests := chunk_requests BACKEND_URL netloc chunk_size uri username password
                    database file model in
  ∃ out t' k,
    upload_file_chunked BACKEND_URL netloc backend chunk_size uri username password
      database file model t = (Ok out, t')
    ∧ posts t' = posts t ++ take k requests
    ∧ (∀ j, S j < k → accepted backend (posts t ++ take (S j) requests))
    ∧ (∀ body, out = Body body →
         k = length requests ∧ 0 < k ∧ accepted backend (posts t ++ requests))
    ∧ (requests = [] → out = Failed "Upload incomplete" ∧ t' = t).
Proof.
  intros requests. unfold upload_file_chunked, act_try.
  destruct (upload_chunks_run (plus_for_space uri) username password database file model
              chunk_size (Z.of_nat (length (up_value file)))
              (total_chunks_of chunk_size (up_value file))
              (range (total_chunks_of chunk_size (up_value file))) t)
    as (res & t' & k & Hrun & Hk & Hp & Hprev & Hbody & Hnil).
  fold (total_chunks_of chunk_size (up_value file)). rewrite Hrun.
  assert (Hreq : ∀ n, map (turn_request (backend_url BACKEND_URL netloc)
                             (plus_for_space uri) username password database file model
                             chunk_size (Z.of_nat (length (up_value file)))
                             (total_chunks_of chunk_size (up_value file)))
                          (take n (range (total_chunks_of chunk_size (up_value file))))
                      = take n requests).
  { intros n. unfold requests, chunk_requests. by rewrite <- fmap_take. }
  rewrite Hreq in Hp, Hbody.
  assert (Hprev' : ∀ j, S j < k → accepted backend (posts t ++ take (S j) requests)).
  { intros j Hj. rewrite <- Hreq. by apply Hprev. }
  assert (Hlen : length requests
                 = length (range (total_chunks_of chunk_size (up_value file)))).
  { unfold requests, chunk_requests. by rewrite length_map. }
  assert (Hempty : requests = [] →
                   range (total_chunks_of chunk_size (up_value file)) = []).
  { intros Hr. apply length_zero_iff_nil. rewrite <- Hlen, Hr. done. }
  destruct res as [out|e].
  - exists out, t', k. split; [done|]. split; [done|]. split; [done|]. split.
    + intros body ->. destruct (Hbody body eq_refl) as (Hacc & i & Hi & Hk0 & Hlast).
      apply range_lookup in Hi as [-> Hlt].
      assert (Hkl : k = length requests).
      { rewrite Hlen. unfold range. rewrite length_map, length_seq. lia. }
      split; [done|]. split; [done|].
      rewrite Hkl, take_ge in Hacc by lia. done.
    + intros Hr. destruct (Hnil (Hempty Hr)) as [[= ->] ->]. done.
  - unfold mbind, Act_bind, st_error. simpl.
    exists (Failed e), (t' ++ [StError ("Error uploading file: " +:+ e)]), k.
    split; [done|]. rewrite posts_app, app_nil_r.
    split; [done|]. split; [done|]. split; [by intros ? [=]|].
    intros Hr. by destruct (Hnil (Hempty Hr)) as [[=] _].
Qed.

(** X11.  Every request that an upload posts carries at least one byte
    of the file and at most [chunk_size]; the number n of requests posted
    is at most ceil(size / chunk_size), that is (n - 1) * chunk_size <
    size unless nothing is posted, and it is ceil(size / chunk_size),
    that is also size <= n * chunk_size, when the upload returns the body
    of a response. *)
Theorem upload_chunk_sizes (chunk_size : Z) (uri username password database : string)
    (file : uploaded) (model : string) (t : list event) :
  (0 < chunk_size)%Z →
  ∃ out t' new,
    upload_file_chunked BACKEND_URL netloc backend chunk_size uri username password
      database file model t = (Ok out, t')
    ∧ posts t' = posts t ++ new
    ∧ Forall (λ r, (0 < Z.of_nat (length (file_bytes r)) ≤ chunk_size)%Z) new
    ∧ (new = []
       ∨ ((Z.of_nat (length new) - 1) * chunk_size
          < Z.of_nat (length (up_value file)))%Z)
    ∧ (∀ body, out = Body body →
         (Z.of_nat (length (up_value file)) ≤ Z.of_nat (length new) * chunk_size)%Z).
Proof.
  intros Hcs.
  destruct (upload_file_chunked_run chunk_size uri username password database file
              model t) as (out & t' & k & Hrun & Hp & _ & Hbody & _).
  set (requests := chunk_requests BACKEND_URL netloc chunk_size uri username password
                     database file model) in *.
  destruct (chunks_partition chunk_size (up_value file) Hcs) as (_ & Hlen & Hsizes).
  destruct (total_chunks_bounds chunk_size (up_value file) Hcs) as [Hlow Hhigh].
  assert (Hreqs : Z.of_nat (length requests) = total_chunks_of chunk_size (up_value file)).
  { unfold requests, chunk_requests. rewrite length_map.
    rewrite length_map in Hlen. exact Hlen. }
  exists out, t', (take k requests). split; [exact Hrun|]. split; [exact Hp|].
  split; [|split].
  - apply Forall_take. unfold requests, chunk_requests.
    apply Forall_fmap. apply Forall_fmap in Hsizes.
    eapply Forall_impl; [exact Hsizes|]. intros i Hi. exact Hi.
  - destruct (take k requests) as [|r0 new'] eqn:Hnew; [by left|]. right.
    assert (Hle : length (r0 :: new') ≤ length requests).
    { rewrite <- Hnew, length_take. lia. }
    simpl in *. nia.
  - intros body Hout. destruct (Hbody body Hout) as (-> & _ & _).
    rewrite take_ge by done. lia.
Qed.

(** X12.  An upload never raises and never skips ahead: what it posts is
    an initial part of the chunk requests of the file, in order, and
    every request but the last one posted was answered with status 200;
    so no chunk is sent after one that was refused or lost. *)
Theorem upload_posts_in_order (chunk_size : Z) (uri username password database : string)
    (file : uploaded) (model : string) (t : list event) :
  (0 < chunk_size)%Z →
  let requests := chunk_requests BACKEND_URL netloc chunk_size uri username password
                    database file model in
  ∃ out t' k,
    upload_file_chunked BACKEND_URL netloc backend chunk_size uri username password
      database file model t = (Ok out, t')
    ∧ posts t' = posts t ++ take k requests
    ∧ (∀ j, S j < k → accepted backend (posts t ++ take (S j) requests)).
Proof.
  intros _ requests.
  destruct (upload_file_chunked_run chunk_size uri username password database file
              model t) as (out & t' & k & Hrun & Hp & Hprev & _).
  by exists out, t', k.
Qed.

(** X13.  When an upload returns the body of a response, every chunk of
    the file was posted, once and in order, each was answered with status
    200, and the bytes posted are, one request after the other, the
    content of the file, which is not empty. *)
Theorem upload_success_sends_whole_file (chunk_size : Z)
    (uri username password database : string) (file : uploaded) (model : string)
    (t t' : list event) (body : J) :
  (0 < chunk_size)%Z →
  upload_file_chunked BACKEND_URL netloc backend chunk_size uri username password
    database file model t = (Ok (Body body), t') →
  let requests := chunk_requests BACKEND_URL netloc chunk_size uri username password
                    database file model in
  posts t' = posts t ++ requests
  ∧ concat (map file_bytes requests) = up_value file
  ∧ (∀ j, j < length requests → accepted backend (posts t ++ take (S j) requests))
  ∧ up_value file ≠ [].
Proof.
  intros Hcs Hrun requests.
  destruct (upload_file_chunked_run chunk_size uri username password database file
              model t) as (out & t1 & k & Hrun' & Hp & Hprev & Hbody & _).
  rewrite Hrun in Hrun'. injection Hrun' as <- <-.
  destruct (Hbody body eq_refl) as (Hk & Hk0 & Hacc).
  fold requests in Hp, Hprev, Hacc, Hk.
  assert (Hbytes : concat (map file_bytes requests) = up_value file).
  { unfold requests, chunk_requests. rewrite map_map.
    rewrite <- (concat_all_chunks chunk_size (up_value file) Hcs) at 2. done. }
  split; [by rewrite Hp, Hk, take_ge|]. split; [done|]. split.
  - intros j Hj. destruct (decide (S j < k)) as [Hlt|Hge]; [by apply Hprev|].
    assert (S j = length requests) as -> by lia. by rewrite take_ge.
  - intros Hnil. unfold requests, chunk_requests in Hk.
    rewrite length_map, Hnil in Hk. unfold range, total_chunks_of in Hk.
    rewrite length_map, length_seq in Hk. simpl in Hk.
    rewrite Z.div_small in Hk by lia. simpl in Hk. lia.
Qed.

(** X14.  An empty file is not uploaded: nothing is posted and the call
    returns the failure [Upload incomplete]. *)
Theorem upload_empty_file (chunk_size : Z) (uri username password database : string)
    (file : uploaded) (model : string) (t : list event) :
  (0 < chunk_size)%Z →
  up_value file = [] →
  upload_file_chunked BACKEND_URL netloc backend chunk_size uri username password
    database file model t = (Ok (Failed "Upload incomplete"), t).
Proof.
  intros Hcs Hnil.
  destruct (upload_file_chunked_run chunk_size uri username password database file
              model t) as (out & t1 & k & Hrun & _ & _ & _ & Hempty).
  rewrite Hrun. destruct Hempty as [-> ->]; [|done].
  unfold chunk_requests, range, total_chunks_of. rewrite Hnil. simpl.
  rewrite Z.div_small by lia. done.
Qed.

(** A transport error on the one request of a call that has no [try]
    escapes it; with the [try] it becomes a failure. *)
Lemma get_source_list_returns (uri username password database : string)
    (t : list event) :
  ∃ out t', get_source_list BACKEND_URL netloc backend uri username password database t
            = (Ok out, t').
Proof.
  unfold get_source_list, act_try, mbind, Act_bind.
  destruct (get_valid_backend_url BACKEND_URL netloc t) as [[url|e] t1];
    [|by eauto].
  unfold requests_post. destruct (backend _) as [status [j|e]|msg]; by eauto.
Qed.

Lemma delete_documents_returns (uri username password database : string)
    (filenames source_types : list string) (delete_entities : bool) (t : list event) :
  ∃ out t', delete_documents BACKEND_URL netloc backend uri username password database
              filenames source_types delete_entities t = (Ok out, t').
Proof.
  unfold delete_documents, act_try, mbind, Act_bind.
  destruct (get_valid_backend_url BACKEND_URL netloc t) as [[url|e] t1];
    [|by eauto].
  unfold requests_post. destruct (backend _) as [status [j|e]|msg]; by eauto.
Qed.

(** X15.  [get_source_list] and [delete_documents] always return, a
    body or a failure, whatever the backend does; [connect_to_neo4j],
    which has no [try], raises what the transport raises. *)
Theorem only_connect_raises (uri username password database : string)
    (t : list event) :
  (∃ out t', get_source_list BACKEND_URL netloc backend uri username password database t
             = (Ok out, t'))
  ∧ (∀ filenames source_types delete_entities,
       ∃ out t', delete_documents BACKEND_URL netloc backend uri username password
                   database filenames source_types delete_entities t = (Ok out, t'))
  ∧ (∀ msg,
       backend (posts t ++
                [ {| rq_url := backend_url BACKEND_URL netloc +:+ "/connect";
                     rq_data := connection_data (plus_for_space uri) username password
                                  database;
                     rq_file := None |} ]) = TransportError msg →
       (∃ parsed, netloc (default DEFAULT_BACKEND_URL BACKEND_URL) = Ok parsed) →
       ∃ t', connect_to_neo4j BACKEND_URL netloc backend uri username password database t
             = (Raise msg, t')).
Proof.
  split; [apply get_source_list_returns|]. split; [intros; apply delete_documents_returns|].
  intros msg Hans [parsed Hparsed].
  unfold connect_to_neo4j, mbind, Act_bind.
  pose proof (get_valid_backend_url_run t) as Hurl.
  destruct (get_valid_backend_url BACKEND_URL netloc t) as [[url|e] t1] eqn:Hget.
  - destruct Hurl as [-> Hposts]. unfold requests_post. rewrite Hposts, Hans. by eauto.
  - unfold get_valid_backend_url, mbind, Act_bind, act_lift in Hget.
    rewrite Hparsed in Hget. by destruct (decide (parsed ≠ "")).
Qed.

End upload_runs.

Lemma upload_chunk_sizes_witness :
  (0 < 3)%Z
  ∧ ∃ t', upload_file_chunked None netloc_of_default accepting 3 "bolt://db" "neo4j" "pw"
            "neo4j" seven_bytes "gpt" [] = (Ok (Body tt), t')
          ∧ map (λ r, length (file_bytes r)) (posts t') = [3; 3; 1]
          ∧ Forall (λ r, (0 < Z.of_nat (length (file_bytes r)) ≤ 3)%Z) (posts t').
Proof.
  assert (H : (0 < 3)%Z) by lia.
  split; [exact H|].
  destruct (upload_chunk_sizes None netloc_of_default accepting 3 "bolt://db" "neo4j"
              "pw" "neo4j" seven_bytes "gpt" [] H)
    as (out & t' & new & Hrun & Hp & Hsizes & _).
  simpl in Hp. rewrite <- Hp in Hsizes.
  vm_compute in Hrun. injection Hrun as <- <-.
  eexists. split; [vm_compute; reflexivity|]. split; [vm_compute; reflexivity|].
  exact Hsizes.
Defined.

Lemma upload_posts_in_order_witness :
  let requests := chunk_requests None netloc_of_default 3 "bolt://db" "neo4j" "pw" "neo4j"
                    seven_bytes "gpt" in
  (0 < 3)%Z
  ∧ ∃ t', upload_file_chunked None netloc_of_default (refusing_after 1) 3 "bolt://db"
            "neo4j" "pw" "neo4j" seven_bytes "gpt" [] = (Ok (Failed "Upload failed"), t')
          ∧ posts t' = take 2 requests
          ∧ length requests = 3.
Proof.
  intros requests.
  assert (H : (0 < 3)%Z) by lia.
  split; [exact H|].
  destruct (upload_posts_in_order None netloc_of_default (refusing_after 1) 3 "bolt://db"
              "neo4j" "pw" "neo4j" seven_bytes "gpt" [] H) as (out & t' & k & Hrun & _).
  vm_compute in Hrun. injection Hrun as <- <-.
  eexists. split; [vm_compute; reflexivity|]. split; vm_compute; reflexivity.
Defined.

Lemma upload_success_sends_whole_file_witness :
  ∃ t', (0 < 3)%Z
        ∧ upload_file_chunked None netloc_of_default accepting 3 "bolt://db" "neo4j" "pw"
            "neo4j" seven_bytes "gpt" [] = (Ok (Body tt), t')
        ∧ map file_bytes (posts t')
          = [[Byte.x61; Byte.x62; Byte.x63]; [Byte.x64; Byte.x65; Byte.x66]; [Byte.x67]]
        ∧ concat (map file_bytes (posts t')) = up_value seven_bytes.
Proof.
  destruct (upload_file_chunked None netloc_of_default accepting 3 "bolt://db" "neo4j"
              "pw" "neo4j" seven_bytes "gpt" []) as [res t'] eqn:Hrun.
  exists t'.
  assert (H : (0 < 3)%Z) by lia.
  assert (Hres : res = Ok (Body tt)) by (vm_compute in Hrun; by injection Hrun as <- _).
  subst res.
  destruct (upload_success_sends_whole_file None netloc_of_default accepting 3 "bolt://db"
              "neo4j" "pw" "neo4j" seven_bytes "gpt" [] t' tt H Hrun) as (Hp & Hb & _).
  split; [exact H|]. split; [reflexivity|]. simpl in Hp. rewrite Hp.
  split; [vm_compute; reflexivity|exact Hb].
Defined.

Lemma upload_empty_file_witness :
  (0 < 5 * 1024 * 1024)%Z
  ∧ up_value (Uploaded "empty.txt" []) = []
  ∧ upload_file None netloc_of_default accepting "bolt://db" "neo4j" "pw" "neo4j"
      (Uploaded "empty.txt" []) "gpt" []
    = (Ok (Failed "Upload incomplete"), []).
Proof.
  assert (H : (0 < 5 * 1024 * 1024)%Z) by lia.
  split; [exact H|]. split; [reflexivity|].
  exact (upload_empty_file None netloc_of_default accepting (5 * 1024 * 1024)
           "bolt://db" "neo4j" "pw" "neo4j" (Uploaded "empty.txt" []) "gpt" [] H eq_refl).
Defined.

Lemma only_connect_raises_witness :
  unreachable ([] ++ [ {| rq_url := backend_url None netloc_of_default +:+ "/connect";
                          rq_data := connection_data (plus_for_space "bolt://my db")
                                       "neo4j" "pw" "neo4j";
                          rq_file := None |} ])
    = TransportError "Connection refused"
  ∧ (∃ t', connect_to_neo4j None netloc_of_default unreachable "bolt://my db" "neo4j"
             "pw" "neo4j" [] = (Raise "Connection refused", t'))
  ∧ get_source_list None netloc_of_default unreachable "bolt://my db" "neo4j" "pw"
      "neo4j" []
    = (Ok (Failed "Connection refused"),
       [ Posted {| rq_url := "http://backend:8000/sources_list";
                   rq_data := [("uri", "bolt://my+db"); ("userName", "neo4j");
                               ("password", "pw"); ("database", "neo4j"); ("email", "")];
                   rq_file := None |};
         StError "Error fetching sources: Connection refused" ]).
Proof.
  split; [reflexivity|]. split; [|vm_compute; reflexivity].
  apply (proj2 (proj2 (only_connect_raises None netloc_of_default unreachable
                         "bolt://my db" "neo4j" "pw" "neo4j" []))
           "Connection refused" eq_refl).
  by exists "backend:8000".
Defined.





End upload.

(** ** Properties of the document selector and of the PyVis rendering *)

Section selector.
Import Py Visibility Cytoscape Spec Props Pyvis.
Context (key_eq : value → value → bool).

Lemma dict_set_values (P : string → Prop) (d : list (value * string)) (key : value)
    (v : string) :
  Forall (λ kv, P kv.2) d → P v → Forall (λ kv, P kv.2) (dict_set key_eq d key v).
Proof.
  intros Hd Hv. induction Hd as [|[k w] d Hk Hd IH]; simpl.
  - by constructor.
  - destruct (key_eq k key); by constructor.
Qed.

Lemma dict_lookup_value (P : string → Prop) (d : list (value * string)) (key : value)
    (v : string) :
  Forall (λ kv, P kv.2) d → dict_lookup key_eq d key = Some v → P v.
Proof.
  induction 1 as [|[k w] d Hk Hd IH]; simpl; [done|].
  destruct (key_eq k key); [by intros [= <-]|done].
Qed.

Lemma expandable_values (nodes : list node) :
  Forall (λ kv, document_node_id nodes kv.2) (expandable key_eq nodes).2.
Proof.
  unfold expandable.
  cut (∀ pre acc,
         Forall (λ kv : value * string, document_node_id (pre ++ nodes) kv.2) acc.2 →
         Forall (λ kv : value * string, document_node_id (pre ++ nodes) kv.2)
                (foldl (add_expandable key_eq) acc nodes).2).
  { intros H. apply (H [] ([], [])). constructor. }
  induction nodes as [|n nodes IH]; intros pre acc Hacc; [done|].
  simpl. replace (pre ++ n :: nodes) with ((pre ++ [n]) ++ nodes) in *
    by (by rewrite <- app_assoc).
  apply IH. unfold add_expandable.
  destruct (n_labels n) as [|l ls] eqn:Hl; [done|].
  destruct (bool_decide (l = "Document")) eqn:Hdoc; [|done].
  simpl. apply dict_set_values; [done|].
  exists n. split; [set_solver|]. split; [|done].
  unfold is_document. by rewrite Hl, Hdoc.
Qed.

(** X16.  Whatever is selected in the document selector of the graph
    tab, every id that lands in the expansion set is the id of a Document
    node of the graph. *)
Theorem selector_expands_documents_only (all_nodes : list node)
    (selected_labels : list value) (j : string) :
  j ∈ expanded_nodes_of key_eq all_nodes selected_labels →
  document_node_id all_nodes j.
Proof.
  unfold expanded_nodes_of. rewrite elem_of_list_to_set, list_elem_of_omap.
  intros (label & _ & Hlookup).
  by eapply dict_lookup_value; [apply expandable_values|].
Qed.

(** X17.  The document selector never changes what the graph tab shows:
    when every Document node has an [element_id], the visible nodes and
    relationships for the expansion set it produces are those for the
    empty expansion set. *)
Theorem selector_changes_nothing (all_nodes : list node) (rels : list rel)
    (selected_labels : list value) :
  Forall (λ n, is_document n → n_element_id n ≠ None) all_nodes →
  get_visible_nodes all_nodes rels (expanded_nodes_of key_eq all_nodes selected_labels)
    "data"
  = get_visible_nodes all_nodes rels ∅ "data".
Proof.
  intros Hids. rewrite !get_visible_nodes_data by done.
  rewrite visible_ids_with_documents_expanded; [done|].
  intros j Hj.
  assert (Hdoc : document_node_id all_nodes j).
  { unfold expanded_nodes_of in Hj.
    rewrite elem_of_list_to_set, list_elem_of_omap in Hj.
    destruct Hj as (label & _ & Hlookup).
    by eapply dict_lookup_value; [apply expandable_values|]. }
  destruct Hdoc as (n & Hn & Hdoc & Hid).
  exists n. split; [done|]. split; [done|].
  rewrite Forall_forall in Hids. specialize (Hids n Hn Hdoc).
  destruct (n_element_id n); [simpl in Hid; by subst|done].
Qed.

End selector.

Section pyvis.
Import Py Visibility Cytoscape Spec Props Pyvis.
Context {C : Type} (kamada_kawai_layout : digraph → string → C * C).

Lemma elem_of_add_node (g : digraph) (n i : string) :
  i ∈ g_nodes (Pyvis.add_node g n) ↔ i ∈ g_nodes g ∨ i = n.
Proof.
  unfold Pyvis.add_node. destruct (decide (n ∈ g_nodes g)); simpl; set_solver.
Qed.

Lemma elem_of_add_edge (g : digraph) (u v i : string) :
  i ∈ g_nodes (Pyvis.add_edge g u v) ↔ i ∈ g_nodes g ∨ i = u ∨ i = v.
Proof.
  unfold Pyvis.add_edge.
  destruct (decide ((u, v) ∈ g_edges (Pyvis.add_node (Pyvis.add_node g u) v)));
    simpl; rewrite !elem_of_add_node; tauto.
Qed.

Lemma elem_of_layout_nodes (nodes : list node) (g : digraph) (i : string) :
  i ∈ g_nodes (foldl (λ g n, Pyvis.add_node g (or_empty (n_element_id n))) g nodes)
  ↔ i ∈ g_nodes g ∨ ∃ n, n ∈ nodes ∧ or_empty (n_element_id n) = i.
Proof.
  revert g. induction nodes as [|n nodes IH]; intros g; simpl.
  - set_solver.
  - rewrite IH, elem_of_add_node. set_solver.
Qed.

Lemma elem_of_layout_graph (nodes : list node) (rels : list rel) (i : string) :
  i ∈ g_nodes (layout_graph nodes rels)
  ↔ (∃ n, n ∈ nodes ∧ or_empty (n_element_id n) = i)
    ∨ (∃ r, r ∈ rels ∧ or_empty (r_start r) ≠ "" ∧ or_empty (r_end r) ≠ ""
            ∧ (i = or_empty (r_start r) ∨ i = or_empty (r_end r))).
Proof.
  unfold layout_graph.
  set (g0 := foldl _ _ nodes).
  assert (H0 : i ∈ g_nodes g0 ↔ ∃ n, n ∈ nodes ∧ or_empty (n_element_id n) = i).
  { unfold g0. rewrite elem_of_layout_nodes. simpl. set_solver. }
  rewrite <- H0. clearbody g0. clear H0.
  revert g0. induction rels as [|r rels IH]; intros g0; simpl.
  - set_solver.
  - rewrite IH. clear IH.
    destruct (bool_decide (or_empty (r_start r) = "")) eqn:Hs;
      [apply bool_decide_eq_true in Hs|apply bool_decide_eq_false in Hs];
      destruct (bool_decide (or_empty (r_end r) = "")) eqn:He;
      [apply bool_decide_eq_true in He|apply bool_decide_eq_false in He
      |apply bool_decide_eq_true in He|apply bool_decide_eq_false in He];
      simpl; rewrite ?elem_of_add_edge; set_solver.
Qed.

Lemma node_calls_fold (G : digraph) (view_type : string) (expanded : gset string)
    (nodes : list node) (calls : list (node_call (C:=C))) :
  Forall (λ n, in_pos G (or_empty (n_element_id n))) nodes →
  map (λ c, (nc_id c, nc_label c, nc_color c))
      (foldl (add_node_call kamada_kawai_layout G view_type expanded) calls nodes)
  = map (λ c, (nc_id c, nc_label c, nc_color c)) calls
    ++ map (λ n, let c := convert_node COLOR_SCHEME expanded n in
                 (cn_id c, cn_label c, cn_color c)) nodes.
Proof.
  intros Hin. revert calls.
  induction Hin as [|n nodes Hn Hin IH]; intros calls; simpl.
  - by rewrite app_nil_r.
  - rewrite IH. unfold add_node_call at 1.
    destruct (decide (in_pos G (or_empty (n_element_id n)))); [|done].
    rewrite map_app. simpl. by rewrite <- app_assoc.
Qed.

(** X18.  The PyVis rendering draws every node it is given, once and in
    order, and gives each the id, the label and the colour that the
    Cytoscape mapping gives it. *)
Theorem pyvis_draws_every_node (nodes : list node) (rels : list rel)
    (view_type : string) (expanded : option (gset string)) :
  map (λ c, (nc_id c, nc_label c, nc_color c))
      (render_graph_visualization kamada_kawai_layout nodes rels view_type expanded).1
  = map (λ n, let c := convert_node COLOR_SCHEME (default ∅ expanded) n in
              (cn_id c, cn_label c, cn_color c)) nodes.
Proof.
  unfold render_graph_visualization. cbn [fst].
  rewrite node_calls_fold; [done|].
  apply Forall_forall. intros n Hn. unfold in_pos.
  apply elem_of_layout_graph. left. by exists n.
Qed.

Lemma node_call_ids (G : digraph) (view_type : string) (expanded : gset string)
    (nodes : list node) (calls : list (node_call (C:=C))) :
  Forall (λ n, in_pos G (or_empty (n_element_id n))) nodes →
  map nc_id (foldl (add_node_call kamada_kawai_layout G view_type expanded) calls nodes)
  = map nc_id calls ++ map (λ n, or_empty (n_element_id n)) nodes.
Proof.
  intros Hin. revert calls.
  induction Hin as [|n nodes Hn Hin IH]; intros calls; simpl.
  - by rewrite app_nil_r.
  - rewrite IH. unfold add_node_call at 1.
    destruct (decide (in_pos G (or_empty (n_element_id n)))); [|done].
    rewrite map_app. simpl. by rewrite <- app_assoc.
Qed.

Lemma edge_calls_raised (G : digraph) (node_ids : list string) (rels : list rel)
    (e : string) :
  foldl (add_edge_call G node_ids) (Raise e) rels = Raise e.
Proof. induction rels as [|r rels IH]; [done|]. simpl. exact IH. Qed.

Lemma edge_calls_closed (G : digraph) (node_ids : list string) (rels : list rel)
    (calls : list edge_call) :
  (∀ i, i ∈ node_ids → in_pos G i) →
  (∀ r, r ∈ rels → or_empty (r_start r) ∈ node_ids ∧ or_empty (r_end r) ∈ node_ids) →
  foldl (add_edge_call G node_ids) (Ok calls) rels = Ok (calls ++ map edge_call_of rels).
Proof.
  intros Hpos. revert calls. induction rels as [|r rels IH]; intros calls Hclosed.
  - simpl. by rewrite app_nil_r.
  - destruct (Hclosed r ltac:(by left)) as [Hs He].
    simpl. unfold net_add_edge.
    rewrite decide_True by (split; by apply Hpos).
    rewrite (decide_True _ _ Hs), (decide_True _ _ He).
    rewrite IH by (intros r' Hr'; apply Hclosed; by right).
    rewrite <- app_assoc. done.
Qed.

Lemma edge_calls_dangling (G : digraph) (node_ids : list string) (rels : list rel)
    (calls : list edge_call) (r : rel) :
  r ∈ rels →
  in_pos G (or_empty (r_start r)) → in_pos G (or_empty (r_end r)) →
  ¬ (or_empty (r_start r) ∈ node_ids ∧ or_empty (r_end r) ∈ node_ids) →
  ∃ i, (i ∉ node_ids)
       ∧ foldl (add_edge_call G node_ids) (Ok calls) rels
         = Raise ("non existent node '" +:+ i +:+ "'").
Proof.
  intros Hr Hs He Hdangling. revert calls.
  induction rels as [|r0 rels IH]; intros calls; [by apply elem_of_nil in Hr|].
  simpl.
  destruct (decide (in_pos G (or_empty (r_start r0)) ∧ in_pos G (or_empty (r_end r0))))
    as [Hpos|Hnot].
  - unfold net_add_edge.
    destruct (decide (or_empty (r_start r0) ∈ node_ids)) as [Hs0|Hs0];
      [|exists (or_empty (r_start r0)); split; [done|apply edge_calls_raised]].
    destruct (decide (or_empty (r_end r0) ∈ node_ids)) as [He0|He0];
      [|exists (or_empty (r_end r0)); split; [done|apply edge_calls_raised]].
    apply elem_of_cons in Hr as [->|Hr]; [tauto|]. by apply IH.
  - apply elem_of_cons in Hr as [->|Hr]; [tauto|]. by apply IH.
Qed.

(** X19.  The PyVis rendering calls [net.add_edge] for every
    relationship, in order, when both ends of every relationship are ids
    of the nodes it was given.  A relationship with two non-empty ends of
    which one is not the id of a node given is not left out, as the
    Cytoscape mapping leaves it out: the ends are nodes of the layout
    graph, [net.add_edge] is called, and the rendering raises the
    [AssertionError] of PyVis for an id that is not a node of the
    network. *)
Theorem pyvis_edges_need_their_nodes (nodes : list node) (rels : list rel)
    (view_type : string) (expanded : option (gset string)) :
  let node_ids := map (λ n, or_empty (n_element_id n)) nodes in
  let edge_calls :=
    (render_graph_visualization kamada_kawai_layout nodes rels view_type expanded).2 in
  ((∀ r, r ∈ rels →
         or_empty (r_start r) ∈ node_ids ∧ or_empty (r_end r) ∈ node_ids) →
   edge_calls = Ok (map edge_call_of rels))
  ∧ (∀ r, r ∈ rels → or_empty (r_start r) ≠ "" → or_empty (r_end r) ≠ "" →
          ¬ (or_empty (r_start r) ∈ node_ids ∧ or_empty (r_end r) ∈ node_ids) →
          ∃ i, (i ∉ node_ids)
               ∧ edge_calls = Raise ("non existent node '" +:+ i +:+ "'")).
Proof.
  intros node_ids edge_calls.
  assert (Hpos : ∀ i, i ∈ node_ids → in_pos (layout_graph nodes rels) i).
  { intros i (n & -> & Hn)%list_elem_of_fmap. unfold in_pos.
    apply elem_of_layout_graph. left. by exists n. }
  assert (Hids : map nc_id
                   (foldl (add_node_call kamada_kawai_layout (layout_graph nodes rels)
                             view_type (default ∅ expanded)) [] nodes)
                 = node_ids).
  { rewrite node_call_ids; [done|].
    apply Forall_forall. intros n Hn. apply Hpos, list_elem_of_fmap. by exists n. }
  unfold edge_calls, render_graph_visualization. cbn [snd]. rewrite Hids.
  split.
  - intros Hclosed. by rewrite edge_calls_closed.
  - intros r Hr Hs He Hdangling.
    apply edge_calls_dangling with (r := r); [done| | |done];
      unfold in_pos; apply elem_of_layout_graph; right; exists r; tauto.
Qed.

End pyvis.

(** ** Properties of the backend helpers *)

Section api_response.
Import ApiResponse.
Context {V : Type}.

(** X20.  The response of [create_api_response] always has [status];
    [data], [error], [success_count], [message], [file_source] and
    [file_name] are entries exactly when they are given; [failed_count]
    is an entry exactly when [success_count] is given, with whatever was
    passed for it, [None] included; and there is no other entry. *)
Theorem api_response_entries (status success_count failed_count data error message
    file_source file_name : option V) :
  let response := create_api_response status success_count failed_count data error
                    message file_source file_name in
  response !! "status" = Some status
  ∧ response !! "data" = when_given data
  ∧ response !! "error" = when_given error
  ∧ response !! "success_count" = when_given success_count
  ∧ response !! "failed_count"
    = (if success_count is Some _ then Some failed_count else None)
  ∧ response !! "message" = when_given message
  ∧ response !! "file_source" = when_given file_source
  ∧ response !! "file_name" = when_given file_name
  ∧ ∀ k, k ∉ ["status"; "data"; "error"; "success_count"; "failed_count"; "message";
              "file_source"; "file_name"] → response !! k = None.
Proof.
  unfold create_api_response, when_given.
  destruct data, error, success_count, message, file_source, file_name; cbv zeta;
    (repeat split; [by simplify_map_eq..|]);
    intros k Hk; rewrite !not_elem_of_cons in Hk;
    rewrite ?lookup_insert_ne by (intros <-; tauto);
    (apply lookup_singleton_ne; intros <-; tauto).
Qed.

End api_response.

Section neighbours.
Import Py Neighbours.
Context {N R : Type}.
Context (get_graphDB_driver : list event → result (option driver)).
Context (verify_connectivity : list event → result unit).
Context (execute_query : list event → result (list (record (N:=N) (R:=R)))).
Context (close : list event → result unit).

Lemma calls_snoc_logged (t : list event) (lv : level) (msg : string) :
  calls (t ++ [Logged lv msg]) = calls t.
Proof. unfold calls. rewrite omap_app. simpl. by rewrite app_nil_r. Qed.

Lemma calls_snoc_called (t : list event) (c : call) :
  calls (t ++ [Called c]) = calls t ++ [c].
Proof. unfold calls. by rewrite omap_app. Qed.

Lemma closes_snoc_logged (t : list event) (lv : level) (msg : string) :
  closes (t ++ [Logged lv msg]) = closes t.
Proof. unfold closes. by rewrite calls_snoc_logged. Qed.

Lemma closes_snoc_called (t : list event) (c : call) :
  closes (t ++ [Called c]) = (closes t + if decide (c = Close) then 1 else 0)%nat.
Proof.
  unfold closes. rewrite calls_snoc_called, filter_app, length_app.
  f_equal. rewrite filter_cons, filter_nil. by destruct (decide (c = Close)).
Qed.

Ltac run_cases :=
  unfold get_neighbour_nodes, run_finally, run_try, on_exit, on_error, query_driver,
    method, driver_call, logging, run_lift, first_record, at_opening;
  cbv [mbind mret Run_bind Run_ret];
  repeat match goal with
    | |- context [get_graphDB_driver ?t] =>
        let H := fresh "Hopen" in destruct (get_graphDB_driver t) as [[[]|]|?] eqn:H
    | |- context [verify_connectivity ?t] =>
        let H := fresh "Hverify" in destruct (verify_connectivity t) as [[]|?] eqn:H
    | |- context [execute_query ?t] =>
        let H := fresh "Hquery" in destruct (execute_query t) as [[|? ?]|?] eqn:H
    | |- context [close ?t] =>
        let H := fresh "Hclose" in destruct (close t) as [[]|?] eqn:H
    end.

(** X21.  [get_neighbour_nodes] does not raise as long as closing the
    driver does not: it returns the nodes and relationships of the first
    record of the answer, or the empty result. *)
Theorem neighbours_returns_when_close_does
    (uri username password database element_id query : string) (t : list event) :
  (∀ t', close t' = Ok tt) →
  let r := (get_neighbour_nodes get_graphDB_driver verify_connectivity execute_query
              close uri username password database element_id query t).1 in
  r = Ok {| nb_nodes := []; nb_relationships := [] |}
  ∨ ∃ t' r0 records,
      execute_query t' = Ok (r0 :: records)
      ∧ r = Ok {| nb_nodes := default [] (rec_nodes r0);
                  nb_relationships := default [] (rec_relationships r0) |}.
Proof.
  intros Hclose_ok. cbv zeta. run_cases; cbn [fst];
    try (rewrite Hclose_ok in *; discriminate);
    try (by left).
  right. eauto.
Qed.

(** X22.  [get_neighbour_nodes] closes the driver exactly once when
    [get_graphDB_driver] has returned one, as the last call it makes on
    it, and makes no call to close otherwise. *)
Theorem neighbours_closes_driver_once
    (uri username password database element_id query : string) (t : list event) :
  let t' := (get_neighbour_nodes get_graphDB_driver verify_connectivity execute_query
               close uri username password database element_id query t).2 in
  match get_graphDB_driver (at_opening t uri username password database element_id) with
  | Ok (Some _) => closes t' = S (closes t) ∧ last (calls t') = Some Close
  | _ => closes t' = closes t
  end.
Proof.
  cbv zeta.
  replace (at_opening t uri username password database element_id)
    with ((t ++ [Logged INFO ("Querying neighbours for element_id: " +:+ element_id)])
            ++ [Called (GetDriver uri username password database)])
    by (unfold at_opening; by rewrite <- app_assoc).
  run_cases; cbn [snd];
    repeat (rewrite ?closes_snoc_logged, ?closes_snoc_called,
              ?calls_snoc_logged, ?calls_snoc_called, ?last_snoc);
    repeat match goal with
      | |- context [decide (?c = Close)] => destruct (decide (c = Close)); try discriminate
      end;
    try split; try done; lia.
Qed.

(** X23.  When closing the driver raises, [get_neighbour_nodes] raises
    that exception, whatever the query had answered. *)
Theorem neighbours_close_failure_raises
    (uri username password database element_id query : string) (t : list event)
    (e : string) :
  get_graphDB_driver (at_opening t uri username password database element_id)
  = Ok (Some Driver) →
  (∀ t', close t' = Raise e) →
  (get_neighbour_nodes get_graphDB_driver verify_connectivity execute_query
     close uri username password database element_id query t).1 = Raise e.
Proof.
  replace (at_opening t uri username password database element_id)
    with ((t ++ [Logged INFO ("Querying neighbours for element_id: " +:+ element_id)])
            ++ [Called (GetDriver uri username password database)])
    by (unfold at_opening; by rewrite <- app_assoc).
  intros Hopen Hclose_raises. run_cases; cbn [fst];
    try (rewrite Hclose_raises in *; congruence);
    congruence.
Qed.

End neighbours.

Section wikipedia.
Import Py Wikipedia.
Context {P : Type} (strip : string → string) (load : string → string → result (list P)).

(** X24.  When the Wikipedia loader raises, [get_documents_from_Wikipedia]
    raises [UnboundLocalError] for [file_name], and logs nothing. *)
Theorem wikipedia_failure_is_unbound_local (wiki_query language : string)
    (log : list (level * string)) (e : string) :
  load (strip wiki_query) language = Raise e →
  get_documents_from_Wikipedia strip load wiki_query language log
  = (Raised (UnboundLocalError "file_name"), log).
Proof.
  intros Hload. unfold get_documents_from_Wikipedia, body. by rewrite Hload.
Qed.

(** X25.  [get_documents_from_Wikipedia] never raises
    [LLMGraphBuilderException], and never logs the failure of a query. *)
Theorem wikipedia_never_raises_builder_exception (wiki_query language : string)
    (log : list (level * string)) :
  let run := get_documents_from_Wikipedia strip load wiki_query language log in
  (∀ msg, run.1 ≠ Raised (LLMGraphBuilderException msg))
  ∧ ∀ msg, (ERROR, msg) ∈ run.2 → (ERROR, msg) ∈ log.
Proof.
  unfold get_documents_from_Wikipedia, body.
  destruct (load (strip wiki_query) language) as [pages|e]; simpl.
  - split; [done|]. intros msg. rewrite elem_of_app, list_elem_of_singleton.
    by intros [?|[=]].
  - split; done.
Qed.

End wikipedia.

Section selector_witnesses.
Import Py Visibility Cytoscape Spec Props Pyvis.

Lemma selector_expands_documents_only_witness :
  let key_eq := λ a b : value, bool_decide (a = b) in
  let all_nodes := [Node (Some "d1") ["Document"] [("fileName", VStr "a.pdf")];
                    Node (Some "c1") ["Chunk"] []] in
  "d1" ∈ expanded_nodes_of key_eq all_nodes [VStr "a.pdf"]
  ∧ document_node_id all_nodes "d1".
Proof.
  intros key_eq all_nodes.
  assert (H : "d1" ∈ expanded_nodes_of key_eq all_nodes [VStr "a.pdf"])
    by (apply (bool_decide_unpack _); vm_compute; exact I).
  split; [exact H|].
  exact (selector_expands_documents_only key_eq all_nodes [VStr "a.pdf"] "d1" H).
Defined.

Lemma selector_changes_nothing_witness :
  let key_eq := λ a b : value, bool_decide (a = b) in
  let all_nodes := [Node (Some "d1") ["Document"] [("fileName", VStr "a.pdf")];
                    Node (Some "c1") ["Chunk"] []; Node (Some "e2") ["Person"] []] in
  let rels := [Rel (Some "r1") (Some "d1") (Some "c1") (Some "HAS_CHUNK");
               Rel (Some "r2") (Some "c1") (Some "e2") (Some "MENTIONS")] in
  Forall (λ n, is_document n → n_element_id n ≠ None) all_nodes
  ∧ get_visible_nodes all_nodes rels (expanded_nodes_of key_eq all_nodes [VStr "a.pdf"])
      "data"
    = get_visible_nodes all_nodes rels ∅ "data".
Proof.
  intros key_eq all_nodes rels.
  assert (H : Forall (λ n, is_document n → n_element_id n ≠ None) all_nodes)
    by (repeat constructor; intros _ [=]).
  split; [exact H|].
  exact (selector_changes_nothing key_eq all_nodes rels [VStr "a.pdf"] H).
Defined.

Lemma pyvis_edges_need_their_nodes_witness :
  let layout := λ (_ : digraph) (_ : string), (0%Z, 0%Z) in
  let nodes := [Node (Some "d1") ["Document"] []; Node (Some "c1") ["Chunk"] []] in
  let node_ids := map (λ n, or_empty (n_element_id n)) nodes in
  let r1 := Rel (Some "r1") (Some "d1") (Some "c1") (Some "HAS_CHUNK") in
  let r2 := Rel (Some "r2") (Some "c1") (Some "gone") (Some "MENTIONS") in
  ((∀ r, r ∈ [r1] →
         or_empty (r_start r) ∈ node_ids ∧ or_empty (r_end r) ∈ node_ids)
   ∧ (render_graph_visualization layout nodes [r1] "data" None).2
     = Ok [ {| ec_source := "d1"; ec_to := "c1"; ec_title := "HAS_CHUNK" |} ])
  ∧ (r2 ∈ [r1; r2] ∧ or_empty (r_start r2) ≠ "" ∧ or_empty (r_end r2) ≠ ""
     ∧ ¬ (or_empty (r_start r2) ∈ node_ids ∧ or_empty (r_end r2) ∈ node_ids)
     ∧ ∃ i, (i ∉ node_ids)
            ∧ (render_graph_visualization layout nodes [r1; r2] "data" None).2
              = Raise ("non existent node '" +:+ i +:+ "'")).
Proof.
  intros layout nodes node_ids r1 r2.
  assert (Hclosed : ∀ r, r ∈ [r1] →
            or_empty (r_start r) ∈ node_ids ∧ or_empty (r_end r) ∈ node_ids).
  { intros r ->%list_elem_of_singleton.
    split; apply (bool_decide_unpack _); vm_compute; exact I. }
  assert (Hr : r2 ∈ [r1; r2]) by (right; left).
  assert (Hs : or_empty (r_start r2) ≠ "") by (by intros [=]).
  assert (He : or_empty (r_end r2) ≠ "") by (by intros [=]).
  assert (Hd : ¬ (or_empty (r_start r2) ∈ node_ids ∧ or_empty (r_end r2) ∈ node_ids)).
  { intros [_ Hin]. revert Hin. apply (bool_decide_unpack _). vm_compute. exact I. }
  split.
  - split; [exact Hclosed|].
    exact (proj1 (pyvis_edges_need_their_nodes layout nodes [r1] "data" None) Hclosed).
  - split; [exact Hr|]. split; [exact Hs|]. split; [exact He|]. split; [exact Hd|].
    exact (proj2 (pyvis_edges_need_their_nodes layout nodes [r1; r2] "data" None)
             r2 Hr Hs He Hd).
Defined.

(** The relationship to a node that is not there ends the rendering,
    after the edge before it was added. *)
Example pyvis_dangling_relationship :
  let layout := λ (_ : digraph) (_ : string), (0%Z, 0%Z) in
  let nodes := [Node (Some "d1") ["Document"] []; Node (Some "c1") ["Chunk"] []] in
  let r1 := Rel (Some "r1") (Some "d1") (Some "c1") (Some "HAS_CHUNK") in
  let r2 := Rel (Some "r2") (Some "c1") (Some "gone") (Some "MENTIONS") in
  (render_graph_visualization layout nodes [r1; r2] "data" None).2
  = Raise "non existent node 'gone'"
  ∧ el_edges (_convert_to_cytoscape_format nodes [r1; r2] ∅ COLOR_SCHEME)
    = [ {| ce_id := "r1"; ce_source := "d1"; ce_target := "c1";
           ce_label := "HAS_CHUNK" |} ].
Proof. split; vm_compute; reflexivity. Qed.

End selector_witnesses.

Section backend_witnesses.
Import Py Neighbours Wikipedia.

Lemma neighbours_returns_when_close_does_witness :
  let get_graphDB_driver := λ _ : list event, Ok (Some Driver) in
  let verify_connectivity := λ _ : list event, Raise (A:=unit) "Unable to connect" in
  let execute_query := λ _ : list event, Ok ([] : list (record (N:=string) (R:=string))) in
  let close := λ _ : list event, Ok tt in
  (∀ t', close t' = Ok tt)
  ∧ (get_neighbour_nodes get_graphDB_driver verify_connectivity execute_query close
       "bolt://db" "neo4j" "secret" "neo4j" "4:abc:1" "MATCH (n) RETURN n" []).1
    = Ok {| nb_nodes := []; nb_relationships := [] |}.
Proof.
  intros get_graphDB_driver verify_connectivity execute_query close.
  assert (H : ∀ t', close t' = Ok tt) by reflexivity.
  split; [exact H|].
  destruct (neighbours_returns_when_close_does get_graphDB_driver verify_connectivity
              execute_query close "bolt://db" "neo4j" "secret" "neo4j" "4:abc:1"
              "MATCH (n) RETURN n" [] H) as [Hr|(t' & r0 & records & Hq & _)].
  - exact Hr.
  - discriminate Hq.
Defined.

Lemma neighbours_close_failure_raises_witness :
  let get_graphDB_driver := λ _ : list event, Ok (Some Driver) in
  let verify_connectivity := λ _ : list event, Ok tt in
  let execute_query := λ _ : list event,
    Ok [ {| rec_nodes := Some ["n1"]; rec_relationships := Some ["r1"] |} ] in
  let close := λ _ : list event, Raise (A:=unit) "session expired" in
  get_graphDB_driver (at_opening [] "bolt://db" "neo4j" "secret" "neo4j" "4:abc:1")
  = Ok (Some Driver)
  ∧ (∀ t', close t' = Raise "session expired")
  ∧ (get_neighbour_nodes get_graphDB_driver verify_connectivity execute_query close
       "bolt://db" "neo4j" "secret" "neo4j" "4:abc:1" "MATCH (n) RETURN n" []).1
    = Raise "session expired".
Proof.
  intros get_graphDB_driver verify_connectivity execute_query close.
  assert (Ho : get_graphDB_driver
                 (at_opening [] "bolt://db" "neo4j" "secret" "neo4j" "4:abc:1")
               = Ok (Some Driver)) by reflexivity.
  assert (Hc : ∀ t', close t' = Raise "session expired") by reflexivity.
  split; [exact Ho|]. split; [exact Hc|].
  exact (neighbours_close_failure_raises get_graphDB_driver verify_connectivity
           execute_query close "bolt://db" "neo4j" "secret" "neo4j" "4:abc:1"
           "MATCH (n) RETURN n" [] "session expired" Ho Hc).
Defined.

Lemma wikipedia_failure_is_unbound_local_witness :
  let strip := λ s : string, s in
  let load := λ _ _ : string, Raise (A:=list string) "Page id does not match any pages" in
  load (strip "Rocq") "en" = Raise "Page id does not match any pages"
  ∧ get_documents_from_Wikipedia strip load "Rocq" "en" []
    = (Raised (UnboundLocalError "file_name"), []).
Proof.
  intros strip load.
  assert (H : load (strip "Rocq") "en" = Raise "Page id does not match any pages")
    by reflexivity.
  split; [exact H|].
  exact (wikipedia_failure_is_unbound_local strip load "Rocq" "en" []
           "Page id does not match any pages" H).
Defined.

End backend_witnesses.
